(** * Kenzies Fridge leaderboard backend: a shallow embedding of [main.py]

    The model follows the source file top to bottom; the lemmas and the
    theorems come after it, one section per handler.

    - Python [str] is [string]; every [ascii] stands for one character whose
      code point is below 256, so slicing counts characters as Python does.
    - Python [int] is [Z] (unbounded).
    - Python [float] is an interface, [PyFloat]: the handlers only combine
      floats with [+ - * /], [==], [<], [round(x, 2)], [float(..)] and
      [int(..)].  The theorems of the handler sections hold for any
      implementation of these built-ins; where one needs a law of the
      built-ins (an order law of [<], [round(5000.0, 2) == 5000.0]) it is a
      hypothesis.  [ExactFloat] is an executable instance (exact rationals)
      on which the handlers are run on concrete inputs.
    - A value read by [json.load] is a [json] tree.  Python [dict]s keep
      insertion order, so a dict is an association list; [dict_set] rewrites
      a key in place and appends a new one.
    - Exceptions are values of [exn]; a computation that can raise returns a
      [result].  The handlers run in [M], a state and exception monad over
      the [world]: the backing file and the clock read by [datetime.utcnow].
      Writing the file always succeeds, and one handler runs at a time (the
      source holds a process-wide lock around each of them).
    - Where Python mutates an object reached through an alias
      ([u = users.setdefault(..)], [ent] in [for ent in recent]), the model
      rebuilds the enclosing containers before the Document is written; the
      keys were inserted before, so [dict_set] keeps their position. *)

From Stdlib Require Import ZArith List String Ascii Bool Lia.
From Stdlib Require Import QArith Qround.
From Stdlib Require Import Permutation Sorted.
Import ListNotations.

Local Open Scope string_scope.
Local Open Scope Z_scope.
Set Warnings "-register-all".

(** ** Python strings *)

Module PyStr.

(** [str.isspace] on the characters below code point 256. *)
Definition isspace (c : ascii) : bool :=
  let n := Z.of_nat (nat_of_ascii c) in
  ((9 <=? n) && (n <=? 13)) || ((28 <=? n) && (n <=? 32))
  || (n =? 133) || (n =? 160).

Fixpoint lstrip (s : string) : string :=
  match s with
  | EmptyString => EmptyString
  | String c r => if isspace c then lstrip r else s
  end.

Fixpoint rstrip (s : string) : string :=
  match s with
  | EmptyString => EmptyString
  | String c r =>
      match rstrip r with
      | EmptyString => if isspace c then EmptyString else String c EmptyString
      | r' => String c r'
      end
  end.

(** [s.strip()] *)
Definition strip (s : string) : string := rstrip (lstrip s).

(** [s[:n]] *)
Fixpoint slice_to (n : nat) (s : string) : string :=
  match n, s with
  | O, _ => EmptyString
  | _, EmptyString => EmptyString
  | S n', String c r => String c (slice_to n' r)
  end.

Definition lower_char (c : ascii) : ascii :=
  let n := Z.of_nat (nat_of_ascii c) in
  if ((65 <=? n) && (n <=? 90))
     || ((192 <=? n) && (n <=? 222) && negb (n =? 215))
  then ascii_of_nat (nat_of_ascii c + 32)
  else c.

(** [s.lower()] *)
Fixpoint lower (s : string) : string :=
  match s with
  | EmptyString => EmptyString
  | String c r => String (lower_char c) (lower r)
  end.

(** [sub in s] for two strings. *)
Fixpoint contains (sub s : string) : bool :=
  prefix sub s
  || match s with
     | EmptyString => false
     | String _ r => contains sub r
     end.

(** Decimal rendering of a non-negative integer, as [%d] prints it. *)
Definition digit (n : Z) : ascii := ascii_of_nat (Z.to_nat (48 + n)).

Fixpoint digits_fuel (fuel : nat) (n : Z) (acc : string) : string :=
  match fuel with
  | O => acc
  | S fuel' =>
      let acc' := String (digit (n mod 10)) acc in
      if n / 10 =? 0 then acc' else digits_fuel fuel' (n / 10) acc'
  end.

Definition of_Z (n : Z) : string :=
  digits_fuel (S (Z.to_nat (Z.log2 n))) n EmptyString.

(** [%02d] for the month of a [datetime]. *)
Definition pad2 (n : Z) : string :=
  if n <? 10 then String (digit 0) (of_Z n) else of_Z n.

End PyStr.

Arguments PyStr.slice_to : simpl never.
Arguments PyStr.strip : simpl never.
Arguments PyStr.lower : simpl never.
Arguments PyStr.of_Z : simpl never.

(** ** Exceptions and results *)

Inductive exn : Type :=
| HTTPException (status_code : Z) (detail : string)
| AttributeError
| TypeError
| ValueError
| OverflowError
| ZeroDivisionError.

Inductive result (A : Type) : Type :=
| Ok (a : A)
| Raise (e : exn).
Arguments Ok {A} a.
Arguments Raise {A} e.

Definition rbind {A B} (r : result A) (k : A -> result B) : result B :=
  match r with
  | Ok a => k a
  | Raise e => Raise e
  end.

(** [try: r  except Exception: h] *)
Definition try_except {A} (r : result A) (h : result A) : result A :=
  match r with
  | Ok a => Ok a
  | Raise _ => h
  end.

Definition of_option {A} (o : option A) (e : exn) : result A :=
  match o with
  | Some a => Ok a
  | None => Raise e
  end.

Fixpoint mapM {A B} (f : A -> result B) (l : list A) : result (list B) :=
  match l with
  | [] => Ok []
  | x :: r =>
      rbind (f x) (fun y => rbind (mapM f r) (fun ys => Ok (y :: ys)))
  end.

Declare Scope result_scope.
Delimit Scope result_scope with result.
Notation "x <- c ;; k" := (rbind c (fun x => k))
  (at level 61, c at next level, right associativity) : result_scope.
Notation "' p <- c ;; k" := (rbind c (fun x => match x with p => k end))
  (at level 61, p pattern, c at next level, right associativity) : result_scope.

(** ** The float built-ins *)

Class PyFloat : Type := {
  float : Type;
  (** the literals [0.0], [1.0] (= [float(True)]), [100.0] and [5000.0] *)
  fzero : float;
  fone : float;
  fhundred : float;
  f5000 : float;
  fadd : float -> float -> float;
  fsub : float -> float -> float;
  fmul : float -> float -> float;
  (** [x / y] for a divisor that is not zero *)
  fdiv : float -> float -> float;
  (** [x == y] and [x < y] *)
  feqb : float -> float -> bool;
  fltb : float -> float -> bool;
  (** [round(x, 2)] *)
  round2 : float -> float;
  (** [float(n)] of an [int]; [None] is [OverflowError] *)
  float_of_int : Z -> option float;
  (** [float(s)] of a [str]; [None] is [ValueError] *)
  float_of_str : string -> option float;
  (** [int(x)] of a [float]; [None] on nan ([ValueError]) and on the
      infinities ([OverflowError]) *)
  int_of_float : float -> option Z;
  fis_nan : float -> bool;
  (** [int(s)] of a [str]; [None] is [ValueError] *)
  int_of_str : string -> option Z;
  (** [a / b] of two [int]s, [b] not zero; [None] is [OverflowError] *)
  int_truediv : Z -> Z -> option float
}.

Section Model.

Context {PF : PyFloat}.

(** [START_BALANCE = 5000.0] *)
Definition START_BALANCE : float := f5000.

(** ** JSON values, as [json.load] returns them *)

Inductive json : Type :=
| JNull
| JBool (b : bool)
| JInt (z : Z)
| JFloat (f : float)
| JStr (s : string)
| JList (l : list json)
| JDict (d : list (string * json)).

Definition dict : Type := list (string * json).

Fixpoint dict_get (k : string) (d : dict) : option json :=
  match d with
  | [] => None
  | (k', v) :: r => if String.eqb k' k then Some v else dict_get k r
  end.

(** [d[k] = v] *)
Fixpoint dict_set (k : string) (v : json) (d : dict) : dict :=
  match d with
  | [] => [(k, v)]
  | (k', v') :: r =>
      if String.eqb k' k then (k', v) :: r else (k', v') :: dict_set k v r
  end.

(** [d.get(k, default)] on a dict *)
Definition dict_get_default (k : string) (default : json) (d : dict) : json :=
  match dict_get k d with
  | Some v => v
  | None => default
  end.

(** [d.setdefault(k, default)] on a dict: the value reached, and the dict. *)
Definition dict_setdefault (k : string) (default : json) (d : dict)
  : json * dict :=
  match dict_get k d with
  | Some v => (v, d)
  | None => (default, dict_set k default d)
  end.

(** *** The object protocol on JSON values

    Only a dict has [get], [setdefault] and [items]; the other values raise
    [AttributeError].  Item assignment with a string key works on a dict and
    is a [TypeError] elsewhere. *)

Definition py_get (o : json) (k : string) (default : json) : result json :=
  match o with
  | JDict d => Ok (dict_get_default k default d)
  | _ => Raise AttributeError
  end.

Definition py_setdefault (o : json) (k : string) (default : json)
  : result (json * json) :=
  match o with
  | JDict d =>
      let '(v, d') := dict_setdefault k default d in Ok (v, JDict d')
  | _ => Raise AttributeError
  end.

Definition py_setitem (o : json) (k : string) (v : json) : result json :=
  match o with
  | JDict d => Ok (JDict (dict_set k v d))
  | _ => Raise TypeError
  end.

Definition py_items (o : json) : result (list (string * json)) :=
  match o with
  | JDict d => Ok d
  | _ => Raise AttributeError
  end.

(** [s == v] for a [str] [s] *)
Definition str_eq (s : string) (v : json) : bool :=
  match v with
  | JStr t => String.eqb s t
  | _ => false
  end.

(** [s in v] for a [str] [s] *)
Definition py_in (s : string) (v : json) : result bool :=
  match v with
  | JDict d => Ok (match dict_get s d with Some _ => true | None => false end)
  | JList l => Ok (existsb (str_eq s) l)
  | JStr t => Ok (PyStr.contains s t)
  | _ => Raise TypeError
  end.

(** Truth value of an object, as [if v:] and [v or w] test it. *)
Definition truthy (v : json) : bool :=
  match v with
  | JNull => false
  | JBool b => b
  | JInt z => negb (z =? 0)
  | JFloat f => negb (feqb f fzero)
  | JStr s => negb (String.eqb s "")
  | JList l => match l with [] => false | _ => true end
  | JDict d => match d with [] => false | _ => true end
  end.

(** [v or w] *)
Definition py_or (v w : json) : json := if truthy v then v else w.

(** [float(v)] *)
Definition py_float (v : json) : result float :=
  match v with
  | JFloat f => Ok f
  | JInt z => of_option (float_of_int z) OverflowError
  | JBool b => Ok (if b then fone else fzero)
  | JStr s => of_option (float_of_str s) ValueError
  | _ => Raise TypeError
  end.

(** [int(v)] *)
Definition py_int (v : json) : result Z :=
  match v with
  | JInt z => Ok z
  | JBool b => Ok (if b then 1 else 0)
  | JFloat f =>
      of_option (int_of_float f)
                (if fis_nan f then ValueError else OverflowError)
  | JStr s => of_option (int_of_str s) ValueError
  | _ => Raise TypeError
  end.

(** [x / y] on floats *)
Definition py_fdiv (x y : float) : result float :=
  if feqb y fzero then Raise ZeroDivisionError else Ok (fdiv x y).

(** [a / b] on ints *)
Definition py_idiv (a b : Z) : result float :=
  if b =? 0 then Raise ZeroDivisionError
  else of_option (int_truediv a b) OverflowError.

(** ** The world: the backing file and the clock *)

(** What the handlers use of a [datetime]: the year and month that
    [strftime("%Y-%m")] prints, and the text [isoformat()] returns. *)
Record datetime : Type := {
  dt_year : Z;
  dt_month : Z;
  dt_isoformat : string
}.

(** [DB_PATH]: missing, present but rejected by [json.load], or holding a
    JSON value. *)
Inductive file : Type :=
| Absent
| Corrupt
| Content (d : json).

(** [clock n] is what the [n]-th call of [datetime.utcnow()] returns. *)
Record world : Type := {
  disk : file;
  clock : nat -> datetime;
  ticks : nat
}.

Definition M (A : Type) : Type := world -> result A * world.

Definition ret {A} (a : A) : M A := fun w => (Ok a, w).

Definition bind {A B} (m : M A) (k : A -> M B) : M B :=
  fun w =>
    match m w with
    | (Ok a, w') => k a w'
    | (Raise e, w') => (Raise e, w')
    end.

Definition lift {A} (r : result A) : M A := fun w => (r, w).

Definition utcnow : M datetime :=
  fun w =>
    (Ok (clock w (ticks w)),
     {| disk := disk w; clock := clock w; ticks := S (ticks w) |}).

Definition read_file : M file := fun w => (Ok (disk w), w).

Definition write_file (d : json) : M unit :=
  fun w => (Ok tt, {| disk := Content d; clock := clock w; ticks := ticks w |}).

Declare Scope monad_scope.
Delimit Scope monad_scope with monad.
Notation "x <- c ;; k" := (bind c (fun x => k))
  (at level 61, c at next level, right associativity) : monad_scope.
Notation "' p <- c ;; k" := (bind c (fun x => match x with p => k end))
  (at level 61, p pattern, c at next level, right associativity) : monad_scope.
Notation "c ;;; k" := (bind c (fun _ => k))
  (at level 61, right associativity) : monad_scope.
Local Open Scope monad_scope.

(** ** [main.py] *)

Definition _now_iso : M string :=
  dt <- utcnow ;;
  ret (dt_isoformat dt ++ "Z").

Definition default_document : json :=
  JDict [("users", JDict []);
         ("monthly_winners", JDict []);
         ("last_month_closed", JNull);
         ("recent_trades", JList [])].

Definition _read_db : M json :=
  f <- read_file ;;
  match f with
  | Absent => write_file default_document ;;; ret default_document
  | Corrupt => ret default_document
  | Content d => ret d
  end.

Definition _write_db (data : json) : M unit := write_file data.

(** [dt.strftime("%Y-%m")]: the year as a plain decimal numeral (four digits
    from year 1000 on), the month on two digits. *)
Definition strftime_Ym (year month : Z) : string :=
  PyStr.of_Z year ++ "-" ++ PyStr.pad2 month.

Definition _get_month_key : M string :=
  dt <- utcnow ;;
  ret (strftime_Ym (dt_year dt) (dt_month dt)).

(** [dt.replace(day=1) - timedelta(days=1)]: the last day of the month
    before; there is none before January of year 1. *)
Definition prev_last (dt : datetime) : result (Z * Z) :=
  if dt_month dt =? 1
  then if dt_year dt <=? 1 then Raise OverflowError
       else Ok (dt_year dt - 1, 12)
  else Ok (dt_year dt, dt_month dt - 1).

Definition _prev_month_key : M string :=
  dt <- utcnow ;;
  '(y, m) <- lift (prev_last dt) ;;
  ret (strftime_Ym y m).

(** [try: x = r  except Exception: x = d] *)
Definition try_default {A} (r : result A) (d : A) : A :=
  match r with
  | Ok a => a
  | Raise _ => d
  end.

(** *** [compute_podium_snapshot] *)

Definition podium_row : Type := string * json * float.

Definition row_balance (x : podium_row) : float := snd x.

Definition podium_row_of (item : string * json) : result podium_row :=
  let '(uid, u) := item in
  let bal :=
    try_default (v <- py_get u "balance" (JFloat START_BALANCE) ;; py_float v)%result
                START_BALANCE in
  (nick <- py_get u "nickname" (JStr "") ;;
   Ok (uid, nick, bal))%result.

(** [arr.sort(key=lambda x: x[2], reverse=True)]: a stable sort, largest key
    first; rows whose keys do not compare keep their order.  [insert_desc x l]
    places a row [x] that came before all of [l]. *)
Fixpoint insert_desc (x : podium_row) (l : list podium_row) : list podium_row :=
  match l with
  | [] => [x]
  | y :: r =>
      if fltb (row_balance x) (row_balance y)
      then y :: insert_desc x r
      else x :: l
  end.

Definition sort_desc (arr : list podium_row) : list podium_row :=
  fold_right insert_desc [] arr.

(** The body of [for i in range(..)], from index [i] on. *)
Fixpoint podium_from (i : Z) (rows : list podium_row) : list json :=
  match rows with
  | [] => []
  | (uid, nick, bal) :: r =>
      JDict [("position", JInt (i + 1));
             ("user_id", JStr uid);
             ("nickname", nick);
             ("balance", JFloat (round2 bal))]
      :: podium_from (i + 1) r
  end.

Definition compute_podium_snapshot (users : json) (top_n : Z)
  : result (list json) :=
  (items <- py_items users ;;
   arr <- mapM podium_row_of items ;;
   let arr := sort_desc arr in
   let n := Z.to_nat (Z.min top_n (Z.of_nat (List.length arr))) in
   Ok (podium_from 0 (firstn n arr)))%result.

(** *** [compute_user_metrics] *)

Record metrics : Type := {
  m_performance : float;
  m_win_rate : float;
  m_trades_this_period : Z;
  m_wins : Z;
  m_period_start_balance : float;
  m_balance : float
}.

Definition compute_user_metrics (user_record : json) : result metrics :=
  let balance :=
    try_default
      (v <- py_get user_record "balance" (JFloat START_BALANCE) ;;
       py_float v)%result
      START_BALANCE in
  let start :=
    try_default
      (v <- py_get user_record "period_start_balance" (JFloat START_BALANCE) ;;
       py_float v)%result
      START_BALANCE in
  (performance <-
     (if feqb start fzero then Ok fzero
      else q <- py_fdiv (fsub balance start) start ;;
           Ok (fmul q fhundred)) ;;
   v <- py_get user_record "trades" (JInt 0) ;;
   trades <- py_int (py_or v (JInt 0)) ;;
   v <- py_get user_record "wins" (JInt 0) ;;
   wins <- py_int (py_or v (JInt 0)) ;;
   win_rate <-
     (if trades <=? 0 then Ok fzero
      else q <- py_idiv wins trades ;;
           Ok (fmul q fhundred)) ;;
   Ok {| m_performance := round2 performance;
         m_win_rate := round2 win_rate;
         m_trades_this_period := trades;
         m_wins := wins;
         m_period_start_balance := round2 start;
         m_balance := round2 balance |})%result.

(** *** Request bodies (pydantic models: the fields arrive typed) *)

Record UserUpdate : Type := {
  upd_nickname : option string;
  upd_balance : option float;
  upd_trades : option Z;
  upd_wins : option Z;
  upd_period_start_balance : option float
}.

Record TradeRecord : Type := {
  tr_result : string;
  tr_amount : option float;
  tr_nickname : option string
}.

(** The record [users.setdefault(user_id, {..})] inserts. *)
Definition default_user : json :=
  JDict [("nickname", JStr "");
         ("balance", JFloat START_BALANCE);
         ("last_update", JNull);
         ("trades", JInt 0);
         ("wins", JInt 0);
         ("period_start_balance", JFloat START_BALANCE)].

(** The dict literal the three user responses share. *)
Definition user_view (user_id : string) (u : json) (m : metrics)
  : result json :=
  (nick <- py_get u "nickname" (JStr "") ;;
   last <- py_get u "last_update" JNull ;;
   Ok (JDict [("user_id", JStr user_id);
              ("nickname", py_or nick (JStr ""));
              ("balance", JFloat (m_balance m));
              ("performance", JFloat (m_performance m));
              ("win_rate", JFloat (m_win_rate m));
              ("trades_this_period", JInt (m_trades_this_period m));
              ("wins", JInt (m_wins m));
              ("period_start_balance", JFloat (m_period_start_balance m));
              ("last_update", last)]))%result.

(** *** [get_user] *)

Definition get_user (user_id : string) : M json :=
  db <- _read_db ;;
  users <- lift (py_get db "users" (JDict [])) ;;
  user <- lift (py_get users user_id JNull) ;;
  if truthy user then
    metrics <- lift (compute_user_metrics user) ;;
    lift (user_view user_id user metrics)
  else
    ret (JDict [("user_id", JStr user_id);
                ("nickname", JStr "");
                ("balance", JFloat (round2 START_BALANCE));
                ("performance", JFloat fzero);
                ("win_rate", JFloat fzero);
                ("trades_this_period", JInt 0);
                ("wins", JInt 0);
                ("period_start_balance", JFloat (round2 START_BALANCE));
                ("last_update", JNull)]).

(** *** Nickname propagation over the feed *)

(** The body of [for ent in recent], with its [try .. except: pass]. *)
Definition patch_entry (user_id changed_nick : string) (ent : json) : json :=
  try_default
    (uid <- py_get ent "user_id" JNull ;;
     if str_eq user_id uid
     then py_setitem ent "nickname" (JStr changed_nick)
     else Ok ent)%result
    ent.

(** [for ent in recent: ..].  A dict yields its keys and a str its characters:
    every [ent.get] then raises and is passed over.  The other values are not
    iterable. *)
Definition patch_recent (user_id changed_nick : string) (recent : json)
  : result json :=
  match recent with
  | JList l => Ok (JList (map (patch_entry user_id changed_nick) l))
  | JDict _ | JStr _ => Ok recent
  | _ => Raise TypeError
  end.

Definition propagate_nickname (user_id changed_nick : string) (db : json)
  : result json :=
  ('(recent, db) <- py_setdefault db "recent_trades" (JList []) ;;
   recent <- patch_recent user_id changed_nick recent ;;
   py_setitem db "recent_trades" recent)%result.

(** [resp["message"] = f"nickname set to {changed_nick}"] under
    [if changed_nick:] *)
Definition with_message (changed_nick : option string) (resp : dict) : json :=
  match changed_nick with
  | Some n =>
      if negb (String.eqb n "")
      then JDict (dict_set "message" (JStr ("nickname set to " ++ n)) resp)
      else JDict resp
  | None => JDict resp
  end.

(** *** [update_user] *)

Definition update_user (user_id : string) (upd : UserUpdate) : M json :=
  db <- _read_db ;;
  '(users, db) <- lift (py_setdefault db "users" (JDict [])) ;;
  '(u, users) <- lift (py_setdefault users user_id default_user) ;;
  '(changed_nick, u) <- lift
    (match upd_nickname upd with
     | Some nickname =>
         let n := PyStr.slice_to 40 (PyStr.strip nickname) in
         (stored <- py_get u "nickname" (JStr "") ;;
          if negb (str_eq n stored)
          then u <- py_setitem u "nickname" (JStr n) ;; Ok (Some n, u)
          else Ok (None, u))%result
     | None => Ok (None, u)
     end) ;;
  u <- lift
    (match upd_balance upd with
     | Some b =>
         try_except (py_setitem u "balance" (JFloat (round2 b)))
                    (py_setitem u "balance" (JFloat START_BALANCE))
     | None => Ok u
     end) ;;
  u <- lift
    (match upd_trades upd with
     | Some t =>
         try_except (py_setitem u "trades" (JInt t))
                    (v <- py_get u "trades" (JInt 0) ;;
                     z <- py_int (py_or v (JInt 0)) ;;
                     py_setitem u "trades" (JInt z))%result
     | None => Ok u
     end) ;;
  u <- lift
    (match upd_wins upd with
     | Some t =>
         try_except (py_setitem u "wins" (JInt t))
                    (v <- py_get u "wins" (JInt 0) ;;
                     z <- py_int (py_or v (JInt 0)) ;;
                     py_setitem u "wins" (JInt z))%result
     | None => Ok u
     end) ;;
  u <- lift
    (match upd_period_start_balance upd with
     | Some b =>
         try_except (py_setitem u "period_start_balance" (JFloat (round2 b)))
                    (py_setitem u "period_start_balance" (JFloat START_BALANCE))
     | None => Ok u
     end) ;;
  now <- _now_iso ;;
  u <- lift (py_setitem u "last_update" (JStr now)) ;;
  (* [u] is [db["users"][user_id]] *)
  users <- lift (py_setitem users user_id u) ;;
  db <- lift (py_setitem db "users" users) ;;
  db <- lift
    (match changed_nick with
     | Some n =>
         (* [if changed_nick:] is the truth value of the string *)
         if negb (String.eqb n "")
         then propagate_nickname user_id n db
         else Ok db
     | None => Ok db
     end) ;;
  _write_db db ;;;
  metrics <- lift (compute_user_metrics u) ;;
  view <- lift (user_view user_id u metrics) ;;
  ret (with_message changed_nick [("status", JStr "ok"); ("user", view)]).

(** *** [record_trade] *)

Definition dquote : string := String (ascii_of_nat 34) EmptyString.

Definition bad_result_detail : string :=
  "result must be " ++ dquote ++ "win" ++ dquote
  ++ " or " ++ dquote ++ "lose" ++ dquote.

Definition MAX_RECENT_TRADES : nat := 500.

(** [recent.insert(0, trade_entry)] and the truncation after it; only a list
    has [insert]. *)
Definition feed_insert (trade_entry : json) (recent : json) : result json :=
  match recent with
  | JList l =>
      let l := trade_entry :: l in
      if (MAX_RECENT_TRADES <? List.length l)%nat
      then Ok (JList (firstn MAX_RECENT_TRADES l))
      else Ok (JList l)
  | _ => Raise AttributeError
  end.

Definition setdefault_ (k : string) (default : json) (u : json) : result json :=
  ('(_, u) <- py_setdefault u k default ;; Ok u)%result.

Definition record_trade (user_id : string) (tr : TradeRecord) : M json :=
  db <- _read_db ;;
  '(users, db) <- lift (py_setdefault db "users" (JDict [])) ;;
  '(u, users) <- lift (py_setdefault users user_id default_user) ;;
  '(changed_nick, u, db) <- lift
    (match tr_nickname tr with
     | Some nickname =>
         let n := PyStr.slice_to 40 (PyStr.strip nickname) in
         (stored <- py_get u "nickname" (JStr "") ;;
          if negb (str_eq n stored)
          then u <- py_setitem u "nickname" (JStr n) ;;
               db <- propagate_nickname user_id n db ;;
               Ok (Some n, u, db)
          else Ok (None, u, db))%result
     | None => Ok (None, u, db)
     end) ;;
  u <- lift (setdefault_ "trades" (JInt 0) u) ;;
  u <- lift (setdefault_ "wins" (JInt 0) u) ;;
  u <- lift (setdefault_ "period_start_balance" (JFloat START_BALANCE) u) ;;
  u <- lift (setdefault_ "balance" (JFloat START_BALANCE) u) ;;
  let res := PyStr.lower (tr_result tr) in
  if negb (String.eqb res "win" || String.eqb res "lose") then
    lift (Raise (HTTPException 400 bad_result_detail))
  else
    u <- lift (v <- py_get u "trades" (JInt 0) ;;
               t <- py_int v ;;
               py_setitem u "trades" (JInt (t + 1)))%result ;;
    u <- lift (if String.eqb res "win"
               then (v <- py_get u "wins" (JInt 0) ;;
                     w <- py_int v ;;
                     py_setitem u "wins" (JInt (w + 1)))%result
               else Ok u) ;;
    let amt := match tr_amount tr with Some a => a | None => fzero end in
    u <- lift (match tr_amount tr with
               | Some _ =>
                   (v <- py_get u "balance" (JFloat START_BALANCE) ;;
                    b <- py_float v ;;
                    if String.eqb res "win"
                    then py_setitem u "balance" (JFloat (round2 (fadd b amt)))
                    else py_setitem u "balance" (JFloat (round2 (fsub b amt))))%result
               | None => Ok u
               end) ;;
    now <- _now_iso ;;
    u <- lift (py_setitem u "last_update" (JStr now)) ;;
    (* [u] is [db["users"][user_id]] *)
    users <- lift (py_setitem users user_id u) ;;
    db <- lift (py_setitem db "users" users) ;;
    nick <- lift (py_get u "nickname" (JStr "")) ;;
    let trade_entry :=
      JDict [("ts", JStr now);
             ("user_id", JStr user_id);
             ("nickname", py_or nick (JStr ""));
             ("result", JStr res);
             ("amount", JFloat (round2 amt))] in
    '(recent, db) <- lift (py_setdefault db "recent_trades" (JList [])) ;;
    recent <- lift (feed_insert trade_entry recent) ;;
    db <- lift (py_setitem db "recent_trades" recent) ;;
    _write_db db ;;;
    metrics <- lift (compute_user_metrics u) ;;
    view <- lift (user_view user_id u metrics) ;;
    ret (with_message changed_nick [("status", JStr "ok"); ("user", view)]).

(** *** [post_close_month] *)

(** The body of [for uid, u in users.items()]. *)
Definition reset_user (now_iso : string) (u : json) : result json :=
  (u <- try_except (py_setitem u "balance" (JFloat (round2 START_BALANCE)))
                   (py_setitem u "balance" (JFloat (round2 START_BALANCE))) ;;
   u <- try_except
          (py_setitem u "period_start_balance" (JFloat (round2 START_BALANCE)))
          (py_setitem u "period_start_balance" (JFloat (round2 START_BALANCE))) ;;
   u <- py_setitem u "trades" (JInt 0) ;;
   u <- py_setitem u "wins" (JInt 0) ;;
   py_setitem u "last_update" (JStr now_iso))%result.

Definition reset_users (now_iso : string) (users : json) : result json :=
  (items <- py_items users ;;
   items <- mapM (fun '(uid, u) => u <- reset_user now_iso u ;; Ok (uid, u)) items ;;
   Ok (JDict items))%result.

Definition post_close_month : M json :=
  db <- _read_db ;;
  prev_month <- _prev_month_key ;;
  winners <- lift (py_get db "monthly_winners" (JDict [])) ;;
  closed <- lift (py_in prev_month winners) ;;
  if (closed : bool) then
    ret (JDict [("status", JStr "already_closed"); ("month", JStr prev_month)])
  else
    users <- lift (py_get db "users" (JDict [])) ;;
    podium <- lift (compute_podium_snapshot users 3) ;;
    closed_at <- _now_iso ;;
    '(winners, db) <- lift (py_setdefault db "monthly_winners" (JDict [])) ;;
    winners <- lift (py_setitem winners prev_month
                       (JDict [("podium", JList podium);
                               ("closed_at", JStr closed_at)])) ;;
    db <- lift (py_setitem db "monthly_winners" winners) ;;
    month <- _get_month_key ;;
    db <- lift (py_setitem db "last_month_closed" (JStr month)) ;;
    now_iso <- _now_iso ;;
    db <- lift (match db with
                | JDict d =>
                    match dict_get "users" d with
                    | Some users =>
                        users <- reset_users now_iso users ;;
                        py_setitem db "users" users
                    | None => Ok db
                    end
                | _ => Raise AttributeError
                end)%result ;;
    _write_db db ;;;
    ret (JDict [("status", JStr "closed");
                ("month", JStr prev_month);
                ("podium", JList podium)]).

(** ** Reading the store

    What the claims talk about: the Document a file denotes (the value
    [_read_db] hands to a handler), a user's stored record, the feed. *)

Definition stored_document (f : file) : json :=
  match f with
  | Content d => d
  | Absent | Corrupt => default_document
  end.

Definition slot (k : string) (o : json) : option json :=
  match o with
  | JDict d => dict_get k d
  | _ => None
  end.

Definition users_of (db : json) : dict :=
  match slot "users" db with
  | Some (JDict us) => us
  | _ => []
  end.

Definition stored_user (db : json) (user_id : string) : option json :=
  dict_get user_id (users_of db).

Definition feed_of (db : json) : list json :=
  match slot "recent_trades" db with
  | Some (JList l) => l
  | _ => []
  end.

Definition is_dict (v : json) : bool :=
  match v with
  | JDict _ => true
  | _ => false
  end.

Definition all_records (us : dict) : bool :=
  forallb (fun kv => is_dict (snd kv)) us.

(** The shape of a Document: a dict whose [users], when present, maps to
    dicts, whose [monthly_winners], when present, is a dict and whose
    [recent_trades], when present, is a list.  Nothing is asked of the
    fields of a record or of a feed entry. *)
Definition document_shape (db : json) : bool :=
  match db with
  | JDict d =>
      match dict_get "users" d with
      | None => true
      | Some (JDict us) => all_records us
      | Some _ => false
      end
      && match dict_get "monthly_winners" d with
         | None | Some (JDict _) => true
         | Some _ => false
         end
      && match dict_get "recent_trades" d with
         | None | Some (JList _) => true
         | Some _ => false
         end
  | _ => false
  end.

(** The response of [get_user] for a user without a record. *)
Definition absent_user_response (user_id : string) : json :=
  JDict [("user_id", JStr user_id);
         ("nickname", JStr "");
         ("balance", JFloat (round2 START_BALANCE));
         ("performance", JFloat fzero);
         ("win_rate", JFloat fzero);
         ("trades_this_period", JInt 0);
         ("wins", JInt 0);
         ("period_start_balance", JFloat (round2 START_BALANCE));
         ("last_update", JNull)].

(** A computation that leaves the world alone. *)
Definition silent {A} (m : M A) : Prop := forall w, snd (m w) = w.

(** A computation that never returns normally. *)
Definition failing {A} (m : M A) : Prop := forall w, exists e, fst (m w) = Raise e.

(** The world [_read_db] leaves: a missing file has been initialised. *)
Definition loaded (w : world) : world :=
  {| disk := match disk w with Absent => Content default_document | f => f end;
     clock := clock w;
     ticks := ticks w |}.

Record shaped (d : dict) : Prop := {
  shaped_users :
    dict_get "users" d = None
    \/ exists us, dict_get "users" d = Some (JDict us) /\ all_records us = true;
  shaped_winners :
    dict_get "monthly_winners" d = None
    \/ exists mw, dict_get "monthly_winners" d = Some (JDict mw);
  shaped_feed :
    dict_get "recent_trades" d = None
    \/ exists l, dict_get "recent_trades" d = Some (JList l)
}.

(** The record [users.setdefault(user_id, {..})] reaches. *)
Definition record_or_default (us : dict) (user_id : string) : json :=
  match dict_get user_id us with
  | Some u => u
  | None => default_user
  end.

(** What [u.setdefault(k, default)] leaves in [u]. *)
Definition dict_default (k : string) (default : json) (u : dict) : dict :=
  snd (dict_setdefault k default u).

(** The world after one [datetime.utcnow()]. *)
Definition tick (w : world) : world :=
  {| disk := disk w; clock := clock w; ticks := S (ticks w) |}.

Definition now (w : world) : datetime := clock w (ticks w).

(** [float(record[k])], or [START_BALANCE] when the field is absent or does
    not coerce. *)
Definition field_float (k : string) (u : json) : float :=
  match slot k u with
  | Some v => try_default (py_float v) START_BALANCE
  | None => START_BALANCE
  end.

(** A counter field that is absent (read as 0) or holds an [int]. *)
Definition counter (k : string) (d : dict) : option Z :=
  match dict_get k d with
  | None => Some 0
  | Some (JInt z) => Some z
  | Some _ => None
  end.

(** The performance percentage of section 4.2, before the final rounding. *)
Definition performance_of (balance start : float) : float :=
  if feqb start fzero then fzero
  else fmul (fdiv (fsub balance start) start) fhundred.

(** The [(user_id, nickname, balance)] triple of one user. *)
Definition triple_of (item : string * json) : podium_row :=
  (fst item,
   match slot "nickname" (snd item) with Some v => v | None => JStr "" end,
   field_float "balance" (snd item)).


(** What the reset loop of [post_close_month] leaves in a record. *)
Definition reset_fields (now_iso : string) (r : dict) : dict :=
  dict_set "last_update" (JStr now_iso)
    (dict_set "wins" (JInt 0)
       (dict_set "trades" (JInt 0)
          (dict_set "period_start_balance" (JFloat (round2 START_BALANCE))
             (dict_set "balance" (JFloat (round2 START_BALANCE)) r)))).

Definition reset_item (now_iso : string) (item : string * json) : string * json :=
  match snd item with
  | JDict r => (fst item, JDict (reset_fields now_iso r))
  | _ => item
  end.

(** The snapshot stored for a month key, if any. *)
Definition snapshot_of (db : json) (month : string) : option json :=
  match slot "monthly_winners" db with
  | Some (JDict mw) => dict_get month mw
  | _ => None
  end.

(** *** [record_trade], step by step

    The values the handler goes through on a Document of the expected shape,
    named so that statements can refer to them. *)

(** [n = (nickname or "").strip()[:40]] *)
Definition trimmed (nickname : string) : string :=
  PyStr.slice_to 40 (PyStr.strip nickname).

(** [changed_nick]: the trimmed nickname when one is given and differs from
    the stored one. *)
Definition changed_nick_of (nickname : option string) (u : dict) : option string :=
  match nickname with
  | Some s =>
      if negb (str_eq (trimmed s) (dict_get_default "nickname" (JStr "") u))
      then Some (trimmed s)
      else None
  | None => None
  end.

Definition renamed (changed_nick : option string) (u : dict) : dict :=
  match changed_nick with
  | Some n => dict_set "nickname" (JStr n) u
  | None => u
  end.

(** The four [u.setdefault] of [record_trade]. *)
Definition with_defaults (u : dict) : dict :=
  dict_default "balance" (JFloat START_BALANCE)
    (dict_default "period_start_balance" (JFloat START_BALANCE)
       (dict_default "wins" (JInt 0)
          (dict_default "trades" (JInt 0) u))).

(** The record after a trade: [t], [wn] and [b] are the stored counters and
    balance as [int(..)] and [float(..)] read them. *)
Definition traded (res : string) (amount : option float) (now_iso : string)
    (t wn : Z) (b : float) (u : dict) : dict :=
  let u := dict_set "trades" (JInt (t + 1)) u in
  let u := if String.eqb res "win" then dict_set "wins" (JInt (wn + 1)) u else u in
  let u :=
    match amount with
    | Some a =>
        dict_set "balance"
          (JFloat (round2 (if String.eqb res "win" then fadd b a else fsub b a))) u
    | None => u
    end in
  dict_set "last_update" (JStr now_iso) u.

Definition trade_entry_of (user_id res : string) (amount : option float)
    (now_iso : string) (u : dict) : json :=
  JDict [("ts", JStr now_iso);
         ("user_id", JStr user_id);
         ("nickname", py_or (dict_get_default "nickname" (JStr "") u) (JStr ""));
         ("result", JStr res);
         ("amount", JFloat (round2 match amount with Some a => a | None => fzero end))].

(** The feed after [changed_nick] has been propagated. *)
Definition patched_feed (user_id : string) (changed_nick : option string)
    (feed : list json) : list json :=
  match changed_nick with
  | Some n => map (patch_entry user_id n) feed
  | None => feed
  end.

(** [recent.insert(0, entry)] and the cap. *)
Definition capped (entry : json) (feed : list json) : list json :=
  if (MAX_RECENT_TRADES <? List.length (entry :: feed))%nat
  then firstn MAX_RECENT_TRADES (entry :: feed)
  else entry :: feed.

(** The Document is a dict with this record for the user and this feed, and
    agrees with [d] on every other key. *)
Definition document_with (d : dict) (user_id : string) (u : dict)
    (feed : list json) (d' : dict) : Prop :=
  dict_get "users" d'
  = Some (JDict (dict_set user_id (JDict u) (users_of (JDict d))))
  /\ dict_get "recent_trades" d' = Some (JList feed)
  /\ (forall k, k <> "users" -> k <> "recent_trades" ->
                dict_get k d' = dict_get k d).

(** *** Sequences of trades of one user *)

Fixpoint run_trades (user_id : string) (trs : list TradeRecord) (w : world)
  : world :=
  match trs with
  | [] => w
  | tr :: rest => run_trades user_id rest (snd (record_trade user_id tr w))
  end.

Definition is_win (tr : TradeRecord) : bool :=
  String.eqb (PyStr.lower (tr_result tr)) "win".

Definition is_lose (tr : TradeRecord) : bool :=
  String.eqb (PyStr.lower (tr_result tr)) "lose".

Definition valid_result (tr : TradeRecord) : bool := is_win tr || is_lose tr.

Definition wins_recorded (trs : list TradeRecord) : Z :=
  Z.of_nat (List.length (filter is_win trs)).

Definition losses_recorded (trs : list TradeRecord) : Z :=
  Z.of_nat (List.length (filter is_lose trs)).

(** *** [update_user], step by step *)

(** The record after the field assignments of [update_user]. *)
Definition updated (upd : UserUpdate) (now_iso : string) (u : dict) : dict :=
  let u := match upd_balance upd with
           | Some b => dict_set "balance" (JFloat (round2 b)) u
           | None => u
           end in
  let u := match upd_trades upd with
           | Some t => dict_set "trades" (JInt t) u
           | None => u
           end in
  let u := match upd_wins upd with
           | Some t => dict_set "wins" (JInt t) u
           | None => u
           end in
  let u := match upd_period_start_balance upd with
           | Some b => dict_set "period_start_balance" (JFloat (round2 b)) u
           | None => u
           end in
  dict_set "last_update" (JStr now_iso) u.

(** The feed [update_user] leaves: [if changed_nick:] lets the loop run for
    a changed nickname that is not the empty string. *)
Definition feed_after_update (user_id : string) (changed_nick : option string)
    (feed : list json) : list json :=
  match changed_nick with
  | Some n =>
      if negb (String.eqb n "") then map (patch_entry user_id n) feed else feed
  | None => feed
  end.

(** The nickname field of a feed entry. *)
Definition entry_nickname (ent : json) : option json := slot "nickname" ent.

(** A feed entry of the user. *)
Definition entry_of (user_id : string) (ent : json) : bool :=
  match slot "user_id" ent with
  | Some v => str_eq user_id v
  | None => false
  end.

(** ** The read-only handlers *)

(** [arr.sort(key=.., reverse=True)] for any row type: a stable sort, largest
    key first.  [insert_by key x l] places a row [x] that came before all of
    [l]. *)
Fixpoint insert_by {A} (key : A -> float) (x : A) (l : list A) : list A :=
  match l with
  | [] => [x]
  | y :: r => if fltb (key x) (key y) then y :: insert_by key x r else x :: l
  end.

Definition sort_by_desc {A} (key : A -> float) (arr : list A) : list A :=
  fold_right (insert_by key) [] arr.

(** *** [get_leaderboard] *)

(** The body of [for uid, u in users.items()]. *)
Definition leaderboard_row (item : string * json) : result json :=
  let '(uid, u) := item in
  (metrics <- compute_user_metrics u ;;
   nick <- py_get u "nickname" (JStr "") ;;
   Ok (JDict [("user_id", JStr uid);
              ("nickname", py_or nick (JStr ""));
              ("balance", JFloat (m_balance metrics));
              ("performance", JFloat (m_performance metrics));
              ("win_rate", JFloat (m_win_rate metrics));
              ("trades_this_period", JInt (m_trades_this_period metrics))]))%result.

(** [x["balance"]] of a leaderboard row, which always holds a float. *)
Definition leaderboard_key (row : json) : float :=
  match slot "balance" row with
  | Some (JFloat f) => f
  | _ => fzero
  end.

(** [max(0, min(limit, 1000))] *)
Definition leaderboard_size (limit : Z) : nat :=
  Z.to_nat (Z.max 0 (Z.min limit 1000)).

Definition get_leaderboard (limit : Z) : M json :=
  db <- _read_db ;;
  users <- lift (py_get db "users" (JDict [])) ;;
  items <- lift (py_items users) ;;
  arr <- lift (mapM leaderboard_row items) ;;
  let arr := sort_by_desc leaderboard_key arr in
  timestamp <- _now_iso ;;
  ret (JDict [("leaderboard", JList (firstn (leaderboard_size limit) arr));
              ("timestamp", JStr timestamp)]).

(** *** [get_winners] *)

Definition get_winners (month : string) : M json :=
  db <- _read_db ;;
  mw <- lift (py_get db "monthly_winners" (JDict [])) ;;
  winners <- lift (py_get mw month JNull) ;;
  if negb (truthy winners) then
    lift (Raise (HTTPException 404 "No winners for that month"))
  else
    ret (JDict [("month", JStr month); ("winners", winners)]).

(** *** [get_latest_winners] *)

(** [sorted(keys)]: ascending by code points.  [insert_str k l] places a key
    [k] that came before all of [l]. *)
Fixpoint insert_str (k : string) (l : list string) : list string :=
  match l with
  | [] => [k]
  | y :: r => if String.ltb y k then y :: insert_str k r else k :: l
  end.

Definition sorted_strs (keys : list string) : list string :=
  fold_right insert_str [] keys.

(** [mw.keys()] *)
Definition py_keys (o : json) : result (list string) :=
  match o with
  | JDict d => Ok (map fst d)
  | _ => Raise AttributeError
  end.

(** The handler reaches [sorted(mw.keys())[-1]] with a truthy [mw], so the
    list of keys is not empty; [mw[last_month]] is the value of a key. *)
Definition get_latest_winners : M json :=
  db <- _read_db ;;
  mw <- lift (py_get db "monthly_winners" (JDict [])) ;;
  if negb (truthy mw) then
    ret (JDict [("latest", JNull); ("monthly_winners", JDict [])])
  else
    keys <- lift (py_keys mw) ;;
    let last_month := List.last (sorted_strs keys) "" in
    winners <- lift (py_get mw last_month JNull) ;;
    ret (JDict [("latest", JStr last_month);
                ("winners", winners);
                ("monthly_winners", mw)]).

(** *** Further notions used in statements *)

(** A computation that leaves the file alone (it may read the clock). *)
Definition quiet {A} (m : M A) : Prop := forall w, disk (snd (m w)) = disk w.

(** A computation that writes the file only when it returns. *)
Definition writes_on_return {A} (m : M A) : Prop :=
  forall w e, fst (m w) = Raise e -> disk (snd (m w)) = disk w.



(** The record of a user other than the one a handler works on, and the
    parts of the Document no user handler touches. *)
Definition same_elsewhere (user_id : string) (db db' : json) : Prop :=
  (forall other, other <> user_id ->
                 stored_user db' other = stored_user db other)
  /\ slot "monthly_winners" db' = slot "monthly_winners" db
  /\ slot "last_month_closed" db' = slot "last_month_closed" db.

(** The Document [post_close_month] writes when it closes a month. *)
Definition closed_document (prev_month : string) (snapshot : json)
    (month now_iso : string) (d : dict) : dict :=
  let mw := match dict_get "monthly_winners" d with
            | Some (JDict mw) => mw
            | _ => []
            end in
  let d1 := dict_set "last_month_closed" (JStr month)
              (dict_set "monthly_winners"
                 (JDict (dict_set prev_month snapshot mw)) d) in
  match dict_get "users" d1 with
  | Some _ =>
      dict_set "users" (JDict (map (reset_item now_iso) (users_of (JDict d)))) d1
  | None => d1
  end.

(** The fields the reset loop of [post_close_month] assigns. *)
Definition reset_field (k : string) : bool :=
  String.eqb k "balance" || String.eqb k "period_start_balance"
  || String.eqb k "trades" || String.eqb k "wins" || String.eqb k "last_update".

(** The response of [update_user] and [record_trade]: computed after the
    Document has been written. *)
Definition user_response (user_id : string) (changed_nick : option string)
    (u : dict) : result json :=
  (metrics <- compute_user_metrics (JDict u) ;;
   view <- user_view user_id (JDict u) metrics ;;
   Ok (with_message changed_nick [("status", JStr "ok"); ("user", view)]))%result.

End Model.

Arguments json {PF}.
Arguments dict {PF}.
Arguments file {PF}.
Arguments world {PF}.
Arguments metrics {PF}.
Arguments UserUpdate {PF}.
Arguments TradeRecord {PF}.

(** ** The datetime built-ins of [get_live_wins] *)

Class PyDatetime : Type := {
  (** the values [datetime.fromisoformat] and [utcnow() - timedelta(..)]
      return *)
  instant : Type;
  (** [now - timedelta(minutes=m)]; [None] is [OverflowError] *)
  minutes_before : datetime -> Z -> option instant;
  (** [datetime.fromisoformat(s)]; [None] is [ValueError] *)
  fromisoformat : string -> option instant;
  (** [a < b]; [None] is the [TypeError] of comparing a datetime that has an
      offset with one that has none *)
  instant_ltb : instant -> instant -> option bool
}.

Section LiveWins.

Context {PF : PyFloat} {PT : PyDatetime}.

(** [list(v)]: a dict gives its keys, a str its characters. *)
Definition py_list (v : json) : result (list json) :=
  match v with
  | JList l => Ok l
  | JDict d => Ok (map (fun kv => JStr (fst kv)) d)
  | JStr s => Ok (map (fun c => JStr (String c EmptyString)) (list_ascii_of_string s))
  | _ => Raise TypeError
  end.

(** [s[:-1] if s.endswith("Z") else s] *)
Fixpoint drop_Z (s : string) : string :=
  match s with
  | EmptyString => EmptyString
  | String c EmptyString => if Ascii.eqb c "Z" then EmptyString else s
  | String c r => String c (drop_Z r)
  end.

(** [parse_ts]: anything that is not a str, or does not parse, is [None]. *)
Definition parse_ts (v : json) : option instant :=
  match v with
  | JStr s => fromisoformat (drop_Z s)
  | _ => None
  end.

(** [nickname.lower().strip() if nickname else None] *)
Definition lower_filter_of (nickname : option string) : option string :=
  match nickname with
  | Some n => if String.eqb n "" then None else Some (PyStr.strip (PyStr.lower n))
  | None => None
  end.

(** The two tests of the loop body: [true] when the entry is kept. *)
Definition keep_entry (cutoff : option instant) (lower_filter : option string)
    (entry : json) : result bool :=
  (recent_enough <-
     match cutoff with
     | Some c =>
         v <- py_get entry "ts" (JStr "") ;;
         match parse_ts v with
         | None => Ok false
         | Some ts =>
             match instant_ltb ts c with
             | Some before => Ok (negb before)
             | None => Raise TypeError
             end
         end
     | None => Ok true
     end ;;
   if negb recent_enough then Ok false
   else
     match lower_filter with
     | Some f =>
         if negb (String.eqb f "") then
           v <- py_get entry "nickname" JNull ;;
           match py_or v (JStr "") with
           | JStr s => Ok (String.eqb (PyStr.lower (PyStr.strip s)) f)
           | _ => Raise AttributeError
           end
         else Ok true
     | None => Ok true
     end)%result.

(** [for entry in recent: ..], with [limit] the number of entries still
    wanted: the loop breaks once the kept entries reach it. *)
Fixpoint collect (limit : nat) (cutoff : option instant)
    (lower_filter : option string) (recent : list json) : result (list json) :=
  match recent with
  | [] => Ok []
  | entry :: rest =>
      (keep <- keep_entry cutoff lower_filter entry ;;
       if (keep : bool) then
         if (limit <=? 1)%nat then Ok [entry]
         else more <- collect (limit - 1) cutoff lower_filter rest ;;
              Ok (entry :: more)
       else collect limit cutoff lower_filter rest)%result
  end.

(** One value of [summary]. *)
Record summary_row : Type := {
  s_net : float;
  s_wins : Z;
  s_losses : Z;
  s_trades : Z
}.

Definition new_row : summary_row :=
  {| s_net := fzero; s_wins := 0; s_losses := 0; s_trades := 0 |}.

Fixpoint summary_get (k : string) (sm : list (string * summary_row))
  : option summary_row :=
  match sm with
  | [] => None
  | (k', r) :: rest => if String.eqb k' k then Some r else summary_get k rest
  end.

Fixpoint summary_set (k : string) (r : summary_row)
    (sm : list (string * summary_row)) : list (string * summary_row) :=
  match sm with
  | [] => [(k, r)]
  | (k', r') :: rest =>
      if String.eqb k' k then (k', r) :: rest
      else (k', r') :: summary_set k r rest
  end.

(** [key = nick if nick.strip() else 'Anon'] with
    [nick = (e.get("nickname") or "")[:40]].  A list can be sliced but has no
    [strip]; the other values cannot be sliced (for a dict the exception is
    [KeyError] from Python 3.12 on). *)
Definition group_key (e : json) : result string :=
  (v <- py_get e "nickname" JNull ;;
   match py_or v (JStr "") with
   | JStr s =>
       let nick := PyStr.slice_to 40 s in
       Ok (if negb (String.eqb (PyStr.strip nick) "") then nick else "Anon")
   | JList _ => Raise AttributeError
   | _ => Raise TypeError
   end)%result.

(** The body of [for e in filtered]. *)
Definition summary_add (sm : list (string * summary_row)) (e : json)
  : result (list (string * summary_row)) :=
  (key <- group_key e ;;
   let s := match summary_get key sm with Some r => r | None => new_row end in
   v <- py_get e "amount" (JFloat fzero) ;;
   amt <- py_float (py_or v (JFloat fzero)) ;;
   res <- py_get e "result" JNull ;;
   Ok (summary_set key
         (if str_eq "win" res
          then {| s_net := round2 (fadd (s_net s) amt);
                  s_wins := s_wins s + 1;
                  s_losses := s_losses s;
                  s_trades := s_trades s + 1 |}
          else {| s_net := round2 (fsub (s_net s) amt);
                  s_wins := s_wins s;
                  s_losses := s_losses s + 1;
                  s_trades := s_trades s + 1 |})
         sm))%result.

Fixpoint summarise_from (sm : list (string * summary_row)) (filtered : list json)
  : result (list (string * summary_row)) :=
  match filtered with
  | [] => Ok sm
  | e :: rest => (sm <- summary_add sm e ;; summarise_from sm rest)%result
  end.

Definition summarise (filtered : list json)
  : result (list (string * summary_row)) :=
  summarise_from [] filtered.

Definition summary_json (sm : list (string * summary_row)) : json :=
  JDict (map (fun kr =>
                (fst kr,
                 JDict [("net", JFloat (s_net (snd kr)));
                        ("wins", JInt (s_wins (snd kr)));
                        ("losses", JInt (s_losses (snd kr)));
                        ("trades", JInt (s_trades (snd kr)))]))
             sm).

Definition get_live_wins (limit : Z) (minutes : option Z)
    (nickname : option string) : M json :=
  if limit <=? 0 then lift (Raise (HTTPException 400 "limit must be > 0"))
  else
    let limit := Z.min limit 500 in
    bind _read_db (fun db =>
    bind (lift (py_get db "recent_trades" (JList []))) (fun v =>
    bind (lift (py_list v)) (fun recent =>
    bind (match minutes with
          | Some m =>
              bind utcnow (fun dt =>
              match minutes_before dt m with
              | Some c => ret (Some c)
              | None =>
                  lift (Raise (HTTPException 400 "invalid minutes parameter"))
              end)
          | None => ret None
          end) (fun cutoff =>
    bind (lift (collect (Z.to_nat limit) cutoff (lower_filter_of nickname) recent))
      (fun filtered =>
    bind (lift (summarise filtered)) (fun sm =>
    bind _now_iso (fun timestamp =>
    ret (JDict [("recent_trades", JList filtered);
                ("summary", summary_json sm);
                ("timestamp", JStr timestamp)])))))))).

(** The total of a field over the groups of a summary. *)
Definition total (f : summary_row -> Z) (sm : list (string * summary_row)) : Z :=
  fold_right (fun kr acc => f (snd kr) + acc) 0 sm.

(** [sub] keeps some entries of [l], in the order of [l]. *)
Inductive subseq {A} : list A -> list A -> Prop :=
| subseq_nil : subseq [] []
| subseq_keep x sub l : subseq sub l -> subseq (x :: sub) (x :: l)
| subseq_skip x sub l : subseq sub l -> subseq sub (x :: l).

(** A feed entry whose fields [get_live_wins] can read: a dict whose
    nickname is absent, [null] or a str and whose amount is absent or
    coerces to a float. *)
Definition readable_entry (e : json) : bool :=
  match e with
  | JDict f =>
      match dict_get "nickname" f with
      | None | Some JNull | Some (JStr _) => true
      | Some _ => false
      end
      && match py_float (py_or (dict_get_default "amount" (JFloat fzero) f)
                               (JFloat fzero)) with
         | Ok _ => true
         | Raise _ => false
         end
  | _ => false
  end.

(** The entries the loop keeps: those on which both tests pass. *)
Definition kept (cutoff : option instant) (lower_filter : option string)
    (entry : json) : bool :=
  match keep_entry cutoff lower_filter entry with
  | Ok true => true
  | _ => false
  end.

(** [cutoff] at the time [dt]; [None] without a [minutes] parameter. *)
Definition cutoff_at (minutes : option Z) (dt : datetime) : option instant :=
  match minutes with
  | Some m => minutes_before dt m
  | None => None
  end.

(** An entry the summary counts as a win. *)
Definition win_entry (e : json) : bool :=
  match py_get e "result" JNull with
  | Ok v => str_eq "win" v
  | Raise _ => false
  end.

(** What the handler answers once the feed and the cutoff are known. *)
Definition live_wins_answer (limit : Z) (cutoff : option instant)
    (nickname : option string) (recent : list json) (w : world)
  : result json * world :=
  match collect (Z.to_nat (Z.min limit 500)) cutoff
                (lower_filter_of nickname) recent with
  | Raise e => (Raise e, w)
  | Ok filtered =>
      match summarise filtered with
      | Raise e => (Raise e, w)
      | Ok sm =>
          (Ok (JDict [("recent_trades", JList filtered);
                      ("summary", summary_json sm);
                      ("timestamp", JStr (dt_isoformat (now w) ++ "Z"))]),
           tick w)
      end
  end.

(** A row whose counters add up. *)
Definition row_adds_up (r : summary_row) : Prop :=
  s_trades r = s_wins r + s_losses r
  /\ 0 <= s_wins r /\ 0 <= s_losses r /\ 0 < s_trades r.

End LiveWins.

Arguments summary_row {PF}.

(** ** An executable instance of the float built-ins

    Exact rational arithmetic: no rounding error, no nan, no infinity.
    [round(x, 2)] rounds half to even; results are kept in lowest terms so
    that equal numbers are equal terms. *)

Module ExactFloat.

Definition round_half_even (q : Q) : Z :=
  let a := Qnum q in
  let b := Zpos (Qden q) in
  let fl := a / b in
  let r := a mod b in
  match 2 * r ?= b with
  | Lt => fl
  | Gt => fl + 1
  | Eq => if Z.even fl then fl else fl + 1
  end.

Definition round_2dp (q : Q) : Q :=
  Qred (round_half_even (Qmult q (100 # 1)) # 100).

Definition trunc (q : Q) : Z :=
  if Qle_bool 0 q then Qfloor q else Qceiling q.

Fixpoint parse_digits (s : string) (acc : Z) : option Z :=
  match s with
  | EmptyString => Some acc
  | String c r =>
      let n := Z.of_nat (nat_of_ascii c) in
      if (48 <=? n) && (n <=? 57)
      then parse_digits r (10 * acc + (n - 48))
      else None
  end.

(** Unsigned decimal numerals only. *)
Definition parse_int (s : string) : option Z :=
  match s with
  | EmptyString => None
  | _ => parse_digits s 0
  end.

Definition exact_float : PyFloat := {|
  float := Q;
  fzero := 0 # 1;
  fone := 1 # 1;
  fhundred := 100 # 1;
  f5000 := 5000 # 1;
  fadd := fun x y => Qred (Qplus x y);
  fsub := fun x y => Qred (Qminus x y);
  fmul := fun x y => Qred (Qmult x y);
  fdiv := fun x y => Qred (Qdiv x y);
  feqb := Qeq_bool;
  fltb := fun x y => negb (Qle_bool y x);
  round2 := round_2dp;
  float_of_int := fun z => Some (z # 1);
  float_of_str := fun s => option_map (fun z => z # 1) (parse_int s);
  int_of_float := fun q => Some (trunc q);
  fis_nan := fun _ => false;
  int_of_str := parse_int;
  int_truediv := fun a b => Some (Qred (Qdiv (a # 1) (b # 1)))
|}.

End ExactFloat.

(** ** Sample data for the exact instance *)

Module Sample.

Definition F : PyFloat := ExactFloat.exact_float.

Definition clock0 (n : nat) : datetime :=
  {| dt_year := 2024;
     dt_month := 3;
     dt_isoformat := "2024-03-01T12:00:" ++ PyStr.pad2 (Z.of_nat n) |}.

(** No backing file yet. *)
Definition fresh : @world F := {| disk := Absent; clock := clock0; ticks := 0 |}.

Definition trade (result : string) (amount : option (@float F))
    (nickname : option string) : @TradeRecord F :=
  {| tr_result := result; tr_amount := amount; tr_nickname := nickname |}.

Definition rename (nickname : string) : @UserUpdate F :=
  {| upd_nickname := Some nickname;
     upd_balance := @None (@float F);
     upd_trades := None;
     upd_wins := None;
     upd_period_start_balance := None |}.

(** alice has won 100 under the nickname Al. *)
Definition after_win : @world F :=
  snd (record_trade "alice" (trade "win" (Some (100 # 1)) (Some "Al")) fresh).

Definition doc_of (w : @world F) : @dict F :=
  match stored_document (disk w) with
  | JDict d => d
  | _ => []
  end.

Definition fields_of (u : @json F) : @dict F :=
  match u with
  | JDict d => d
  | _ => []
  end.

(** bob has lost 50 without a nickname, after alice's win. *)
Definition two_users : @world F :=
  snd (record_trade "bob" (trade "lose" (Some (50 # 1)) None) after_win).

(** The month before [clock0] has been closed. *)
Definition closed : @world F := snd (post_close_month two_users).

Definition three_trades : list (@TradeRecord F) :=
  [trade "win" (Some (100 # 1)) None;
   trade "LOSE" (Some (50 # 1)) None;
   trade "Win" None None].

(** A clock that knows one minute: an instant is a number of seconds after
    2024-03-01T12:00:00, and only the times of that minute parse. *)
Definition seconds_of (s : string) : option Z :=
  if String.prefix "2024-03-01T12:00:" s && (String.length s =? 19)%nat
  then ExactFloat.parse_int (String.substring 17 2 s)
  else None.

Definition T : PyDatetime := {|
  instant := Z;
  minutes_before := fun dt m =>
    match seconds_of (dt_isoformat dt) with
    | Some t => if Z.abs m <=? 1000000 then Some (t - 60 * m) else None
    | None => None
    end;
  fromisoformat := seconds_of;
  instant_ltb := fun a b => Some (a <? b)
|}.

(** The store of [two_users] on the first of January of year 1: there is no
    month before. *)
Definition year_one : @world F :=
  {| disk := disk two_users;
     clock := fun _ => {| dt_year := 1;
                          dt_month := 1;
                          dt_isoformat := "0001-01-01T00:00:00" |};
     ticks := 0 |}.

(** dave's record has a trade count that is not a number. *)
Definition broken : @world F :=
  {| disk := Content
               (JDict [("users",
                        JDict [("dave", JDict [("trades", JStr "many")])])]);
     clock := clock0;
     ticks := 0 |}.

(** The value a call returns, [null] when it raises. *)
Definition answer_of (r : result (@json F) * @world F) : @json F :=
  match fst r with
  | Ok v => v
  | Raise _ => JNull
  end.


(** A user record with four trades, one of them won. *)
Definition one_in_four : @json F :=
  JDict [("balance", @JFloat F (4900 # 1)); ("trades", JInt 4); ("wins", JInt 1)].

Definition metrics_of (u : @json F) : @metrics F :=
  match compute_user_metrics u with
  | Ok m => m
  | Raise _ =>
      {| m_performance := @fzero F; m_win_rate := @fzero F;
         m_trades_this_period := 0; m_wins := 0;
         m_period_start_balance := @fzero F; m_balance := @fzero F |}
  end.


(** A correction of the balance and of the trade count. *)
Definition topup : @UserUpdate F :=
  {| upd_nickname := None;
     upd_balance := @Some (@float F) (1234567 # 1000);
     upd_trades := Some 7;
     upd_wins := None;
     upd_period_start_balance := None |}.

(** A nickname of 46 characters between blanks. *)
Definition long_name : string :=
  "  Bobby the long-named trader of the north seas  ".

End Sample.

(** ** Lemmas on the monad, the clock and dicts *)

Section Basics.

Context {PF : PyFloat}.

Lemma silent_ret {A} (a : A) : silent (ret a).
Proof. intros w; reflexivity. Qed.

Lemma silent_lift {A} (r : result A) : silent (lift r).
Proof. intros w; reflexivity. Qed.

Lemma silent_bind {A B} (m : M A) (k : A -> M B) :
  silent m -> (forall a, silent (k a)) -> silent (bind m k).
Proof.
  intros Hm Hk w. unfold bind.
  specialize (Hm w). destruct (m w) as [[a|e] w']; simpl in Hm; subst w'.
  - apply Hk.
  - reflexivity.
Qed.

Lemma failing_lift_raise {A} (e : exn) : failing (lift (A:=A) (Raise e)).
Proof. intros w; exists e; reflexivity. Qed.

Lemma failing_bind {A B} (m : M A) (k : A -> M B) :
  (forall a, failing (k a)) -> failing (bind m k).
Proof.
  intros Hk w. unfold bind.
  destruct (m w) as [[a|e] w'].
  - apply Hk.
  - exists e; reflexivity.
Qed.

Lemma bind_lift {A B} (r : result A) (k : A -> M B) (w : world) :
  bind (lift r) k w =
  match r with
  | Ok a => k a w
  | Raise e => (Raise e, w)
  end.
Proof. unfold bind, lift. destruct r; reflexivity. Qed.

Lemma read_db_run (w : world) :
  _read_db w = (Ok (stored_document (disk w)), loaded w).
Proof.
  unfold _read_db, bind, read_file, write_file, ret, loaded.
  destruct w as [f c t]; simpl. destruct f; reflexivity.
Qed.

Lemma bind_read_db {B} (k : json -> M B) (w : world) :
  bind _read_db k w = k (stored_document (disk w)) (loaded w).
Proof. unfold bind at 1. rewrite read_db_run. reflexivity. Qed.

Lemma loaded_document (w : world) :
  stored_document (disk (loaded w)) = stored_document (disk w).
Proof. destruct w as [f c t]; simpl. destruct f; reflexivity. Qed.

Lemma loaded_present (w : world) :
  disk w <> Absent -> loaded w = w.
Proof.
  destruct w as [f c t]; unfold loaded; simpl. intros H.
  destruct f; [contradiction | reflexivity | reflexivity].
Qed.

Lemma bind_write_db {B} (data : json) (k : unit -> M B) (w : world) :
  bind (_write_db data) k w
  = k tt {| disk := Content data; clock := clock w; ticks := ticks w |}.
Proof. reflexivity. Qed.

Lemma bind_now_iso {B} (k : string -> M B) (w : world) :
  bind _now_iso k w = k (dt_isoformat (now w) ++ "Z") (tick w).
Proof. reflexivity. Qed.

Lemma bind_get_month_key {B} (k : string -> M B) (w : world) :
  bind _get_month_key k w
  = k (strftime_Ym (dt_year (now w)) (dt_month (now w))) (tick w).
Proof. reflexivity. Qed.

Lemma bind_prev_month_key {B} (k : string -> M B) (w : world) (y m : Z) :
  prev_last (now w) = Ok (y, m) ->
  bind _prev_month_key k w = k (strftime_Ym y m) (tick w).
Proof.
  intros H. unfold _prev_month_key, bind, utcnow, lift, ret.
  fold (now w). rewrite H. reflexivity.
Qed.

(** *** Dicts *)

Lemma dict_get_set_same (k : string) (v : json) (d : dict) :
  dict_get k (dict_set k v d) = Some v.
Proof.
  induction d as [|[k' v'] r IH]; simpl.
  - rewrite String.eqb_refl. reflexivity.
  - destruct (String.eqb k' k) eqn:E; simpl; rewrite E; [reflexivity | exact IH].
Qed.

Lemma dict_get_set_other (k k' : string) (v : json) (d : dict) :
  k <> k' -> dict_get k (dict_set k' v d) = dict_get k d.
Proof.
  intros Hk. induction d as [|[k0 v0] r IH]; simpl.
  - destruct (String.eqb k' k) eqn:E; [ | reflexivity ].
    apply String.eqb_eq in E. congruence.
  - destruct (String.eqb k0 k') eqn:E; simpl.
    + apply String.eqb_eq in E. subst k0.
      destruct (String.eqb k' k) eqn:E'; [ | reflexivity ].
      apply String.eqb_eq in E'. congruence.
    + destruct (String.eqb k0 k); [reflexivity | exact IH].
Qed.

Lemma dict_set_set (k : string) (v v0 : json) (d : dict) :
  dict_set k v (dict_set k v0 d) = dict_set k v d.
Proof.
  induction d as [|[k' v'] r IH]; simpl.
  - rewrite String.eqb_refl. reflexivity.
  - destruct (String.eqb k' k) eqn:E; simpl; rewrite E; [reflexivity | ].
    rewrite IH. reflexivity.
Qed.

Lemma dict_default_same (k : string) (default : json) (d : dict) :
  dict_get k (dict_default k default d) = Some (dict_get_default k default d).
Proof.
  unfold dict_default, dict_setdefault, dict_get_default.
  destruct (dict_get k d) eqn:E; simpl.
  - exact E.
  - apply dict_get_set_same.
Qed.

Lemma dict_default_other (k k' : string) (default : json) (d : dict) :
  k' <> k -> dict_get k' (dict_default k default d) = dict_get k' d.
Proof.
  intros Hk. unfold dict_default, dict_setdefault.
  destruct (dict_get k d); simpl.
  - reflexivity.
  - apply dict_get_set_other. exact Hk.
Qed.

Lemma dict_set_default (k : string) (v default : json) (d : dict) :
  dict_set k v (dict_default k default d) = dict_set k v d.
Proof.
  unfold dict_default, dict_setdefault.
  destruct (dict_get k d); simpl.
  - reflexivity.
  - apply dict_set_set.
Qed.

Lemma get_default_of_get (k : string) (default v : json) (u : dict) :
  dict_get k u = Some v -> dict_get_default k default u = v.
Proof. unfold dict_get_default. intros ->. reflexivity. Qed.

Lemma get_default_of_default (k : string) (default : json) (u : dict) :
  dict_get_default k default (dict_default k default u)
  = dict_get_default k default u.
Proof.
  unfold dict_get_default at 1. rewrite dict_default_same. reflexivity.
Qed.

Lemma get_default_default_other (k k' : string) (default default' : json) (u : dict) :
  k' <> k ->
  dict_get_default k' default' (dict_default k default u)
  = dict_get_default k' default' u.
Proof.
  intros Hk. unfold dict_get_default. rewrite dict_default_other by exact Hk.
  reflexivity.
Qed.

Lemma get_default_set_other (k k' : string) (v default : json) (u : dict) :
  k' <> k ->
  dict_get_default k' default (dict_set k v u) = dict_get_default k' default u.
Proof.
  intros Hk. unfold dict_get_default. rewrite dict_get_set_other by exact Hk.
  reflexivity.
Qed.

Lemma all_records_get (k : string) (us : dict) (v : json) :
  all_records us = true -> dict_get k us = Some v -> is_dict v = true.
Proof.
  unfold all_records.
  induction us as [|[k' v'] r IH]; simpl; intros Hall Hget.
  - discriminate.
  - apply andb_true_iff in Hall. destruct Hall as [Hv Hr].
    destruct (String.eqb k' k).
    + injection Hget as <-. exact Hv.
    + apply IH; assumption.
Qed.

Lemma all_records_set (k : string) (u : dict) (us : dict) :
  all_records us = true -> all_records (dict_set k (JDict u) us) = true.
Proof.
  unfold all_records.
  induction us as [|[k' v'] r IH]; simpl; intros Hall.
  - reflexivity.
  - apply andb_true_iff in Hall. destruct Hall as [Hv Hr].
    destruct (String.eqb k' k); simpl.
    + rewrite Hr. reflexivity.
    + rewrite Hv, IH by exact Hr. reflexivity.
Qed.

Lemma py_setdefault_run (k : string) (default : json) (d : dict) :
  py_setdefault (JDict d) k default
  = Ok (dict_get_default k default d, JDict (dict_default k default d)).
Proof.
  unfold py_setdefault, dict_default, dict_setdefault, dict_get_default.
  destruct (dict_get k d); reflexivity.
Qed.

Lemma setdefault__run (k : string) (default : json) (u : dict) :
  setdefault_ k default (JDict u) = Ok (JDict (dict_default k default u)).
Proof.
  unfold setdefault_, py_setdefault, dict_default.
  destruct (dict_setdefault k default u); reflexivity.
Qed.

(** *** The shape of a Document, slot by slot *)

Lemma document_shape_shaped (db : json) :
  document_shape db = true -> exists d, db = JDict d /\ shaped d.
Proof.
  destruct db as [ | | | | | |d]; simpl; try discriminate.
  intros H. apply andb_true_iff in H. destruct H as [H Hf].
  apply andb_true_iff in H. destruct H as [Hu Hm].
  exists d. split; [reflexivity | ]. constructor.
  - destruct (dict_get "users" d) as [[ | | | | | |us]|]; try discriminate.
    + right. exists us. auto.
    + left. reflexivity.
  - destruct (dict_get "monthly_winners" d) as [[ | | | | | |mw]|];
      try discriminate.
    + right. exists mw. reflexivity.
    + left. reflexivity.
  - destruct (dict_get "recent_trades" d) as [[ | | | | |l| ]|];
      try discriminate.
    + right. exists l. reflexivity.
    + left. reflexivity.
Qed.

Lemma shaped_document_shape (d : dict) :
  shaped d -> document_shape (JDict d) = true.
Proof.
  intros [Hu Hm Hf]. simpl.
  destruct Hu as [-> | (us & -> & Hus)];
    destruct Hm as [-> | (mw & ->)];
    destruct Hf as [-> | (l & ->)]; simpl;
    rewrite ?Hus; reflexivity.
Qed.

Lemma shaped_users_default (d : dict) :
  shaped d ->
  dict_get_default "users" (JDict []) d = JDict (users_of (JDict d))
  /\ all_records (users_of (JDict d)) = true.
Proof.
  intros Hsh. unfold users_of, slot, dict_get_default.
  destruct (shaped_users d Hsh) as [-> | (us & -> & Hus)]; auto.
Qed.

Lemma shaped_feed_default (d : dict) :
  shaped d ->
  dict_get_default "recent_trades" (JList []) d = JList (feed_of (JDict d)).
Proof.
  intros Hsh. unfold feed_of, slot, dict_get_default.
  destruct (shaped_feed d Hsh) as [-> | (l & ->)]; reflexivity.
Qed.

Lemma setdefault_user (us : dict) (user_id : string) :
  all_records us = true ->
  exists u us1,
    record_or_default us user_id = JDict u
    /\ py_setdefault (JDict us) user_id default_user = Ok (JDict u, JDict us1)
    /\ all_records us1 = true
    /\ dict_get user_id us1 = Some (JDict u)
    /\ (forall k, k <> user_id -> dict_get k us1 = dict_get k us).
Proof.
  intros Hall. unfold py_setdefault, dict_setdefault, record_or_default.
  destruct (dict_get user_id us) as [v|] eqn:E.
  - pose proof (all_records_get _ _ _ Hall E) as Hv.
    destruct v as [ | | | | | |u]; try discriminate.
    exists u, us. repeat split; auto.
  - eexists _, (dict_set user_id default_user us). repeat split.
    + apply all_records_set. exact Hall.
    + apply dict_get_set_same.
    + intros k Hk. apply dict_get_set_other. exact Hk.
Qed.

(** [propagate_nickname] on a Document whose feed is a list or absent. *)
Lemma propagate_nickname_run (user_id n : string) (d : dict) :
  (dict_get "recent_trades" d = None
   \/ exists l, dict_get "recent_trades" d = Some (JList l)) ->
  propagate_nickname user_id n (JDict d)
  = Ok (JDict (dict_set "recent_trades"
                 (JList (map (patch_entry user_id n) (feed_of (JDict d)))) d)).
Proof.
  intros Hf. unfold propagate_nickname, py_setdefault, dict_setdefault, feed_of, slot.
  destruct Hf as [Hf | (l & Hf)]; rewrite Hf; simpl.
  - rewrite dict_set_set. reflexivity.
  - reflexivity.
Qed.

End Basics.

Ltac silence :=
  repeat first
    [ apply silent_ret
    | apply silent_lift
    | apply silent_bind; [ | intros ]
    | match goal with
      | |- silent (match ?x with _ => _ end) => destruct x
      | |- silent (if ?b then _ else _) => destruct b
      end ].

Ltac open_pattern :=
  repeat match goal with
         | |- context [match ?x with pair _ _ => _ end] => destruct x
         end.

(** One [lift]ed step that returns. *)
Ltac run_lift :=
  rewrite bind_lift;
  cbn [py_get py_setitem rbind try_except];
  rewrite ?setdefault__run.

(** ** Reading a user *)

Section Reads.

Context {PF : PyFloat}.

(** C10: [get_user] writes nothing.  The Document the store denotes is the
    same after the call as before, and a file that exists is left as it is
    (a missing one is initialised by the load, with the empty Document it
    already denoted).  For a user without a record the answer is the
    synthesized defaults, and the user still has no record afterwards. *)
Theorem get_user_reads_only (user_id : string) (w : world) :
  stored_document (disk (snd (get_user user_id w))) = stored_document (disk w)
  /\ (disk w <> Absent -> snd (get_user user_id w) = w)
  /\ (forall d,
        stored_document (disk w) = JDict d ->
        match dict_get "users" d with
        | None | Some (JDict _) => True
        | Some _ => False
        end ->
        stored_user (stored_document (disk w)) user_id = None ->
        fst (get_user user_id w) = Ok (absent_user_response user_id)
        /\ stored_user (stored_document (disk (snd (get_user user_id w))))
             user_id = None).
Proof.
  assert (Hw : snd (get_user user_id w) = loaded w).
  { unfold get_user. rewrite bind_read_db.
    generalize (loaded w); intros w1.
    generalize (stored_document (disk w)); intros db.
    match goal with |- snd (?m w1) = w1 => enough (H : silent m) by apply H end.
    silence. }
  rewrite Hw. split; [apply loaded_document | split].
  - apply loaded_present.
  - intros d Hd Hus Habs. rewrite loaded_document. split; [ | exact Habs ].
    unfold get_user. rewrite bind_read_db, Hd.
    unfold stored_user, users_of, slot in Habs. rewrite Hd in Habs.
    rewrite bind_lift. simpl py_get. unfold dict_get_default.
    destruct (dict_get "users" d) as [[ | | | | | |us]|]; try contradiction.
    + rewrite bind_lift. simpl py_get. unfold dict_get_default.
      rewrite Habs. reflexivity.
    + rewrite bind_lift. reflexivity.
Qed.

End Reads.

(** ** The metrics calculator *)

Section Metrics.

Context {PF : PyFloat}.

Lemma coerced_field (k : string) (u : json) :
  try_default (rbind (py_get u k (JFloat START_BALANCE)) py_float) START_BALANCE
  = field_float k u.
Proof.
  unfold field_float, slot.
  destruct u as [ | | | | | |d]; try reflexivity.
  cbn [py_get rbind]. unfold dict_get_default.
  destruct (dict_get k d); reflexivity.
Qed.

(** [compute_user_metrics], with the two coercions named. *)
Lemma compute_user_metrics_unfold (u : json) :
  compute_user_metrics u
  = let balance := field_float "balance" u in
    let start := field_float "period_start_balance" u in
    rbind (if feqb start fzero then Ok fzero
           else rbind (py_fdiv (fsub balance start) start)
                      (fun q => Ok (fmul q fhundred)))
      (fun performance =>
       rbind (py_get u "trades" (JInt 0)) (fun v =>
       rbind (py_int (py_or v (JInt 0))) (fun trades =>
       rbind (py_get u "wins" (JInt 0)) (fun v =>
       rbind (py_int (py_or v (JInt 0))) (fun wins =>
       rbind (if trades <=? 0 then Ok fzero
              else rbind (py_idiv wins trades)
                         (fun q => Ok (fmul q fhundred)))
         (fun win_rate =>
          Ok {| m_performance := round2 performance;
                m_win_rate := round2 win_rate;
                m_trades_this_period := trades;
                m_wins := wins;
                m_period_start_balance := round2 start;
                m_balance := round2 balance |})))))).
Proof.
  unfold compute_user_metrics. rewrite !coerced_field. reflexivity.
Qed.

Lemma performance_step (balance start : float) :
  (if feqb start fzero then Ok fzero
   else rbind (py_fdiv (fsub balance start) start)
              (fun q => Ok (fmul q fhundred)))
  = Ok (performance_of balance start).
Proof.
  unfold performance_of, py_fdiv.
  destruct (feqb start fzero); reflexivity.
Qed.

Lemma py_int_no_zero_division (v : json) :
  py_int v <> Raise ZeroDivisionError.
Proof.
  destruct v as [ |b|z|f|s|l|d]; simpl; try discriminate.
  - destruct (int_of_float f); simpl; [discriminate | ].
    destruct (fis_nan f); discriminate.
  - destruct (int_of_str s); discriminate.
Qed.

Lemma counter_read (k : string) (d : dict) (z : Z) :
  counter k d = Some z ->
  py_int (py_or (dict_get_default k (JInt 0) d) (JInt 0)) = Ok z.
Proof.
  unfold counter, dict_get_default.
  destruct (dict_get k d) as [[ | |n| | | | ]|]; try discriminate.
  - intros [= <-]. unfold py_or. simpl.
    destruct (n =? 0) eqn:E; simpl; [ | reflexivity ].
    apply Z.eqb_eq in E. subst n. reflexivity.
  - intros [= <-]. reflexivity.
Qed.

(** C7: the performance percentage is
    [round(((balance - start) / start) * 100, 2)] when the period start
    balance is not zero and [round(0.0, 2)], that is 0, when it is; the
    division is never reached with a zero divisor, so the function never
    raises [ZeroDivisionError]; and it returns for every record whose
    counters are absent or integers. *)
Theorem performance_is_guarded (u : json) :
  let balance := field_float "balance" u in
  let start := field_float "period_start_balance" u in
  compute_user_metrics u <> Raise ZeroDivisionError
  /\ (forall m,
        compute_user_metrics u = Ok m ->
        m_performance m
        = round2 (if feqb start fzero then fzero
                  else fmul (fdiv (fsub balance start) start) fhundred))
  /\ (forall m,
        compute_user_metrics u = Ok m ->
        round2 fzero = fzero ->
        feqb start fzero = true ->
        m_performance m = fzero)
  /\ (forall d t wn,
        u = JDict d ->
        counter "trades" d = Some t ->
        counter "wins" d = Some wn ->
        (0 < t -> int_truediv wn t <> None) ->
        exists m, compute_user_metrics u = Ok m).
Proof.
  intros balance start.
  assert (Hperf : forall m,
             compute_user_metrics u = Ok m ->
             m_performance m = round2 (performance_of balance start)).
  { intros m. rewrite compute_user_metrics_unfold. cbv zeta.
    fold balance start. rewrite performance_step. cbn [rbind].
    destruct (py_get u "trades" (JInt 0)) as [v|]; [cbn [rbind] | discriminate].
    destruct (py_int (py_or v (JInt 0))) as [t|]; [cbn [rbind] | discriminate].
    destruct (py_get u "wins" (JInt 0)) as [v'|]; [cbn [rbind] | discriminate].
    destruct (py_int (py_or v' (JInt 0))) as [wn|]; [cbn [rbind] | discriminate].
    destruct (if t <=? 0 then _ else _) as [r|]; [cbn [rbind] | discriminate].
    intros [= <-]. reflexivity. }
  repeat split.
  - rewrite compute_user_metrics_unfold. cbv zeta.
    fold balance start. rewrite performance_step. cbn [rbind].
    destruct (py_get u "trades" (JInt 0)) as [v|e] eqn:Ev; cbn [rbind].
    2:{ destruct u; simpl in Ev; try discriminate; injection Ev as <-; discriminate. }
    destruct (py_int (py_or v (JInt 0))) as [t|e] eqn:Et; cbn [rbind].
    2:{ intros [= ->]. exact (py_int_no_zero_division _ Et). }
    destruct (py_get u "wins" (JInt 0)) as [v'|e] eqn:Ev'; cbn [rbind].
    2:{ destruct u; simpl in Ev'; try discriminate; injection Ev' as <-; discriminate. }
    destruct (py_int (py_or v' (JInt 0))) as [wn|e] eqn:Ew; cbn [rbind].
    2:{ intros [= ->]. exact (py_int_no_zero_division _ Ew). }
    destruct (t <=? 0) eqn:Ele; cbn [rbind]; [discriminate | ].
    unfold py_idiv.
    destruct (t =? 0) eqn:E0.
    { apply Z.eqb_eq in E0. apply Z.leb_gt in Ele. lia. }
    destruct (int_truediv wn t); cbn [of_option rbind]; discriminate.
  - intros m Hm. rewrite (Hperf m Hm). reflexivity.
  - intros m Hm Hround Hzero. rewrite (Hperf m Hm).
    unfold performance_of. rewrite Hzero. exact Hround.
  - intros d t wn -> Ht Hw Hdiv.
    rewrite compute_user_metrics_unfold. cbv zeta.
    rewrite performance_step. cbn [rbind py_get].
    rewrite (counter_read _ _ _ Ht). cbn [rbind].
    rewrite (counter_read _ _ _ Hw). cbn [rbind].
    destruct (t <=? 0) eqn:Ele; cbn [rbind]; [eexists; reflexivity | ].
    apply Z.leb_gt in Ele. unfold py_idiv.
    destruct (t =? 0) eqn:E0; [apply Z.eqb_eq in E0; lia | ].
    specialize (Hdiv Ele).
    destruct (int_truediv wn t); [ | contradiction ].
    cbn [of_option rbind]. eexists; reflexivity.
Qed.

End Metrics.

(** ** The podium *)

Section Podium.

Context {PF : PyFloat}.

Lemma podium_row_of_record (uid : string) (u : dict) :
  podium_row_of (uid, JDict u) = Ok (triple_of (uid, JDict u)).
Proof.
  unfold podium_row_of, triple_of. rewrite coerced_field.
  cbn [py_get rbind fst snd slot]. unfold dict_get_default.
  destruct (dict_get "nickname" u); reflexivity.
Qed.

Lemma rows_of_records (us : dict) :
  all_records us = true ->
  mapM podium_row_of us = Ok (map triple_of us).
Proof.
  unfold all_records.
  induction us as [|[uid u] r IH]; intros Hall.
  - reflexivity.
  - simpl in Hall. apply andb_true_iff in Hall. destruct Hall as [Hu Hr].
    destruct u as [ | | | | | |u]; try discriminate.
    cbn [mapM map]. rewrite podium_row_of_record. cbn [rbind].
    rewrite (IH Hr). reflexivity.
Qed.

Lemma insert_desc_perm (x : podium_row) (l : list podium_row) :
  Permutation (x :: l) (insert_desc x l).
Proof.
  induction l as [|y r IH]; simpl.
  - apply Permutation_refl.
  - destruct (fltb (row_balance x) (row_balance y)).
    + apply perm_trans with (y :: x :: r).
      * apply perm_swap.
      * apply perm_skip. exact IH.
    + apply Permutation_refl.
Qed.

Lemma sort_desc_perm (l : list podium_row) :
  Permutation l (sort_desc l).
Proof.
  induction l as [|x r IH]; simpl.
  - apply perm_nil.
  - apply perm_trans with (x :: sort_desc r).
    + apply perm_skip. exact IH.
    + apply insert_desc_perm.
Qed.

Section Order.

Hypothesis fltb_asym : forall x y : float, fltb x y = true -> fltb y x = false.
Hypothesis fge_trans :
  forall x y z : float, fltb x y = false -> fltb y z = false -> fltb x z = false.



End Order.

Lemma podium_from_length (i : Z) (rows : list podium_row) :
  List.length (podium_from i rows) = List.length rows.
Proof.
  revert i. induction rows as [|[[uid nick] bal] r IH]; intros i; simpl.
  - reflexivity.
  - rewrite IH. reflexivity.
Qed.



Lemma compute_podium_snapshot_run (us : dict) (top_n : Z) :
  all_records us = true ->
  compute_podium_snapshot (JDict us) top_n
  = Ok (podium_from 0
          (firstn (Z.to_nat (Z.min top_n (Z.of_nat (List.length us))))
                  (sort_desc (map triple_of us)))).
Proof.
  intros Hall. unfold compute_podium_snapshot. cbn [py_items rbind].
  rewrite (rows_of_records us Hall). cbn [rbind]. cbv zeta.
  rewrite <- (Permutation_length (sort_desc_perm (map triple_of us))).
  rewrite length_map. reflexivity.
Qed.


End Podium.

(** ** The monthly close *)

Section Close.

Context {PF : PyFloat}.

(** C5: when the key of the previous month already has a snapshot in
    [monthly_winners], the close call answers [already_closed] and the file
    is left exactly as it was: no podium or [closed_at] is recomputed and no
    user is reset. *)
Theorem close_month_twice_is_noop
    (w : world) (d mw : dict) (y m : Z) (snapshot : json) :
  stored_document (disk w) = JDict d ->
  dict_get "monthly_winners" d = Some (JDict mw) ->
  prev_last (now w) = Ok (y, m) ->
  dict_get (strftime_Ym y m) mw = Some snapshot ->
  fst (post_close_month w)
  = Ok (JDict [("status", JStr "already_closed");
               ("month", JStr (strftime_Ym y m))])
  /\ disk (snd (post_close_month w)) = disk w.
Proof.
  intros Hd Hmw Hprev Hsnap.
  assert (Hpresent : disk w <> Absent).
  { intros Habs. rewrite Habs in Hd. simpl in Hd.
    injection Hd as <-. simpl in Hmw. injection Hmw as <-.
    discriminate Hsnap. }
  unfold post_close_month. rewrite bind_read_db, Hd.
  rewrite (loaded_present w Hpresent).
  rewrite (bind_prev_month_key _ w y m Hprev).
  rewrite bind_lift. cbn [py_get]. unfold dict_get_default. rewrite Hmw.
  rewrite bind_lift. cbn [py_in]. rewrite Hsnap.
  split; reflexivity.
Qed.

Lemma reset_user_run (now_iso : string) (r : dict) :
  reset_user now_iso (JDict r) = Ok (JDict (reset_fields now_iso r)).
Proof. reflexivity. Qed.

Lemma reset_users_items (now_iso : string) (us : dict) :
  all_records us = true ->
  mapM (fun '(uid, u) => rbind (reset_user now_iso u) (fun u => Ok (uid, u))) us
  = Ok (map (reset_item now_iso) us).
Proof.
  unfold all_records.
  induction us as [|[uid u] rest IH]; intros Hall.
  - reflexivity.
  - simpl in Hall. apply andb_true_iff in Hall. destruct Hall as [Hu Hr].
    destruct u as [ | | | | | |r]; try discriminate.
    cbn [mapM map]. rewrite reset_user_run. cbn [rbind].
    rewrite (IH Hr). reflexivity.
Qed.





End Close.

(** ** Recording a trade *)

Section Trade.

Context {PF : PyFloat}.

Lemma bad_result_test (res : string) :
  res <> "win" -> res <> "lose" ->
  negb (String.eqb res "win" || String.eqb res "lose") = true.
Proof.
  intros H1 H2.
  apply String.eqb_neq in H1. apply String.eqb_neq in H2.
  rewrite H1, H2. reflexivity.
Qed.

Lemma renamed_other (k : string) (default : json) (cn : option string) (u : dict) :
  k <> "nickname" ->
  dict_get_default k default (renamed cn u) = dict_get_default k default u.
Proof.
  intros Hk. destruct cn; simpl; [ | reflexivity ].
  apply get_default_set_other. exact Hk.
Qed.

Lemma with_defaults_trades (u : dict) :
  dict_get_default "trades" (JInt 0) (with_defaults u)
  = dict_get_default "trades" (JInt 0) u.
Proof.
  unfold with_defaults.
  rewrite !get_default_default_other by discriminate.
  apply get_default_of_default.
Qed.

Lemma with_defaults_wins (u : dict) :
  dict_get_default "wins" (JInt 0) (with_defaults u)
  = dict_get_default "wins" (JInt 0) u.
Proof.
  unfold with_defaults.
  rewrite !get_default_default_other by discriminate.
  rewrite get_default_of_default.
  apply get_default_default_other. discriminate.
Qed.

Lemma with_defaults_balance (u : dict) :
  dict_get_default "balance" (JFloat START_BALANCE) (with_defaults u)
  = dict_get_default "balance" (JFloat START_BALANCE) u.
Proof.
  unfold with_defaults.
  rewrite get_default_of_default.
  rewrite !get_default_default_other by discriminate.
  reflexivity.
Qed.

Lemma with_defaults_has (k : string) (u : dict) :
  k = "trades" \/ k = "wins" \/ k = "balance" \/ k = "period_start_balance" ->
  dict_get k (with_defaults u) <> None.
Proof.
  unfold with_defaults.
  intros [-> | [-> | [-> | ->]]];
    repeat first [ rewrite dict_default_same; discriminate
                 | rewrite dict_default_other by discriminate ].
Qed.

Lemma with_defaults_get (k : string) (default : json) (u : dict) :
  dict_get k (with_defaults u) <> None ->
  dict_get_default k default (with_defaults u) = dict_get_default k default u ->
  dict_get k (with_defaults u) = Some (dict_get_default k default u).
Proof.
  intros Hhas Hsame. rewrite <- Hsame. unfold dict_get_default.
  destruct (dict_get k (with_defaults u)); [reflexivity | contradiction].
Qed.

(** The nickname block of [record_trade]. *)
Lemma trade_nickname_run (user_id : string) (nickname : option string)
    (u0 d1 : dict) :
  (dict_get "recent_trades" d1 = None
   \/ exists l, dict_get "recent_trades" d1 = Some (JList l)) ->
  match nickname with
  | Some nickname =>
      rbind (py_get (JDict u0) "nickname" (JStr "")) (fun stored =>
        if negb (str_eq (PyStr.slice_to 40 (PyStr.strip nickname)) stored)
        then rbind (py_setitem (JDict u0) "nickname" (JStr (PyStr.slice_to 40 (PyStr.strip nickname))))
               (fun u =>
             rbind (propagate_nickname user_id (PyStr.slice_to 40 (PyStr.strip nickname)) (JDict d1))
               (fun db =>
             Ok (Some (PyStr.slice_to 40 (PyStr.strip nickname)), u, db)))
        else Ok (None, JDict u0, JDict d1))
  | None => Ok (None, JDict u0, JDict d1)
  end
  = Ok (changed_nick_of nickname u0,
        JDict (renamed (changed_nick_of nickname u0) u0),
        JDict match changed_nick_of nickname u0 with
              | Some n =>
                  dict_set "recent_trades"
                    (JList (map (patch_entry user_id n) (feed_of (JDict d1)))) d1
              | None => d1
              end).
Proof.
  intros Hf. unfold changed_nick_of, trimmed.
  destruct nickname as [s|]; [ | reflexivity ].
  cbn [py_get rbind].
  destruct (negb (str_eq _ _)); [ | reflexivity ].
  cbn [py_setitem rbind].
  rewrite propagate_nickname_run by exact Hf. reflexivity.
Qed.

Lemma good_result_test (res : string) :
  res = "win" \/ res = "lose" ->
  negb (String.eqb res "win" || String.eqb res "lose") = false.
Proof. intros [-> | ->]; reflexivity. Qed.

(** C1: a trade whose result, lower-cased, is neither win nor lose is
    rejected, and nothing is written: the call raises for every prior state,
    the Document the store denotes is the same afterwards, a file that exists
    is left as it is, and on a Document of the expected shape the exception
    is the HTTP 400 of the source. *)
Theorem record_trade_rejects_bad_result
    (user_id : string) (tr : TradeRecord) (w : world) :
  PyStr.lower (tr_result tr) <> "win" ->
  PyStr.lower (tr_result tr) <> "lose" ->
  (exists e, fst (record_trade user_id tr w) = Raise e)
  /\ stored_document (disk (snd (record_trade user_id tr w)))
     = stored_document (disk w)
  /\ (disk w <> Absent -> snd (record_trade user_id tr w) = w)
  /\ (document_shape (stored_document (disk w)) = true ->
      fst (record_trade user_id tr w)
      = Raise (HTTPException 400 bad_result_detail)).
Proof.
  intros Hwin Hlose.
  pose proof (bad_result_test _ Hwin Hlose) as Hres.
  assert (Hw : snd (record_trade user_id tr w) = loaded w).
  { unfold record_trade. rewrite bind_read_db.
    generalize (loaded w); intros w1.
    generalize (stored_document (disk w)); intros db.
    match goal with |- snd (?m w1) = w1 => enough (H : silent m) by apply H end.
    repeat (apply silent_bind; [apply silent_lift | intros; open_pattern]).
    rewrite Hres. apply silent_lift. }
  split; [ | rewrite Hw; split; [apply loaded_document | split] ].
  - unfold record_trade. rewrite bind_read_db.
    match goal with |- exists e, fst (?m ?w1) = Raise e =>
      enough (H : failing m) by apply H end.
    repeat (apply failing_bind; intros; open_pattern).
    rewrite Hres. apply failing_lift_raise.
  - apply loaded_present.
  - intros Hshape.
    apply document_shape_shaped in Hshape. destruct Hshape as (d & Hd & Hsh).
    destruct (shaped_users_default d Hsh) as [Husers Hall].
    destruct (setdefault_user _ user_id Hall) as (u & us1 & Hu & _).
    unfold record_trade. rewrite bind_read_db, Hd.
    rewrite bind_lift, py_setdefault_run, Husers.
    rewrite bind_lift, py_setdefault_run.
    change (dict_get_default user_id default_user (users_of (JDict d)))
      with (record_or_default (users_of (JDict d)) user_id).
    rewrite Hu.
    rewrite bind_lift. cbv zeta.
    rewrite trade_nickname_run.
    2:{ rewrite dict_default_other by discriminate. apply Hsh. }
    do 4 run_lift. rewrite Hres. reflexivity.
Qed.

(** The tail of [update_user] and [record_trade], after [_write_db]. *)
Lemma response_tail (user_id : string) (changed_nick : option string)
    (u : dict) (w : world) :
  bind (lift (compute_user_metrics (JDict u))) (fun metrics =>
    bind (lift (user_view user_id (JDict u) metrics)) (fun view =>
      ret (with_message changed_nick [("status", JStr "ok"); ("user", view)]))) w
  = (user_response user_id changed_nick u, w).
Proof.
  unfold user_response, bind, lift, ret.
  destruct (compute_user_metrics (JDict u)) as [m|]; [cbn [rbind] | reflexivity].
  destruct (user_view user_id (JDict u) m); reflexivity.
Qed.

(** What a valid trade answers and writes, on a Document of the expected
    shape whose
    record for the user has counters and a balance that coerce. *)
Lemma record_trade_full (user_id : string) (tr : TradeRecord) (w : world)
    (d u0 : dict) (t wn : Z) (b : float) :
  stored_document (disk w) = JDict d ->
  shaped d ->
  record_or_default (users_of (JDict d)) user_id = JDict u0 ->
  PyStr.lower (tr_result tr) = "win" \/ PyStr.lower (tr_result tr) = "lose" ->
  py_int (dict_get_default "trades" (JInt 0) u0) = Ok t ->
  (PyStr.lower (tr_result tr) = "win" ->
   py_int (dict_get_default "wins" (JInt 0) u0) = Ok wn) ->
  (tr_amount tr <> None ->
   py_float (dict_get_default "balance" (JFloat START_BALANCE) u0) = Ok b) ->
  let res := PyStr.lower (tr_result tr) in
  let cn := changed_nick_of (tr_nickname tr) u0 in
  let now_iso := dt_isoformat (now w) ++ "Z" in
  let u' := traded res (tr_amount tr) now_iso t wn b
              (with_defaults (renamed cn u0)) in
  let feed' := capped (trade_entry_of user_id res (tr_amount tr) now_iso u')
                      (patched_feed user_id cn (feed_of (JDict d))) in
  exists d',
    record_trade user_id tr w
    = (user_response user_id cn u',
       {| disk := Content (JDict d'); clock := clock w; ticks := S (ticks w) |})
    /\ document_with d user_id u' feed' d'.
Proof.
  intros Hd Hsh Hu0 Hres Ht Hw Hb res cn now_iso u' feed'.
  destruct (shaped_users_default d Hsh) as [Husers Hall].
  set (us := users_of (JDict d)) in *.
  set (d1 := dict_default "users" (JDict []) d).
  assert (Hf1 : dict_get "recent_trades" d1 = None
                \/ exists l, dict_get "recent_trades" d1 = Some (JList l)).
  { unfold d1. rewrite dict_default_other by discriminate. apply Hsh. }
  assert (Hfeed1 : feed_of (JDict d1) = feed_of (JDict d)).
  { unfold feed_of, slot, d1. rewrite dict_default_other by discriminate.
    reflexivity. }
  set (d2 := match cn with
             | Some n =>
                 dict_set "recent_trades"
                   (JList (map (patch_entry user_id n) (feed_of (JDict d1)))) d1
             | None => d1
             end).
  set (us' := dict_set user_id (JDict u') us).
  set (entry := trade_entry_of user_id res (tr_amount tr) now_iso u').
  exists (dict_set "recent_trades" (JList feed') (dict_set "users" (JDict us') d2)).
  split.
  - unfold record_trade. rewrite bind_read_db, Hd.
    rewrite bind_lift, py_setdefault_run, Husers. fold d1.
    rewrite bind_lift, py_setdefault_run.
    change (dict_get_default user_id default_user us)
      with (record_or_default us user_id).
    rewrite Hu0.
    rewrite bind_lift. cbv zeta.
    rewrite (trade_nickname_run user_id (tr_nickname tr) u0 d1 Hf1).
    fold cn. fold d2.
    do 4 run_lift. fold (with_defaults (renamed cn u0)).
    fold res. rewrite (good_result_test res Hres).
    cbn [negb].
    run_lift. rewrite with_defaults_trades, renamed_other by discriminate.
    rewrite Ht. cbn [rbind].
    rewrite bind_lift.
    assert (Hwins :
      (if String.eqb res "win"
       then rbind (py_get (JDict (dict_set "trades" (JInt (t + 1))
                                    (with_defaults (renamed cn u0))))
                          "wins" (JInt 0))
              (fun v => rbind (py_int v) (fun w0 =>
                 py_setitem (JDict (dict_set "trades" (JInt (t + 1))
                                      (with_defaults (renamed cn u0))))
                            "wins" (JInt (w0 + 1))))
       else Ok (JDict (dict_set "trades" (JInt (t + 1))
                         (with_defaults (renamed cn u0)))))
      = Ok (JDict (if String.eqb res "win"
                   then dict_set "wins" (JInt (wn + 1))
                          (dict_set "trades" (JInt (t + 1))
                             (with_defaults (renamed cn u0)))
                   else dict_set "trades" (JInt (t + 1))
                          (with_defaults (renamed cn u0))))).
    { destruct (String.eqb res "win") eqn:E; [ | reflexivity ].
      apply String.eqb_eq in E. cbn [py_get rbind].
      rewrite get_default_set_other by discriminate.
      rewrite with_defaults_wins, renamed_other by discriminate.
      rewrite (Hw E). reflexivity. }
    rewrite Hwins. clear Hwins.
    set (u4 := if String.eqb res "win" then _ else _).
    rewrite bind_lift.
    assert (Hbal :
      match tr_amount tr with
      | Some _ =>
          rbind (py_get (JDict u4) "balance" (JFloat START_BALANCE)) (fun v =>
          rbind (py_float v) (fun b0 =>
            if String.eqb res "win"
            then py_setitem (JDict u4) "balance"
                   (JFloat (round2 (fadd b0 match tr_amount tr with
                                            | Some a => a
                                            | None => fzero
                                            end)))
            else py_setitem (JDict u4) "balance"
                   (JFloat (round2 (fsub b0 match tr_amount tr with
                                            | Some a => a
                                            | None => fzero
                                            end)))))
      | None => Ok (JDict u4)
      end
      = Ok (JDict match tr_amount tr with
                  | Some a =>
                      dict_set "balance"
                        (JFloat (round2 (if String.eqb res "win"
                                         then fadd b a else fsub b a))) u4
                  | None => u4
                  end)).
    { destruct (tr_amount tr) as [a|] eqn:Ea; [ | reflexivity ].
      cbn [py_get rbind].
      assert (Hget : dict_get_default "balance" (JFloat START_BALANCE) u4
                     = dict_get_default "balance" (JFloat START_BALANCE) u0).
      { unfold u4. destruct (String.eqb res "win");
          rewrite !get_default_set_other by discriminate;
          rewrite with_defaults_balance, renamed_other by discriminate;
          reflexivity. }
      rewrite Hget, Hb by discriminate. cbn [rbind].
      destruct (String.eqb res "win"); reflexivity. }
    rewrite Hbal. clear Hbal.
    set (u5 := match tr_amount tr with Some a => _ | None => u4 end).
    rewrite bind_now_iso.
    change (dt_isoformat (now (loaded w)) ++ "Z") with now_iso.
    run_lift.
    change (dict_set "last_update" (JStr now_iso) u5) with u'.
    run_lift. rewrite dict_set_default. fold us'.
    run_lift. run_lift.
    rewrite bind_lift, py_setdefault_run.
    assert (Hfeed2 : dict_get_default "recent_trades" (JList [])
                       (dict_set "users" (JDict us') d2)
                     = JList (patched_feed user_id cn (feed_of (JDict d)))).
    { unfold dict_get_default. rewrite dict_get_set_other by discriminate.
      unfold d2, patched_feed. destruct cn as [n|].
      - rewrite dict_get_set_same, Hfeed1. reflexivity.
      - fold (dict_get_default "recent_trades" (JList []) d1).
        unfold d1. rewrite get_default_default_other by discriminate.
        apply shaped_feed_default. exact Hsh. }
    match goal with
    | |- context [dict_get_default "recent_trades" (JList []) ?x] =>
        change x with (dict_set "users" (JDict us') d2)
    end.
    rewrite Hfeed2.
    rewrite bind_lift. cbn [feed_insert].
    fold (trade_entry_of user_id res (tr_amount tr) now_iso u'). fold entry.
    fold (capped entry (patched_feed user_id cn (feed_of (JDict d)))).
    fold feed'.
    assert (Hcap : (if (MAX_RECENT_TRADES <? List.length (entry :: patched_feed user_id cn (feed_of (JDict d))))%nat
                    then Ok (JList (firstn MAX_RECENT_TRADES (entry :: patched_feed user_id cn (feed_of (JDict d)))))
                    else Ok (JList (entry :: patched_feed user_id cn (feed_of (JDict d)))))
                   = Ok (JList feed')).
    { unfold feed', capped.
      destruct (MAX_RECENT_TRADES <? _)%nat; reflexivity. }
    rewrite Hcap. clear Hcap.
    run_lift. rewrite dict_set_default.
    rewrite bind_write_db, response_tail. reflexivity.
  - unfold document_with. split; [ | split ].
    + rewrite dict_get_set_other by discriminate. apply dict_get_set_same.
    + apply dict_get_set_same.
    + intros k Hk1 Hk2.
      rewrite !dict_get_set_other by congruence.
      unfold d2. destruct cn.
      * rewrite dict_get_set_other by congruence.
        unfold d1. apply dict_default_other. exact Hk1.
      * unfold d1. apply dict_default_other. exact Hk1.
Qed.

(** What a valid trade writes, on a Document of the expected shape whose
    record for the user has counters and a balance that coerce. *)
Lemma record_trade_run (user_id : string) (tr : TradeRecord) (w : world)
    (d u0 : dict) (t wn : Z) (b : float) :
  stored_document (disk w) = JDict d ->
  shaped d ->
  record_or_default (users_of (JDict d)) user_id = JDict u0 ->
  PyStr.lower (tr_result tr) = "win" \/ PyStr.lower (tr_result tr) = "lose" ->
  py_int (dict_get_default "trades" (JInt 0) u0) = Ok t ->
  (PyStr.lower (tr_result tr) = "win" ->
   py_int (dict_get_default "wins" (JInt 0) u0) = Ok wn) ->
  (tr_amount tr <> None ->
   py_float (dict_get_default "balance" (JFloat START_BALANCE) u0) = Ok b) ->
  let res := PyStr.lower (tr_result tr) in
  let cn := changed_nick_of (tr_nickname tr) u0 in
  let now_iso := dt_isoformat (now w) ++ "Z" in
  let u' := traded res (tr_amount tr) now_iso t wn b
              (with_defaults (renamed cn u0)) in
  let feed' := capped (trade_entry_of user_id res (tr_amount tr) now_iso u')
                      (patched_feed user_id cn (feed_of (JDict d))) in
  exists d',
    snd (record_trade user_id tr w)
    = {| disk := Content (JDict d'); clock := clock w; ticks := S (ticks w) |}
    /\ document_with d user_id u' feed' d'.
Proof.
  intros Hd Hsh Hu0 Hres Ht Hw Hb res cn now_iso u' feed'.
  destruct (record_trade_full user_id tr w d u0 t wn b Hd Hsh Hu0 Hres Ht Hw Hb)
    as (d' & Hrun & Hdoc).
  exists d'. split; [ | exact Hdoc ].
  fold res cn now_iso u' in Hrun. rewrite Hrun. reflexivity.
Qed.

Lemma traded_trades (res : string) (amount : option float) (now_iso : string)
    (t wn : Z) (b : float) (u : dict) :
  dict_get "trades" (traded res amount now_iso t wn b u) = Some (JInt (t + 1)).
Proof.
  unfold traded. rewrite dict_get_set_other by discriminate.
  destruct amount; [rewrite dict_get_set_other by discriminate | ];
    (destruct (String.eqb res "win");
     [rewrite dict_get_set_other by discriminate | ]);
    apply dict_get_set_same.
Qed.

Lemma traded_wins (res : string) (amount : option float) (now_iso : string)
    (t wn : Z) (b : float) (u : dict) :
  dict_get "wins" (traded res amount now_iso t wn b u)
  = if String.eqb res "win" then Some (JInt (wn + 1)) else dict_get "wins" u.
Proof.
  unfold traded. rewrite dict_get_set_other by discriminate.
  destruct amount; [rewrite dict_get_set_other by discriminate | ];
    (destruct (String.eqb res "win");
     [apply dict_get_set_same | apply dict_get_set_other; discriminate]).
Qed.

Lemma traded_balance (res : string) (amount : option float) (now_iso : string)
    (t wn : Z) (b : float) (u : dict) :
  dict_get "balance" (traded res amount now_iso t wn b u)
  = match amount with
    | Some a =>
        Some (JFloat (round2 (if String.eqb res "win" then fadd b a else fsub b a)))
    | None => dict_get "balance" u
    end.
Proof.
  unfold traded. rewrite dict_get_set_other by discriminate.
  destruct amount; [apply dict_get_set_same | ].
  destruct (String.eqb res "win");
    rewrite ?dict_get_set_other by discriminate; reflexivity.
Qed.

Lemma document_with_user (d : dict) (user_id : string) (u : dict)
    (feed : list json) (d' : dict) :
  document_with d user_id u feed d' ->
  stored_user (JDict d') user_id = Some (JDict u).
Proof.
  intros (Hu & _ & _). unfold stored_user, users_of, slot. rewrite Hu.
  apply dict_get_set_same.
Qed.

(** C4: a valid trade adds 1 to the trades count; adds 1 to the wins count
    when the result is win and leaves the stored wins alone otherwise; with an
    amount the balance becomes [round(balance + amount, 2)] on a win and
    [round(balance - amount, 2)] on a loss; without an amount the stored
    balance is left as it is while the counters still move. *)
Theorem record_trade_counts_and_balance
    (user_id : string) (tr : TradeRecord) (w : world)
    (d u0 : dict) (t wn : Z) (b : float) :
  stored_document (disk w) = JDict d ->
  document_shape (JDict d) = true ->
  record_or_default (users_of (JDict d)) user_id = JDict u0 ->
  valid_result tr = true ->
  py_int (dict_get_default "trades" (JInt 0) u0) = Ok t ->
  (is_win tr = true -> py_int (dict_get_default "wins" (JInt 0) u0) = Ok wn) ->
  (tr_amount tr <> None ->
   py_float (dict_get_default "balance" (JFloat START_BALANCE) u0) = Ok b) ->
  exists db' u',
    disk (snd (record_trade user_id tr w)) = Content db'
    /\ stored_user db' user_id = Some (JDict u')
    /\ dict_get "trades" u' = Some (JInt (t + 1))
    /\ dict_get "wins" u'
       = Some (if is_win tr then JInt (wn + 1)
               else dict_get_default "wins" (JInt 0) u0)
    /\ dict_get "balance" u'
       = Some match tr_amount tr with
              | Some a =>
                  JFloat (round2 (if is_win tr then fadd b a else fsub b a))
              | None => dict_get_default "balance" (JFloat START_BALANCE) u0
              end.
Proof.
  intros Hd Hshape Hu0 Hvalid Ht Hw Hb.
  apply document_shape_shaped in Hshape.
  destruct Hshape as (d0 & [= <-] & Hsh).
  assert (Hres : PyStr.lower (tr_result tr) = "win"
                 \/ PyStr.lower (tr_result tr) = "lose").
  { unfold valid_result, is_win, is_lose in Hvalid.
    apply orb_true_iff in Hvalid.
    destruct Hvalid as [H | H]; apply String.eqb_eq in H; auto. }
  assert (Hw' : PyStr.lower (tr_result tr) = "win" ->
                py_int (dict_get_default "wins" (JInt 0) u0) = Ok wn).
  { intros E. apply Hw. unfold is_win. rewrite E. reflexivity. }
  destruct (record_trade_run user_id tr w d u0 t wn b Hd Hsh Hu0 Hres Ht Hw' Hb)
    as (d' & Hrun & Hdoc).
  eexists (JDict d'), _.
  split; [rewrite Hrun; reflexivity | ].
  split; [exact (document_with_user _ _ _ _ _ Hdoc) | ].
  split; [apply traded_trades | ].
  split.
  - rewrite traded_wins. fold (is_win tr).
    destruct (is_win tr); [reflexivity | ].
    rewrite (with_defaults_get "wins" (JInt 0)).
    + rewrite renamed_other by discriminate. reflexivity.
    + apply with_defaults_has. auto.
    + apply with_defaults_wins.
  - rewrite traded_balance. fold (is_win tr).
    destruct (tr_amount tr); [reflexivity | ].
    unfold traded.
    rewrite (with_defaults_get "balance" (JFloat START_BALANCE)).
    + rewrite renamed_other by discriminate. reflexivity.
    + apply with_defaults_has. auto.
    + apply with_defaults_balance.
Qed.

(** *** Sequences of trades *)

Lemma document_with_shaped (d : dict) (user_id : string) (u : dict)
    (feed : list json) (d' : dict) :
  shaped d -> document_with d user_id u feed d' -> shaped d'.
Proof.
  intros Hsh (Hu & Hf & Hother).
  destruct (shaped_users_default d Hsh) as [_ Hall].
  constructor.
  - right. eexists. split; [exact Hu | ].
    apply all_records_set. exact Hall.
  - rewrite Hother by discriminate. apply Hsh.
  - right. eexists. exact Hf.
Qed.

Lemma stored_record_or_default (d : dict) (user_id : string) (u : json) :
  stored_user (JDict d) user_id = Some u ->
  record_or_default (users_of (JDict d)) user_id = u.
Proof.
  unfold stored_user, record_or_default. intros ->. reflexivity.
Qed.

(** One valid trade on a record whose counters are integers. *)
Lemma trade_step (user_id : string) (tr : TradeRecord) (w : world)
    (d u0 : dict) (t wn : Z) (b : float) :
  stored_document (disk w) = JDict d ->
  shaped d ->
  record_or_default (users_of (JDict d)) user_id = JDict u0 ->
  valid_result tr = true ->
  dict_get_default "trades" (JInt 0) u0 = JInt t ->
  dict_get_default "wins" (JInt 0) u0 = JInt wn ->
  py_float (dict_get_default "balance" (JFloat START_BALANCE) u0) = Ok b ->
  exists d' u' b',
    disk (snd (record_trade user_id tr w)) = Content (JDict d')
    /\ shaped d'
    /\ stored_user (JDict d') user_id = Some (JDict u')
    /\ dict_get "trades" u' = Some (JInt (t + 1))
    /\ dict_get "wins" u' = Some (JInt (wn + if is_win tr then 1 else 0))
    /\ py_float (dict_get_default "balance" (JFloat START_BALANCE) u') = Ok b'.
Proof.
  intros Hd Hsh Hu0 Hvalid Ht Hw Hb.
  assert (Hres : PyStr.lower (tr_result tr) = "win"
                 \/ PyStr.lower (tr_result tr) = "lose").
  { unfold valid_result, is_win, is_lose in Hvalid.
    apply orb_true_iff in Hvalid.
    destruct Hvalid as [H | H]; apply String.eqb_eq in H; auto. }
  assert (Ht' : py_int (dict_get_default "trades" (JInt 0) u0) = Ok t)
    by (rewrite Ht; reflexivity).
  assert (Hw' : PyStr.lower (tr_result tr) = "win" ->
                py_int (dict_get_default "wins" (JInt 0) u0) = Ok wn)
    by (intros _; rewrite Hw; reflexivity).
  destruct (record_trade_run user_id tr w d u0 t wn b Hd Hsh Hu0 Hres Ht' Hw'
              (fun _ => Hb))
    as (d' & Hrun & Hdoc).
  set (u' := traded _ _ _ _ _ _ _) in Hdoc.
  assert (Hbal : dict_get "balance" u'
                 = Some match tr_amount tr with
                        | Some a =>
                            JFloat (round2 (if is_win tr then fadd b a
                                            else fsub b a))
                        | None =>
                            dict_get_default "balance" (JFloat START_BALANCE) u0
                        end).
  { unfold u'. rewrite traded_balance. fold (is_win tr).
    destruct (tr_amount tr); [reflexivity | ].
    rewrite (with_defaults_get "balance" (JFloat START_BALANCE)).
    - rewrite renamed_other by discriminate. reflexivity.
    - apply with_defaults_has. auto.
    - apply with_defaults_balance. }
  exists d', u'.
  exists match tr_amount tr with
         | Some a => round2 (if is_win tr then fadd b a else fsub b a)
         | None => b
         end.
  split; [rewrite Hrun; reflexivity | ].
  split; [exact (document_with_shaped _ _ _ _ _ Hsh Hdoc) | ].
  split; [exact (document_with_user _ _ _ _ _ Hdoc) | ].
  split; [apply traded_trades | ].
  split.
  - unfold u'. rewrite traded_wins. fold (is_win tr).
    destruct (is_win tr); [reflexivity | ].
    rewrite (with_defaults_get "wins" (JInt 0)).
    + rewrite renamed_other by discriminate. rewrite Hw, Z.add_0_r. reflexivity.
    + apply with_defaults_has. auto.
    + apply with_defaults_wins.
  - rewrite (get_default_of_get _ _ _ _ Hbal).
    destruct (tr_amount tr); [reflexivity | exact Hb].
Qed.

Lemma run_trades_counts (user_id : string) (trs : list TradeRecord) :
  forall (w : world) (d u0 : dict) (t wn : Z) (b : float),
    stored_document (disk w) = JDict d ->
    shaped d ->
    record_or_default (users_of (JDict d)) user_id = JDict u0 ->
    forallb valid_result trs = true ->
    trs <> [] ->
    dict_get_default "trades" (JInt 0) u0 = JInt t ->
    dict_get_default "wins" (JInt 0) u0 = JInt wn ->
    py_float (dict_get_default "balance" (JFloat START_BALANCE) u0) = Ok b ->
    exists d' u',
      disk (run_trades user_id trs w) = Content (JDict d')
      /\ stored_user (JDict d') user_id = Some (JDict u')
      /\ dict_get "trades" u' = Some (JInt (t + Z.of_nat (List.length trs)))
      /\ dict_get "wins" u' = Some (JInt (wn + wins_recorded trs)).
Proof.
  induction trs as [|tr rest IH]; intros w d u0 t wn b Hd Hsh Hu0 Hvalid Hne Ht Hw Hb.
  - contradiction.
  - simpl in Hvalid. apply andb_true_iff in Hvalid. destruct Hvalid as [Hv Hrest].
    destruct (trade_step user_id tr w d u0 t wn b Hd Hsh Hu0 Hv Ht Hw Hb)
      as (d1 & u1 & b1 & Hdisk & Hsh1 & Hu1 & Ht1 & Hw1 & Hb1).
    cbn [run_trades].
    destruct rest as [|tr2 rest2].
    + exists d1, u1. cbn [run_trades].
      split; [exact Hdisk | ]. split; [exact Hu1 | ].
      split.
      * rewrite Ht1. simpl. reflexivity.
      * rewrite Hw1. unfold wins_recorded. simpl.
        destruct (is_win tr); reflexivity.
    + assert (Hd1 : stored_document (disk (snd (record_trade user_id tr w)))
                    = JDict d1) by (rewrite Hdisk; reflexivity).
      destruct (IH (snd (record_trade user_id tr w)) d1 u1
                   (t + 1) (wn + if is_win tr then 1 else 0) b1
                   Hd1 Hsh1 (stored_record_or_default _ _ _ Hu1) Hrest
                   ltac:(discriminate)
                   (get_default_of_get _ _ _ _ Ht1)
                   (get_default_of_get _ _ _ _ Hw1) Hb1)
        as (d' & u' & Hdisk' & Hu' & Ht' & Hw').
      exists d', u'.
      split; [exact Hdisk' | ]. split; [exact Hu' | ].
      split.
      * rewrite Ht'. apply f_equal. apply f_equal.
        cbn [List.length]. lia.
      * rewrite Hw'. apply f_equal. apply f_equal. unfold wins_recorded.
        cbn [filter]. destruct (is_win tr); cbn [List.length]; lia.
Qed.

Lemma valid_trades_split (trs : list TradeRecord) :
  forallb valid_result trs = true ->
  Z.of_nat (List.length trs) = wins_recorded trs + losses_recorded trs.
Proof.
  unfold wins_recorded, losses_recorded.
  induction trs as [|tr rest IH]; intros Hvalid.
  - reflexivity.
  - simpl in Hvalid. apply andb_true_iff in Hvalid. destruct Hvalid as [Hv Hrest].
    specialize (IH Hrest). cbn [filter].
    unfold valid_result in Hv.
    assert (Hex : is_win tr = true /\ is_lose tr = false
                  \/ is_win tr = false /\ is_lose tr = true).
    { unfold is_win, is_lose in *.
      destruct (String.eqb (PyStr.lower (tr_result tr)) "win") eqn:E1.
      - apply String.eqb_eq in E1. rewrite E1. left. split; reflexivity.
      - right. split; [reflexivity | ]. exact Hv. }
    destruct Hex as [[-> ->] | [-> ->]]; cbn [List.length]; lia.
Qed.

Lemma forallb_firstn {A} (f : A -> bool) (n : nat) (l : list A) :
  forallb f l = true -> forallb f (firstn n l) = true.
Proof.
  revert n. induction l as [|x r IH]; intros n H.
  - rewrite firstn_nil. reflexivity.
  - destruct n; [reflexivity | ]. simpl in *.
    apply andb_true_iff in H. destruct H as [Hx Hr].
    rewrite Hx, (IH n Hr). reflexivity.
Qed.

(** C9: valid trades of a user who starts from the default record.  After
    each of them, that is after every non-empty prefix of the sequence, the
    stored record holds integer counters with
    [trades = wins + losses recorded] and [wins <= trades]; the wins count is
    the number of winning trades so far. *)
Theorem trades_are_wins_plus_losses
    (user_id : string) (trs : list TradeRecord) (w : world) (d : dict) :
  stored_document (disk w) = JDict d ->
  document_shape (JDict d) = true ->
  record_or_default (users_of (JDict d)) user_id = default_user ->
  forallb valid_result trs = true ->
  forall n : nat,
    (1 <= n <= List.length trs)%nat ->
    exists db' u' t wn,
      disk (run_trades user_id (firstn n trs) w) = Content db'
      /\ stored_user db' user_id = Some (JDict u')
      /\ dict_get "trades" u' = Some (JInt t)
      /\ dict_get "wins" u' = Some (JInt wn)
      /\ wn = wins_recorded (firstn n trs)
      /\ t = wn + losses_recorded (firstn n trs)
      /\ wn <= t.
Proof.
  intros Hd Hshape Hu0 Hvalid n Hn.
  apply document_shape_shaped in Hshape.
  destruct Hshape as (d0 & [= <-] & Hsh).
  pose proof (forallb_firstn _ n _ Hvalid) as Hpre.
  assert (Hne : firstn n trs <> []).
  { destruct trs as [|tr rest]; [simpl in Hn; lia | ].
    destruct n; [lia | discriminate]. }
  destruct (run_trades_counts user_id (firstn n trs) w d _ 0 0 START_BALANCE
              Hd Hsh Hu0 Hpre Hne eq_refl eq_refl eq_refl)
    as (d' & u' & Hdisk & Hu' & Ht & Hw).
  exists (JDict d'), u', (Z.of_nat (List.length (firstn n trs))),
         (wins_recorded (firstn n trs)).
  split; [exact Hdisk | ]. split; [exact Hu' | ].
  split; [exact Ht | ]. split; [exact Hw | ].
  split; [reflexivity | ].
  pose proof (valid_trades_split _ Hpre) as Hsplit.
  split; [exact Hsplit | ].
  unfold losses_recorded in Hsplit. lia.
Qed.

End Trade.

(** ** Nicknames *)

Section Nicknames.

Context {PF : PyFloat}.

Lemma feed_of_set_users (us : json) (d : dict) :
  feed_of (JDict (dict_set "users" us d)) = feed_of (JDict d).
Proof.
  unfold feed_of, slot. rewrite dict_get_set_other by discriminate. reflexivity.
Qed.

Lemma feed_of_default_users (us : json) (d : dict) :
  feed_of (JDict (dict_default "users" us d)) = feed_of (JDict d).
Proof.
  unfold feed_of, slot. rewrite dict_default_other by discriminate. reflexivity.
Qed.

(** What [update_user] answers and writes on a Document of the expected
    shape. *)
Lemma update_user_full (user_id : string) (upd : UserUpdate) (w : world)
    (d u0 : dict) :
  stored_document (disk w) = JDict d ->
  shaped d ->
  record_or_default (users_of (JDict d)) user_id = JDict u0 ->
  let cn := changed_nick_of (upd_nickname upd) u0 in
  let now_iso := dt_isoformat (now w) ++ "Z" in
  let u' := updated upd now_iso (renamed cn u0) in
  exists d',
    update_user user_id upd w
    = (user_response user_id cn u',
       {| disk := Content (JDict d'); clock := clock w; ticks := S (ticks w) |})
    /\ dict_get "users" d'
       = Some (JDict (dict_set user_id (JDict u') (users_of (JDict d))))
    /\ feed_of (JDict d') = feed_after_update user_id cn (feed_of (JDict d))
    /\ (forall k, k <> "users" -> k <> "recent_trades" ->
                  dict_get k d' = dict_get k d).
Proof.
  intros Hd Hsh Hu0 cn now_iso u'.
  destruct (shaped_users_default d Hsh) as [Husers Hall].
  set (us := users_of (JDict d)) in *.
  set (d1 := dict_default "users" (JDict []) d).
  set (d3 := dict_set "users" (JDict (dict_set user_id (JDict u') us)) d1).
  assert (Hf3 : dict_get "recent_trades" d3 = None
                \/ exists l, dict_get "recent_trades" d3 = Some (JList l)).
  { unfold d3, d1. rewrite dict_get_set_other by discriminate.
    rewrite dict_default_other by discriminate. apply Hsh. }
  assert (Hfeed3 : feed_of (JDict d3) = feed_of (JDict d)).
  { unfold d3, d1. rewrite feed_of_set_users. apply feed_of_default_users. }
  set (d4 := match cn with
             | Some n =>
                 if negb (String.eqb n "")
                 then dict_set "recent_trades"
                        (JList (map (patch_entry user_id n) (feed_of (JDict d3))))
                        d3
                 else d3
             | None => d3
             end).
  exists d4.
  split; [ | split; [ | split ] ].
  - unfold update_user. rewrite bind_read_db, Hd.
    rewrite bind_lift, py_setdefault_run, Husers. fold d1.
    rewrite bind_lift, py_setdefault_run.
    change (dict_get_default user_id default_user us)
      with (record_or_default us user_id).
    rewrite Hu0.
    rewrite bind_lift. cbv zeta.
    assert (Hnick :
      match upd_nickname upd with
      | Some nickname =>
          rbind (py_get (JDict u0) "nickname" (JStr "")) (fun stored =>
            if negb (str_eq (PyStr.slice_to 40 (PyStr.strip nickname)) stored)
            then rbind (py_setitem (JDict u0) "nickname"
                          (JStr (PyStr.slice_to 40 (PyStr.strip nickname))))
                   (fun u => Ok (Some (PyStr.slice_to 40 (PyStr.strip nickname)), u))
            else Ok (None, JDict u0))
      | None => Ok (None, JDict u0)
      end
      = Ok (cn, JDict (renamed cn u0))).
    { unfold cn, changed_nick_of, trimmed.
      destruct (upd_nickname upd) as [s|]; [ | reflexivity ].
      cbn [py_get rbind].
      destruct (negb (str_eq _ _)); reflexivity. }
    rewrite Hnick. clear Hnick.
    rewrite bind_lift.
    assert (Hb : forall u : dict,
      match upd_balance upd with
      | Some b0 =>
          try_except (py_setitem (JDict u) "balance" (JFloat (round2 b0)))
                     (py_setitem (JDict u) "balance" (JFloat START_BALANCE))
      | None => Ok (JDict u)
      end
      = Ok (JDict match upd_balance upd with
                  | Some b0 => dict_set "balance" (JFloat (round2 b0)) u
                  | None => u
                  end)).
    { intros u. destruct (upd_balance upd); reflexivity. }
    rewrite Hb. clear Hb.
    rewrite bind_lift.
    assert (Ht : forall u : dict,
      match upd_trades upd with
      | Some t =>
          try_except (py_setitem (JDict u) "trades" (JInt t))
            (rbind (py_get (JDict u) "trades" (JInt 0)) (fun v =>
             rbind (py_int (py_or v (JInt 0))) (fun z =>
             py_setitem (JDict u) "trades" (JInt z))))
      | None => Ok (JDict u)
      end
      = Ok (JDict match upd_trades upd with
                  | Some t => dict_set "trades" (JInt t) u
                  | None => u
                  end)).
    { intros u. destruct (upd_trades upd); reflexivity. }
    rewrite Ht. clear Ht.
    rewrite bind_lift.
    assert (Hw : forall u : dict,
      match upd_wins upd with
      | Some t =>
          try_except (py_setitem (JDict u) "wins" (JInt t))
            (rbind (py_get (JDict u) "wins" (JInt 0)) (fun v =>
             rbind (py_int (py_or v (JInt 0))) (fun z =>
             py_setitem (JDict u) "wins" (JInt z))))
      | None => Ok (JDict u)
      end
      = Ok (JDict match upd_wins upd with
                  | Some t => dict_set "wins" (JInt t) u
                  | None => u
                  end)).
    { intros u. destruct (upd_wins upd); reflexivity. }
    rewrite Hw. clear Hw.
    rewrite bind_lift.
    assert (Hp : forall u : dict,
      match upd_period_start_balance upd with
      | Some b0 =>
          try_except
            (py_setitem (JDict u) "period_start_balance" (JFloat (round2 b0)))
            (py_setitem (JDict u) "period_start_balance" (JFloat START_BALANCE))
      | None => Ok (JDict u)
      end
      = Ok (JDict match upd_period_start_balance upd with
                  | Some b0 => dict_set "period_start_balance" (JFloat (round2 b0)) u
                  | None => u
                  end)).
    { intros u. destruct (upd_period_start_balance upd); reflexivity. }
    rewrite Hp. clear Hp.
    rewrite bind_now_iso.
    change (dt_isoformat (now (loaded w)) ++ "Z") with now_iso.
    run_lift.
    match goal with
    | |- context [dict_set user_id (JDict ?x) _] => change x with u'
    end.
    rewrite dict_set_default.
    run_lift. run_lift. fold d3.
    assert (Hprop :
      match cn with
      | Some n =>
          if negb (String.eqb n "")
          then propagate_nickname user_id n (JDict d3)
          else Ok (JDict d3)
      | None => Ok (JDict d3)
      end = Ok (JDict d4)).
    { unfold d4. destruct cn as [n|]; [ | reflexivity ].
      destruct (negb (String.eqb n "")); [ | reflexivity ].
      apply propagate_nickname_run. exact Hf3. }
    rewrite Hprop. clear Hprop.
    rewrite bind_lift, bind_write_db, response_tail. reflexivity.
  - unfold d4. destruct cn as [n|].
    + destruct (negb (String.eqb n "")).
      * rewrite dict_get_set_other by discriminate. apply dict_get_set_same.
      * apply dict_get_set_same.
    + apply dict_get_set_same.
  - unfold d4, feed_after_update. destruct cn as [n|]; [ | exact Hfeed3 ].
    destruct (negb (String.eqb n "")); [ | exact Hfeed3 ].
    unfold feed_of at 1. unfold slot. rewrite dict_get_set_same, Hfeed3.
    reflexivity.
  - intros k Hk1 Hk2. unfold d4.
    assert (H3 : dict_get k d3 = dict_get k d).
    { unfold d3, d1. rewrite dict_get_set_other by congruence.
      apply dict_default_other. exact Hk1. }
    destruct cn as [n|]; [ | exact H3 ].
    destruct (negb (String.eqb n "")); [ | exact H3 ].
    rewrite dict_get_set_other by congruence. exact H3.
Qed.

(** What [update_user] writes on a Document of the expected shape. *)
Lemma update_user_run (user_id : string) (upd : UserUpdate) (w : world)
    (d u0 : dict) :
  stored_document (disk w) = JDict d ->
  shaped d ->
  record_or_default (users_of (JDict d)) user_id = JDict u0 ->
  let cn := changed_nick_of (upd_nickname upd) u0 in
  let now_iso := dt_isoformat (now w) ++ "Z" in
  let u' := updated upd now_iso (renamed cn u0) in
  exists d',
    snd (update_user user_id upd w)
    = {| disk := Content (JDict d'); clock := clock w; ticks := S (ticks w) |}
    /\ stored_user (JDict d') user_id = Some (JDict u')
    /\ feed_of (JDict d') = feed_after_update user_id cn (feed_of (JDict d)).
Proof.
  intros Hd Hsh Hu0 cn now_iso u'.
  destruct (update_user_full user_id upd w d u0 Hd Hsh Hu0)
    as (d' & Hrun & Hus & Hfeed & _).
  exists d'. fold cn now_iso u' in Hrun, Hus, Hfeed.
  split; [rewrite Hrun; reflexivity | split; [ | exact Hfeed ] ].
  unfold stored_user, users_of, slot. rewrite Hus. apply dict_get_set_same.
Qed.

Lemma updated_nickname (upd : UserUpdate) (now_iso : string) (u : dict) :
  dict_get "nickname" (updated upd now_iso u) = dict_get "nickname" u.
Proof.
  unfold updated. rewrite dict_get_set_other by discriminate.
  destruct (upd_period_start_balance upd);
    [rewrite dict_get_set_other by discriminate | ];
    (destruct (upd_wins upd); [rewrite dict_get_set_other by discriminate | ]);
    (destruct (upd_trades upd); [rewrite dict_get_set_other by discriminate | ]);
    (destruct (upd_balance upd); [rewrite dict_get_set_other by discriminate | ]);
    reflexivity.
Qed.

Lemma traded_nickname (res : string) (amount : option float) (now_iso : string)
    (t wn : Z) (b : float) (u : dict) :
  dict_get "nickname" (traded res amount now_iso t wn b (with_defaults u))
  = dict_get "nickname" u.
Proof.
  unfold traded. rewrite dict_get_set_other by discriminate.
  destruct amount; [rewrite dict_get_set_other by discriminate | ];
    (destruct (String.eqb res "win");
     [rewrite dict_get_set_other by discriminate | ]);
    rewrite dict_get_set_other by discriminate;
    unfold with_defaults;
    rewrite !dict_default_other by discriminate; reflexivity.
Qed.

Lemma patch_entry_own (user_id n : string) (ent : json) :
  entry_of user_id ent = true ->
  entry_of user_id (patch_entry user_id n ent) = true
  /\ entry_nickname (patch_entry user_id n ent) = Some (JStr n).
Proof.
  unfold entry_of, entry_nickname, patch_entry, slot.
  destruct ent as [ | | | | | |fields]; try discriminate.
  cbn [py_get rbind]. unfold dict_get_default.
  destruct (dict_get "user_id" fields) as [v|] eqn:E; [ | discriminate ].
  intros Hown. rewrite Hown. cbn [py_setitem try_default].
  rewrite dict_get_set_other by discriminate. rewrite E, Hown.
  rewrite dict_get_set_same. split; reflexivity.
Qed.

Lemma patch_entry_other (user_id n : string) (ent : json) :
  entry_of user_id ent = false -> patch_entry user_id n ent = ent.
Proof.
  unfold entry_of, patch_entry, slot.
  destruct ent as [ | | | | | |fields]; try reflexivity.
  cbn [py_get rbind]. unfold dict_get_default.
  destruct (dict_get "user_id" fields) as [v|] eqn:E.
  - intros ->. reflexivity.
  - intros _. reflexivity.
Qed.

(** X27: what [update_user] does with a nickname that differs from the
    stored one: the record takes the trimmed value; the feed entries of the user
    take it too when it is not the empty string, and the feed is left as it
    was when it is. *)
Lemma update_user_renames (user_id : string) (upd : UserUpdate) (w : world)
    (d u0 : dict) (nickname : string) :
  stored_document (disk w) = JDict d ->
  document_shape (JDict d) = true ->
  record_or_default (users_of (JDict d)) user_id = JDict u0 ->
  upd_nickname upd = Some nickname ->
  str_eq (trimmed nickname) (dict_get_default "nickname" (JStr "") u0) = false ->
  exists db' u',
    disk (snd (update_user user_id upd w)) = Content db'
    /\ stored_user db' user_id = Some (JDict u')
    /\ dict_get "nickname" u' = Some (JStr (trimmed nickname))
    /\ feed_of db'
       = if String.eqb (trimmed nickname) ""
         then feed_of (JDict d)
         else map (patch_entry user_id (trimmed nickname)) (feed_of (JDict d)).
Proof.
  intros Hd Hshape Hu0 Hnick Hdiff.
  apply document_shape_shaped in Hshape.
  destruct Hshape as (d0 & [= <-] & Hsh).
  destruct (update_user_run user_id upd w d u0 Hd Hsh Hu0)
    as (d' & Hrun & Hu' & Hfeed).
  assert (Hcn : changed_nick_of (upd_nickname upd) u0 = Some (trimmed nickname)).
  { unfold changed_nick_of. rewrite Hnick, Hdiff. reflexivity. }
  rewrite Hcn in Hu', Hfeed.
  eexists (JDict d'), _.
  split; [rewrite Hrun; reflexivity | ].
  split; [exact Hu' | ].
  split.
  - rewrite updated_nickname. apply dict_get_set_same.
  - rewrite Hfeed. unfold feed_after_update.
    destruct (String.eqb (trimmed nickname) ""); reflexivity.
Qed.

(** X28: the two nickname paths.  On the same Document and for the same provided
    nickname, [record_trade] and [update_user] leave the same nickname in the
    user's record; the feed [record_trade] leaves is its new entry in front
    of the feed [update_user] leaves, capped, unless the nickname changes to
    the empty string. *)
Lemma nickname_paths_agree (user_id : string) (tr : TradeRecord)
    (upd : UserUpdate) (w : world) (d u0 : dict) (t wn : Z) (b : float) :
  stored_document (disk w) = JDict d ->
  document_shape (JDict d) = true ->
  record_or_default (users_of (JDict d)) user_id = JDict u0 ->
  valid_result tr = true ->
  dict_get_default "trades" (JInt 0) u0 = JInt t ->
  dict_get_default "wins" (JInt 0) u0 = JInt wn ->
  py_float (dict_get_default "balance" (JFloat START_BALANCE) u0) = Ok b ->
  upd_nickname upd = tr_nickname tr ->
  changed_nick_of (tr_nickname tr) u0 <> Some "" ->
  exists dt ut du uu entry,
    disk (snd (record_trade user_id tr w)) = Content (JDict dt)
    /\ disk (snd (update_user user_id upd w)) = Content (JDict du)
    /\ stored_user (JDict dt) user_id = Some (JDict ut)
    /\ stored_user (JDict du) user_id = Some (JDict uu)
    /\ dict_get "nickname" ut = dict_get "nickname" uu
    /\ feed_of (JDict dt) = capped entry (feed_of (JDict du)).
Proof.
  intros Hd Hshape Hu0 Hvalid Ht Hw Hb Hsame Hcn.
  apply document_shape_shaped in Hshape.
  destruct Hshape as (d0 & [= <-] & Hsh).
  assert (Hres : PyStr.lower (tr_result tr) = "win"
                 \/ PyStr.lower (tr_result tr) = "lose").
  { unfold valid_result, is_win, is_lose in Hvalid.
    apply orb_true_iff in Hvalid.
    destruct Hvalid as [H | H]; apply String.eqb_eq in H; auto. }
  assert (Ht' : py_int (dict_get_default "trades" (JInt 0) u0) = Ok t)
    by (rewrite Ht; reflexivity).
  assert (Hw' : PyStr.lower (tr_result tr) = "win" ->
                py_int (dict_get_default "wins" (JInt 0) u0) = Ok wn)
    by (intros _; rewrite Hw; reflexivity).
  destruct (record_trade_run user_id tr w d u0 t wn b Hd Hsh Hu0 Hres Ht' Hw'
              (fun _ => Hb))
    as (dt & Hrun_t & Hdoc).
  destruct (update_user_run user_id upd w d u0 Hd Hsh Hu0)
    as (du & Hrun_u & Huu & Hfeed_u).
  rewrite Hsame in Huu, Hfeed_u.
  eexists dt, _, du, _, _.
  split; [rewrite Hrun_t; reflexivity | ].
  split; [rewrite Hrun_u; reflexivity | ].
  split; [exact (document_with_user _ _ _ _ _ Hdoc) | ].
  split; [exact Huu | ].
  split.
  - rewrite traded_nickname, updated_nickname. reflexivity.
  - destruct Hdoc as (_ & Hfeed_t & _).
    unfold feed_of at 1. unfold slot. rewrite Hfeed_t, Hfeed_u.
    f_equal. unfold patched_feed, feed_after_update.
    destruct (changed_nick_of (tr_nickname tr) u0) as [n|]; [ | reflexivity ].
    destruct (String.eqb n "") eqn:E; [ | reflexivity ].
    apply String.eqb_eq in E. subst n. contradiction.
Qed.

End Nicknames.

(** ** Handlers that only read, sorting, and the order of strings *)

Section ReadOnly.

Context {PF : PyFloat}.

Lemma quiet_ret {A} (a : A) : quiet (ret a).
Proof. intros w; reflexivity. Qed.

Lemma quiet_lift {A} (r : result A) : quiet (lift r).
Proof. intros w; reflexivity. Qed.

Lemma quiet_utcnow : quiet utcnow.
Proof. intros w; reflexivity. Qed.

Lemma quiet_bind {A B} (m : M A) (k : A -> M B) :
  quiet m -> (forall a, quiet (k a)) -> quiet (bind m k).
Proof.
  intros Hm Hk w. unfold bind.
  specialize (Hm w). destruct (m w) as [[a|e] w']; simpl in Hm.
  - rewrite Hk. exact Hm.
  - exact Hm.
Qed.

Lemma quiet_now_iso : quiet _now_iso.
Proof. intros w; reflexivity. Qed.

(** A handler that reads the Document and then leaves the file alone. *)
Lemma reads_only {A} (k : json -> M A) (w : world) :
  (forall db, quiet (k db)) ->
  stored_document (disk (snd (bind _read_db k w))) = stored_document (disk w)
  /\ (disk w <> Absent -> disk (snd (bind _read_db k w)) = disk w).
Proof.
  intros Hk. rewrite bind_read_db, Hk. split.
  - apply loaded_document.
  - intros H. rewrite (loaded_present w H). reflexivity.
Qed.


(** *** Stable sorting by a float key *)

Section SortBy.

Variable A : Type.
Variable key : A -> float.





Hypothesis fltb_asym : forall x y : float, fltb x y = true -> fltb y x = false.
Hypothesis fge_trans :
  forall x y z : float, fltb x y = false -> fltb y z = false -> fltb x z = false.





End SortBy.


End ReadOnly.

(** ** More on the metrics and the podium *)

Section Rankings.

Context {PF : PyFloat}.

(** X1: what [compute_user_metrics] reports when it returns.  The balance
    and the period start balance are the stored ones, coerced or defaulted,
    rounded to 2 decimals; the win rate is 0 (rounded) when the trades count
    is zero or negative and [round(wins / trades * 100, 2)] otherwise; a
    counter that is absent or falsy is reported as 0. *)
Theorem metrics_report (u : json) (m : metrics) :
  compute_user_metrics u = Ok m ->
  m_balance m = round2 (field_float "balance" u)
  /\ m_period_start_balance m = round2 (field_float "period_start_balance" u)
  /\ (m_trades_this_period m <= 0 -> m_win_rate m = round2 fzero)
  /\ (0 < m_trades_this_period m ->
      exists q, int_truediv (m_wins m) (m_trades_this_period m) = Some q
                /\ m_win_rate m = round2 (fmul q fhundred))
  /\ (slot "trades" u = None
      \/ (exists v, slot "trades" u = Some v /\ truthy v = false) ->
      m_trades_this_period m = 0)
  /\ (slot "wins" u = None
      \/ (exists v, slot "wins" u = Some v /\ truthy v = false) ->
      m_wins m = 0).
Proof.
  rewrite compute_user_metrics_unfold. cbv zeta.
  rewrite performance_step. cbn [rbind].
  destruct (py_get u "trades" (JInt 0)) as [vt|] eqn:Evt; [cbn [rbind] | discriminate].
  destruct (py_int (py_or vt (JInt 0))) as [t|] eqn:Et; [cbn [rbind] | discriminate].
  destruct (py_get u "wins" (JInt 0)) as [vw|] eqn:Evw; [cbn [rbind] | discriminate].
  destruct (py_int (py_or vw (JInt 0))) as [wn|] eqn:Ew; [cbn [rbind] | discriminate].
  assert (Hfalsy : forall k v n,
             py_get u k (JInt 0) = Ok v -> py_int (py_or v (JInt 0)) = Ok n ->
             slot k u = None \/ (exists v', slot k u = Some v' /\ truthy v' = false) ->
             n = 0).
  { intros k v n Hget Hint Hk.
    destruct u as [ | | | | | |d]; try discriminate.
    cbn [py_get slot] in *. unfold dict_get_default in Hget.
    injection Hget as <-.
    destruct Hk as [Hk | (v' & Hk & Hv')]; rewrite Hk in Hint.
    - injection Hint as <-. reflexivity.
    - unfold py_or in Hint. rewrite Hv' in Hint. injection Hint as <-. reflexivity. }
  destruct (t <=? 0) eqn:Ele; cbn [rbind].
  - intros [= <-]. cbn. apply Z.leb_le in Ele.
    repeat split; try reflexivity.
    + intros H. lia.
    + intros Hk. exact (Hfalsy _ _ _ Evt Et Hk).
    + intros Hk. exact (Hfalsy _ _ _ Evw Ew Hk).
  - unfold py_idiv. apply Z.leb_gt in Ele.
    destruct (t =? 0) eqn:E0; [apply Z.eqb_eq in E0; lia | ].
    destruct (int_truediv wn t) as [q|] eqn:Eq; cbn [of_option rbind];
      [ | discriminate ].
    intros [= <-]. cbn.
    repeat split; try reflexivity.
    + intros H. lia.
    + intros _. exists q. split; [exact Eq | reflexivity].
    + intros Hk. exact (Hfalsy _ _ _ Evt Et Hk).
    + intros Hk. exact (Hfalsy _ _ _ Evw Ew Hk).
Qed.

Lemma rows_of_non_records (us : dict) :
  all_records us = false -> mapM podium_row_of us = Raise AttributeError.
Proof.
  unfold all_records.
  induction us as [|[uid u] r IH]; intros Hall.
  - discriminate.
  - simpl in Hall. apply andb_false_iff in Hall.
    destruct u as [ | | | | | |u];
      try (cbn [mapM]; unfold podium_row_of; cbn [py_get rbind]; reflexivity).
    destruct Hall as [Hu | Hr]; [discriminate | ].
    cbn [mapM]. rewrite podium_row_of_record. cbn [rbind].
    rewrite (IH Hr). reflexivity.
Qed.

(** X2: [compute_podium_snapshot] returns exactly for a dict of dicts, and
    the only exception it raises is [AttributeError]; a podium is never
    longer than [top_n], so it is empty for [top_n <= 0]. *)
Theorem podium_snapshot_fails_only_on_shape (users : json) (top_n : Z) :
  match compute_podium_snapshot users top_n with
  | Ok podium =>
      (exists us, users = JDict us /\ all_records us = true)
      /\ (List.length podium <= Z.to_nat top_n)%nat
      /\ (top_n <= 0 -> podium = [])
  | Raise e =>
      e = AttributeError
      /\ (forall us, users = JDict us -> all_records us = false)
  end.
Proof.
  destruct users as [ | | | | | |us];
    try (cbn; split; [reflexivity | intros us' H; discriminate H]).
  destruct (all_records us) eqn:Hall.
  - rewrite (compute_podium_snapshot_run us top_n Hall).
    split; [exists us; auto | ].
    split.
    + rewrite podium_from_length, length_firstn. lia.
    + intros Hle.
      replace (Z.to_nat (Z.min top_n (Z.of_nat (List.length us)))) with 0%nat by lia.
      reflexivity.
  - unfold compute_podium_snapshot. cbn [py_items rbind].
    rewrite (rows_of_non_records us Hall). cbn [rbind].
    split; [reflexivity | ].
    intros us' [= <-]. exact Hall.
Qed.


End Rankings.

(** ** The leaderboard *)

Section Leaderboard.

Context {PF : PyFloat}.

(** X4: [get_leaderboard] writes nothing, whatever the limit and the state
    of the store: the Document the store denotes is unchanged and a file that
    exists is left as it is. *)
Theorem get_leaderboard_reads_only (limit : Z) (w : world) :
  stored_document (disk (snd (get_leaderboard limit w)))
  = stored_document (disk w)
  /\ (disk w <> Absent -> disk (snd (get_leaderboard limit w)) = disk w).
Proof.
  unfold get_leaderboard. apply reads_only. intros db.
  repeat (apply quiet_bind; [first [apply quiet_lift | apply quiet_now_iso] | intros]).
  apply quiet_ret.
Qed.



End Leaderboard.

(** ** Winners *)

Section Winners.

Context {PF : PyFloat}.

(** X6: [get_winners] answers with the stored snapshot of the month and
    raises the HTTP 404 of the source when the month has none (or a falsy
    one); either way it writes nothing. *)
Theorem get_winners_lookup (month : string) (w : world) (d : dict) :
  stored_document (disk w) = JDict d ->
  document_shape (JDict d) = true ->
  fst (get_winners month w)
  = match snapshot_of (JDict d) month with
    | Some winners =>
        if truthy winners
        then Ok (JDict [("month", JStr month); ("winners", winners)])
        else Raise (HTTPException 404 "No winners for that month")
    | None => Raise (HTTPException 404 "No winners for that month")
    end
  /\ stored_document (disk (snd (get_winners month w))) = JDict d
  /\ (disk w <> Absent -> snd (get_winners month w) = w).
Proof.
  intros Hd Hshape.
  apply document_shape_shaped in Hshape.
  destruct Hshape as (d0 & [= <-] & Hsh).
  assert (Hrun : get_winners month w
                 = (match snapshot_of (JDict d) month with
                    | Some winners =>
                        if truthy winners
                        then Ok (JDict [("month", JStr month); ("winners", winners)])
                        else Raise (HTTPException 404 "No winners for that month")
                    | None => Raise (HTTPException 404 "No winners for that month")
                    end, loaded w)).
  { unfold get_winners. rewrite bind_read_db, Hd.
    rewrite bind_lift. cbn [py_get]. unfold snapshot_of, slot, dict_get_default.
    destruct (shaped_winners d Hsh) as [-> | (mw & ->)];
      rewrite bind_lift; cbn [py_get]; unfold dict_get_default.
    - reflexivity.
    - destruct (dict_get month mw) as [v|]; [ | reflexivity ].
      destruct (truthy v); reflexivity. }
  rewrite Hrun. cbn [fst snd].
  split; [reflexivity | split].
  - rewrite loaded_document. exact Hd.
  - apply loaded_present.
Qed.

(** *** The order of month keys *)

Lemma str_leb_trans (a : string) :
  forall b c, String.leb a b = true -> String.leb b c = true ->
              String.leb a c = true.
Proof.
  unfold String.leb.
  induction a as [|x a IH]; intros b c H1 H2.
  - destruct c; reflexivity.
  - destruct b as [|y b]; [discriminate | ].
    destruct c as [|z c]; [discriminate | ].
    cbn [String.compare] in *.
    destruct (Ascii.compare x y) eqn:Exy; try discriminate;
      destruct (Ascii.compare y z) eqn:Eyz; try discriminate.
    + apply Ascii.compare_eq_iff in Exy, Eyz. subst y z.
      assert (E : Ascii.compare x x = Eq)
        by (unfold Ascii.compare; apply N.compare_refl).
      rewrite E. apply (IH b c); assumption.
    + apply Ascii.compare_eq_iff in Exy. subst y. rewrite Eyz. reflexivity.
    + apply Ascii.compare_eq_iff in Eyz. subst z. rewrite Exy. reflexivity.
    + assert (E : Ascii.compare x z = Lt).
      { unfold Ascii.compare in *.
        apply N.compare_lt_iff in Exy, Eyz. apply N.compare_lt_iff.
        eapply N.lt_trans; eassumption. }
      rewrite E. reflexivity.
Qed.

Lemma str_leb_refl (a : string) : String.leb a a = true.
Proof.
  unfold String.leb. induction a as [|x a IH]; [reflexivity | ].
  cbn [String.compare].
  assert (E : Ascii.compare x x = Eq)
    by (unfold Ascii.compare; apply N.compare_refl).
  rewrite E. exact IH.
Qed.

Lemma str_ltb_leb (a b : string) : String.ltb a b = true -> String.leb a b = true.
Proof.
  unfold String.ltb, String.leb.
  destruct (String.compare a b); intros H; try discriminate H; reflexivity.
Qed.

Lemma str_not_ltb_leb (a b : string) :
  String.ltb a b = false -> String.leb b a = true.
Proof.
  unfold String.ltb, String.leb. rewrite (String.compare_antisym a b).
  destruct (String.compare b a); simpl; intros H; try discriminate H; reflexivity.
Qed.

Lemma insert_str_in (k x : string) (l : list string) :
  In x (insert_str k l) <-> x = k \/ In x l.
Proof.
  induction l as [|y r IH]; simpl.
  - intuition.
  - destruct (String.ltb y k); simpl; rewrite ?IH; intuition.
Qed.

Lemma insert_str_not_nil (k : string) (l : list string) : insert_str k l <> [].
Proof. destruct l as [|y r]; simpl; [ | destruct (String.ltb y k) ]; discriminate. Qed.

Lemma last_cons_not_nil {A} (x : A) (l : list A) (d : A) :
  l <> [] -> List.last (x :: l) d = List.last l d.
Proof. destruct l; [contradiction | reflexivity]. Qed.

(** The last element of a list built by [insert_str] bounds the others. *)
Lemma insert_str_last (k : string) (l : list string) :
  (forall x, In x l -> String.leb x (List.last l "") = true) ->
  forall x, In x (insert_str k l) ->
            String.leb x (List.last (insert_str k l) "") = true.
Proof.
  induction l as [|y r IH]; intros Hl x Hx.
  - simpl in *. destruct Hx as [<- | []]. apply str_leb_refl.
  - simpl in Hx |- *. destruct (String.ltb y k) eqn:E.
    + rewrite last_cons_not_nil by apply insert_str_not_nil.
      assert (Hr : forall x0, In x0 r -> String.leb x0 (List.last r "") = true).
      { intros x0 Hx0. destruct r as [|z r']; [contradiction | ].
        rewrite <- (last_cons_not_nil y (z :: r') "") by discriminate.
        apply Hl. right. exact Hx0. }
      destruct Hx as [<- | Hx]; [ | exact (IH Hr x Hx) ].
      apply str_leb_trans with (b := k); [apply str_ltb_leb; exact E | ].
      apply (IH Hr). apply insert_str_in. left. reflexivity.
    + rewrite last_cons_not_nil by discriminate.
      destruct Hx as [<- | Hx]; [ | exact (Hl x Hx) ].
      apply str_leb_trans with (b := y); [apply str_not_ltb_leb; exact E | ].
      apply Hl. left. reflexivity.
Qed.

Lemma sorted_strs_in (x : string) (keys : list string) :
  In x (sorted_strs keys) <-> In x keys.
Proof.
  induction keys as [|k r IH]; simpl; [reflexivity | ].
  rewrite insert_str_in, IH. intuition.
Qed.

Lemma sorted_strs_last (keys : list string) :
  forall x, In x (sorted_strs keys) ->
            String.leb x (List.last (sorted_strs keys) "") = true.
Proof.
  induction keys as [|k r IH]; simpl; [intros x [] | ].
  apply insert_str_last. exact IH.
Qed.

Lemma last_in {A} (l : list A) (d : A) : l <> [] -> In (List.last l d) l.
Proof.
  induction l as [|x r IH]; [contradiction | intros _].
  destruct r as [|y r']; [left; reflexivity | ].
  right. apply IH. discriminate.
Qed.

Lemma dict_get_of_key (k : string) (d : dict) :
  In k (map fst d) -> exists v, dict_get k d = Some v.
Proof.
  induction d as [|[k' v'] r IH]; simpl; [intros [] | ].
  intros [-> | H].
  - rewrite String.eqb_refl. eexists; reflexivity.
  - destruct (String.eqb k' k); [eexists; reflexivity | exact (IH H)].
Qed.

(** X7: [get_latest_winners] picks the greatest month key.  With at least
    one snapshot stored, [latest] is a key of [monthly_winners] that every
    other key is below or equal to in the order of strings (for keys of the
    form YYYY-MM, the most recent month), and [winners] is its snapshot;
    with none, [latest] is [null]. *)
Theorem latest_winners_is_greatest_key (w : world) (d : dict) :
  stored_document (disk w) = JDict d ->
  document_shape (JDict d) = true ->
  match slot "monthly_winners" (JDict d) with
  | Some (JDict ((k0, v0) :: rest)) =>
      exists latest winners,
        fst (get_latest_winners w)
        = Ok (JDict [("latest", JStr latest);
                     ("winners", winners);
                     ("monthly_winners", JDict ((k0, v0) :: rest))])
        /\ snapshot_of (JDict d) latest = Some winners
        /\ forall k, In k (map fst ((k0, v0) :: rest)) ->
                     String.leb k latest = true
  | _ =>
      fst (get_latest_winners w)
      = Ok (JDict [("latest", JNull); ("monthly_winners", JDict [])])
  end.
Proof.
  intros Hd Hshape.
  apply document_shape_shaped in Hshape.
  destruct Hshape as (d0 & [= <-] & Hsh).
  unfold get_latest_winners. rewrite bind_read_db, Hd.
  rewrite bind_lift. cbn [py_get slot]. unfold dict_get_default.
  destruct (shaped_winners d Hsh) as [E | (mw & E)]; rewrite E.
  - reflexivity.
  - destruct mw as [|[k0 v0] rest]; [reflexivity | ].
    cbn [truthy negb]. rewrite bind_lift. cbn [py_keys]. cbv zeta.
    set (keys := map fst ((k0, v0) :: rest)).
    set (latest := List.last (sorted_strs keys) "").
    assert (Hin : In latest keys).
    { apply sorted_strs_in. apply last_in.
      unfold keys. simpl. apply insert_str_not_nil. }
    destruct (dict_get_of_key latest _ Hin) as (v & Hv).
    exists latest, v.
    split.
    + rewrite bind_lift. cbn [py_get]. unfold dict_get_default. rewrite Hv.
      reflexivity.
    + split.
      * unfold snapshot_of, slot. rewrite E. exact Hv.
      * intros k Hk. apply sorted_strs_last. apply sorted_strs_in. exact Hk.
Qed.

End Winners.

(** ** More on the monthly close *)

Section CloseMore.

Context {PF : PyFloat}.

Lemma shaped_winners_default (d : dict) :
  shaped d ->
  dict_get_default "monthly_winners" (JDict []) d
  = JDict match dict_get "monthly_winners" d with
          | Some (JDict mw) => mw
          | _ => []
          end.
Proof.
  intros Hsh. unfold dict_get_default.
  destruct (shaped_winners d Hsh) as [-> | (mw & ->)]; reflexivity.
Qed.

(** What [post_close_month] answers and writes when it closes a month. *)
Lemma post_close_month_closes (w : world) (d : dict) (y m : Z) :
  stored_document (disk w) = JDict d ->
  shaped d ->
  prev_last (now w) = Ok (y, m) ->
  snapshot_of (JDict d) (strftime_Ym y m) = None ->
  let prev_month := strftime_Ym y m in
  let closed_at := dt_isoformat (now (tick w)) ++ "Z" in
  let month := strftime_Ym (dt_year (now (tick (tick w))))
                           (dt_month (now (tick (tick w)))) in
  let now_iso := dt_isoformat (now (tick (tick (tick w)))) ++ "Z" in
  let podium := podium_from 0
                  (firstn (Z.to_nat (Z.min 3 (Z.of_nat (List.length (users_of (JDict d))))))
                          (sort_desc (map triple_of (users_of (JDict d))))) in
  let snapshot := JDict [("podium", JList podium); ("closed_at", JStr closed_at)] in
  post_close_month w
  = (Ok (JDict [("status", JStr "closed");
                ("month", JStr prev_month);
                ("podium", JList podium)]),
     {| disk := Content (JDict (closed_document prev_month snapshot month now_iso d));
        clock := clock w;
        ticks := S (S (S (S (ticks w)))) |}).
Proof.
  intros Hd Hsh Hprev Hsnap prev_month closed_at month now_iso podium snapshot.
  destruct (shaped_users_default d Hsh) as [Husers Hall].
  pose proof (shaped_winners_default d Hsh) as Hwinners.
  set (mw := match dict_get "monthly_winners" d with
             | Some (JDict mw) => mw
             | _ => []
             end) in *.
  assert (Hopen : dict_get prev_month mw = None).
  { unfold snapshot_of, slot in Hsnap. unfold mw.
    destruct (shaped_winners d Hsh) as [E | (mw0 & E)]; rewrite E in *;
      [reflexivity | exact Hsnap]. }
  pose proof (compute_podium_snapshot_run _ 3 Hall) as Hpod.
  fold podium in Hpod.
  unfold closed_document. cbv zeta. fold mw.
  set (d1 := dict_set "last_month_closed" (JStr month)
               (dict_set "monthly_winners"
                  (JDict (dict_set prev_month snapshot mw)) d)).
  assert (Hu1 : dict_get "users" d1 = dict_get "users" d).
  { unfold d1. rewrite !dict_get_set_other by discriminate. reflexivity. }
  unfold post_close_month. rewrite bind_read_db, Hd.
  rewrite (bind_prev_month_key _ (loaded w) y m) by exact Hprev.
  fold prev_month.
  rewrite bind_lift. cbn [py_get]. rewrite Hwinners.
  rewrite bind_lift. cbn [py_in]. rewrite Hopen.
  rewrite bind_lift. cbn [py_get]. rewrite Husers.
  rewrite bind_lift, Hpod.
  rewrite bind_now_iso.
  rewrite bind_lift, py_setdefault_run, Hwinners.
  rewrite bind_lift. cbn [py_setitem].
  rewrite bind_lift. cbn [py_setitem]. rewrite dict_set_default.
  rewrite bind_get_month_key.
  rewrite bind_lift. cbn [py_setitem].
  rewrite bind_now_iso.
  change (dt_isoformat (now (tick (loaded w))) ++ "Z") with closed_at.
  change (strftime_Ym (dt_year (now (tick (tick (loaded w)))))
                      (dt_month (now (tick (tick (loaded w)))))) with month.
  change (dt_isoformat (now (tick (tick (tick (loaded w))))) ++ "Z") with now_iso.
  fold snapshot. fold d1.
  rewrite bind_lift.
  destruct (dict_get "users" d1) as [users|] eqn:E.
  - symmetry in Hu1.
    assert (users = JDict (users_of (JDict d))) as ->.
    { unfold dict_get_default in Husers. rewrite Hu1 in Husers. exact Husers. }
    unfold reset_users. cbn [py_items rbind].
    rewrite (reset_users_items now_iso _ Hall). cbn [rbind py_setitem].
    reflexivity.
  - cbn [rbind]. reflexivity.
Qed.

(** What [post_close_month] does on a month that has a snapshot. *)
Lemma post_close_month_closed (w : world) (d mw : dict) (y m : Z) (snapshot : json) :
  disk w = Content (JDict d) ->
  dict_get "monthly_winners" d = Some (JDict mw) ->
  prev_last (now w) = Ok (y, m) ->
  dict_get (strftime_Ym y m) mw = Some snapshot ->
  post_close_month w
  = (Ok (JDict [("status", JStr "already_closed");
                ("month", JStr (strftime_Ym y m))]),
     tick w).
Proof.
  intros Hd Hmw Hprev Hsnap.
  assert (Hpresent : disk w <> Absent) by (rewrite Hd; discriminate).
  unfold post_close_month. rewrite bind_read_db, Hd.
  rewrite (loaded_present w Hpresent).
  rewrite (bind_prev_month_key _ w y m Hprev).
  rewrite bind_lift. cbn [py_get stored_document]. unfold dict_get_default.
  rewrite Hmw.
  rewrite bind_lift. cbn [py_in]. rewrite Hsnap.
  reflexivity.
Qed.

Lemma closed_document_winners (prev_month : string) (snapshot : json)
    (month now_iso : string) (d : dict) :
  dict_get "monthly_winners" (closed_document prev_month snapshot month now_iso d)
  = Some (JDict (dict_set prev_month snapshot
                   match dict_get "monthly_winners" d with
                   | Some (JDict mw) => mw
                   | _ => []
                   end)).
Proof.
  unfold closed_document. cbv zeta.
  destruct (dict_get "users" _);
    rewrite ?(dict_get_set_other "monthly_winners" "users") by discriminate;
    rewrite dict_get_set_other by discriminate;
    apply dict_get_set_same.
Qed.

(** X8: the snapshot a close stores is the one [get_winners] serves.  Right
    after [post_close_month] has closed a month, [get_winners] for that
    month returns the podium of the close response with its [closed_at]. *)
Theorem winners_after_close (w : world) (d : dict) (y m : Z) :
  stored_document (disk w) = JDict d ->
  document_shape (JDict d) = true ->
  prev_last (now w) = Ok (y, m) ->
  snapshot_of (JDict d) (strftime_Ym y m) = None ->
  exists podium,
    fst (post_close_month w)
    = Ok (JDict [("status", JStr "closed");
                 ("month", JStr (strftime_Ym y m));
                 ("podium", JList podium)])
    /\ fst (get_winners (strftime_Ym y m) (snd (post_close_month w)))
       = Ok (JDict [("month", JStr (strftime_Ym y m));
                    ("winners",
                     JDict [("podium", JList podium);
                            ("closed_at",
                             JStr (dt_isoformat (now (tick w)) ++ "Z"))])]).
Proof.
  intros Hd Hshape Hprev Hsnap.
  apply document_shape_shaped in Hshape.
  destruct Hshape as (d0 & [= <-] & Hsh).
  rewrite (post_close_month_closes w d y m Hd Hsh Hprev Hsnap).
  cbn [fst snd]. eexists. split; [reflexivity | ].
  unfold get_winners. rewrite bind_read_db. cbn [disk stored_document].
  rewrite bind_lift. cbn [py_get]. unfold dict_get_default at 1.
  rewrite closed_document_winners.
  rewrite bind_lift. cbn [py_get]. unfold dict_get_default.
  rewrite dict_get_set_same. reflexivity.
Qed.

(** X9: closing twice.  When [post_close_month] has closed a month and is
    called again while the previous month is still the same, the second call
    answers [already_closed] and leaves the file exactly as the first call
    wrote it: one snapshot, one reset. *)
Theorem close_then_close_again (w : world) (d : dict) (y m : Z) :
  stored_document (disk w) = JDict d ->
  document_shape (JDict d) = true ->
  prev_last (now w) = Ok (y, m) ->
  snapshot_of (JDict d) (strftime_Ym y m) = None ->
  prev_last (now (snd (post_close_month w))) = Ok (y, m) ->
  fst (post_close_month (snd (post_close_month w)))
  = Ok (JDict [("status", JStr "already_closed");
               ("month", JStr (strftime_Ym y m))])
  /\ disk (snd (post_close_month (snd (post_close_month w))))
     = disk (snd (post_close_month w)).
Proof.
  intros Hd Hshape Hprev Hsnap Hprev2.
  apply document_shape_shaped in Hshape.
  destruct Hshape as (d0 & [= <-] & Hsh).
  rewrite (post_close_month_closes w d y m Hd Hsh Hprev Hsnap) in *.
  cbn [snd] in *.
  erewrite post_close_month_closed.
  - split; reflexivity.
  - reflexivity.
  - apply closed_document_winners.
  - exact Hprev2.
  - apply dict_get_set_same.
Qed.

Lemma quiet_writes_on_return {A} (m : M A) : quiet m -> writes_on_return m.
Proof. intros H w e _. apply H. Qed.

Lemma writes_on_return_bind {A B} (m : M A) (k : A -> M B) :
  quiet m -> (forall a, writes_on_return (k a)) -> writes_on_return (bind m k).
Proof.
  intros Hm Hk w e. unfold bind.
  specialize (Hm w). destruct (m w) as [[a|e'] w'] eqn:E; simpl in Hm.
  - intros H. rewrite (Hk a w' e H). exact Hm.
  - intros _. exact Hm.
Qed.

Lemma quiet_prev_month_key : quiet _prev_month_key.
Proof.
  unfold _prev_month_key.
  apply quiet_bind; [apply quiet_utcnow | intros dt].
  apply quiet_bind; [apply quiet_lift | intros [y m]]. apply quiet_ret.
Qed.

Lemma quiet_get_month_key : quiet _get_month_key.
Proof. intros w; reflexivity. Qed.

(** A handler that reads the Document and then writes only on return. *)
Lemma raises_before_writing {A} (k : json -> M A) (w : world) (e : exn) :
  (forall db, writes_on_return (k db)) ->
  fst (bind _read_db k w) = Raise e ->
  stored_document (disk (snd (bind _read_db k w))) = stored_document (disk w)
  /\ (disk w <> Absent -> disk (snd (bind _read_db k w)) = disk w).
Proof.
  intros Hk. rewrite bind_read_db. intros Hraise.
  rewrite (Hk _ _ _ Hraise). split.
  - apply loaded_document.
  - intros H. rewrite (loaded_present w H). reflexivity.
Qed.

(** X10: a close is all or nothing.  Whenever [post_close_month] raises
    (a user that is not a record, a [monthly_winners] that is not a dict,
    ...), nothing has been written: no snapshot, no reset of some of the
    users. *)
Theorem close_month_raises_before_writing (w : world) (e : exn) :
  fst (post_close_month w) = Raise e ->
  stored_document (disk (snd (post_close_month w))) = stored_document (disk w)
  /\ (disk w <> Absent -> disk (snd (post_close_month w)) = disk w).
Proof.
  unfold post_close_month. apply raises_before_writing. intros db.
  apply writes_on_return_bind; [apply quiet_prev_month_key | intros prev_month].
  apply writes_on_return_bind; [apply quiet_lift | intros winners].
  apply writes_on_return_bind; [apply quiet_lift | intros closed].
  destruct closed; [apply quiet_writes_on_return, quiet_ret | ].
  apply writes_on_return_bind; [apply quiet_lift | intros users].
  apply writes_on_return_bind; [apply quiet_lift | intros podium].
  apply writes_on_return_bind; [apply quiet_now_iso | intros closed_at].
  apply writes_on_return_bind; [apply quiet_lift | intros [winners0 db0]].
  apply writes_on_return_bind; [apply quiet_lift | intros winners1].
  apply writes_on_return_bind; [apply quiet_lift | intros db1].
  apply writes_on_return_bind; [apply quiet_get_month_key | intros month].
  apply writes_on_return_bind; [apply quiet_lift | intros db2].
  apply writes_on_return_bind; [apply quiet_now_iso | intros now_iso].
  apply writes_on_return_bind; [apply quiet_lift | intros db3].
  intros w1 e1 H. discriminate H.
Qed.

Lemma reset_item_lookup (now_iso : string) (us : dict) (uid : string) (r : dict) :
  dict_get uid us = Some (JDict r) ->
  dict_get uid (map (reset_item now_iso) us)
  = Some (JDict (reset_fields now_iso r)).
Proof.
  induction us as [|[k u] rest IH]; simpl; [discriminate | ].
  destruct (String.eqb k uid) eqn:E.
  - intros [= ->]. cbn. rewrite E. reflexivity.
  - intros H. destruct u; cbn; rewrite E; exact (IH H).
Qed.

Lemma reset_fields_other (now_iso k : string) (r : dict) :
  reset_field k = false ->
  dict_get k (reset_fields now_iso r) = dict_get k r.
Proof.
  unfold reset_field. intros H.
  repeat (apply orb_false_iff in H; destruct H as [H ?]).
  unfold reset_fields.
  rewrite !dict_get_set_other; [reflexivity | | | | | ];
    intros ->; rewrite String.eqb_refl in *; discriminate.
Qed.

(** X11: what a close leaves alone.  The feed is not touched; the snapshots
    of the other months are kept; every user keeps the fields that the reset
    does not assign, the nickname among them. *)
Theorem close_month_keeps_the_rest (w : world) (d : dict) (y m : Z) :
  stored_document (disk w) = JDict d ->
  document_shape (JDict d) = true ->
  prev_last (now w) = Ok (y, m) ->
  snapshot_of (JDict d) (strftime_Ym y m) = None ->
  exists db',
    disk (snd (post_close_month w)) = Content db'
    /\ feed_of db' = feed_of (JDict d)
    /\ (forall k, k <> strftime_Ym y m ->
                  snapshot_of db' k = snapshot_of (JDict d) k)
    /\ (forall uid r,
          stored_user (JDict d) uid = Some (JDict r) ->
          exists r',
            stored_user db' uid = Some (JDict r')
            /\ dict_get "nickname" r' = dict_get "nickname" r
            /\ forall k, reset_field k = false -> dict_get k r' = dict_get k r).
Proof.
  intros Hd Hshape Hprev Hsnap.
  apply document_shape_shaped in Hshape.
  destruct Hshape as (d0 & [= <-] & Hsh).
  rewrite (post_close_month_closes w d y m Hd Hsh Hprev Hsnap).
  cbn [snd disk]. eexists. split; [reflexivity | ].
  match goal with
  | |- context [closed_document ?p ?sn ?mo ?no d] =>
      set (d' := closed_document p sn mo no d);
      pose proof (closed_document_winners p sn mo no d) as Hmw;
      fold d' in Hmw;
      assert (Hother : forall k, k <> "monthly_winners" -> k <> "last_month_closed" ->
                                 k <> "users" -> dict_get k d' = dict_get k d);
      [ | assert (Husers : users_of (JDict d')
                           = map (reset_item no) (users_of (JDict d))) ]
  end.
  { intros k H1 H2 H3. unfold d', closed_document. cbv zeta.
    destruct (dict_get "users" _);
      rewrite ?(dict_get_set_other k "users") by exact H3;
      rewrite !dict_get_set_other by assumption; reflexivity. }
  { unfold users_of at 1. unfold slot, d', closed_document. cbv zeta.
    match goal with
    | |- context [match dict_get "users" ?x with Some _ => _ | None => ?x end] =>
        destruct (dict_get "users" x) as [users|] eqn:E
    end.
    - rewrite dict_get_set_same. reflexivity.
    - rewrite E. rewrite !dict_get_set_other in E by discriminate.
      unfold users_of, slot. rewrite E. reflexivity. }
  split; [ | split ].
  - unfold feed_of, slot. rewrite Hother by discriminate. reflexivity.
  - intros k Hk. unfold snapshot_of, slot. rewrite Hmw.
    rewrite dict_get_set_other by congruence.
    destruct (shaped_winners d Hsh) as [-> | (mw & ->)]; reflexivity.
  - intros uid r Hr. unfold stored_user in *. rewrite Husers.
    eexists. split; [apply reset_item_lookup; exact Hr | ].
    split; [apply reset_fields_other; reflexivity | ].
    intros k Hk. apply reset_fields_other. exact Hk.
Qed.

End CloseMore.

(** ** More on the user handlers *)

Section UserHandlers.

Context {PF : PyFloat}.

Lemma dict_set_not_nil (k : string) (v : json) (d : dict) : dict_set k v d <> [].
Proof. destruct d as [|[k' v'] r]; simpl; [ | destruct (String.eqb k' k) ]; discriminate. Qed.

(** [get_user] for a user whose stored record is a dict with fields. *)
Lemma get_user_stored (user_id : string) (w : world) (d us u : dict) :
  stored_document (disk w) = JDict d ->
  dict_get "users" d = Some (JDict us) ->
  dict_get user_id us = Some (JDict u) ->
  u <> [] ->
  fst (get_user user_id w)
  = rbind (compute_user_metrics (JDict u)) (user_view user_id (JDict u)).
Proof.
  intros Hd Hus Hu Hne. unfold get_user. rewrite bind_read_db, Hd.
  rewrite bind_lift. cbn [py_get]. unfold dict_get_default. rewrite Hus.
  rewrite bind_lift. cbn [py_get]. unfold dict_get_default. rewrite Hu.
  assert (Ht : truthy (JDict u) = true) by (destruct u; [contradiction | reflexivity]).
  rewrite Ht. unfold bind, lift.
  destruct (compute_user_metrics (JDict u)); reflexivity.
Qed.

Lemma user_response_of_view (user_id : string) (cn : option string) (u : dict) :
  user_response user_id cn u
  = rbind (rbind (compute_user_metrics (JDict u)) (user_view user_id (JDict u)))
          (fun view => Ok (with_message cn [("status", JStr "ok"); ("user", view)])).
Proof.
  unfold user_response.
  destruct (compute_user_metrics (JDict u)); reflexivity.
Qed.

Lemma same_elsewhere_of_frame (user_id : string) (u' : dict) (d d' : dict) :
  dict_get "users" d'
  = Some (JDict (dict_set user_id (JDict u') (users_of (JDict d)))) ->
  (forall k, k <> "users" -> k <> "recent_trades" ->
             dict_get k d' = dict_get k d) ->
  same_elsewhere user_id (JDict d) (JDict d').
Proof.
  intros Hus Hother. split; [ | split ].
  - intros other Hne. unfold stored_user. unfold users_of at 1. unfold slot.
    rewrite Hus. apply dict_get_set_other. exact Hne.
  - unfold slot. apply Hother; discriminate.
  - unfold slot. apply Hother; discriminate.
Qed.

Lemma updated_fields (upd : UserUpdate) (now_iso : string) (u : dict) :
  dict_get "last_update" (updated upd now_iso u) = Some (JStr now_iso)
  /\ dict_get "balance" (updated upd now_iso u)
     = match upd_balance upd with
       | Some b => Some (JFloat (round2 b))
       | None => dict_get "balance" u
       end
  /\ dict_get "trades" (updated upd now_iso u)
     = match upd_trades upd with
       | Some t => Some (JInt t)
       | None => dict_get "trades" u
       end
  /\ dict_get "wins" (updated upd now_iso u)
     = match upd_wins upd with
       | Some t => Some (JInt t)
       | None => dict_get "wins" u
       end
  /\ dict_get "period_start_balance" (updated upd now_iso u)
     = match upd_period_start_balance upd with
       | Some b => Some (JFloat (round2 b))
       | None => dict_get "period_start_balance" u
       end.
Proof.
  destruct upd as [n b t wn p]. cbn [upd_balance upd_trades upd_wins
                                      upd_period_start_balance].
  unfold updated. cbn [upd_balance upd_trades upd_wins upd_period_start_balance].
  repeat split.
  - apply dict_get_set_same.
  - rewrite dict_get_set_other by discriminate.
    destruct p; [rewrite dict_get_set_other by discriminate | ];
      (destruct wn; [rewrite dict_get_set_other by discriminate | ]);
      (destruct t; [rewrite dict_get_set_other by discriminate | ]);
      (destruct b; [rewrite dict_get_set_same | ]); reflexivity.
  - rewrite dict_get_set_other by discriminate.
    destruct p; [rewrite dict_get_set_other by discriminate | ];
      (destruct wn; [rewrite dict_get_set_other by discriminate | ]);
      (destruct t; [rewrite dict_get_set_same; reflexivity | ]);
      (destruct b; [rewrite dict_get_set_other by discriminate | ]); reflexivity.
  - rewrite dict_get_set_other by discriminate.
    destruct p; [rewrite dict_get_set_other by discriminate | ];
      (destruct wn; [rewrite dict_get_set_same; reflexivity | ]);
      (destruct t; [rewrite dict_get_set_other by discriminate | ]);
      (destruct b; [rewrite dict_get_set_other by discriminate | ]); reflexivity.
  - rewrite dict_get_set_other by discriminate.
    destruct p; [rewrite dict_get_set_same; reflexivity | ];
      (destruct wn; [rewrite dict_get_set_other by discriminate | ]);
      (destruct t; [rewrite dict_get_set_other by discriminate | ]);
      (destruct b; [rewrite dict_get_set_other by discriminate | ]); reflexivity.
Qed.

(** X12: [update_user] touches one user.  On a Document of the expected
    shape the call writes a Document in which the record of every other user,
    [monthly_winners] and [last_month_closed] are what they were, and the
    feed has the same number of entries. *)
Theorem update_user_touches_one_user
    (user_id : string) (upd : UserUpdate) (w : world) (d : dict) :
  stored_document (disk w) = JDict d ->
  document_shape (JDict d) = true ->
  exists db',
    disk (snd (update_user user_id upd w)) = Content db'
    /\ same_elsewhere user_id (JDict d) db'
    /\ List.length (feed_of db') = List.length (feed_of (JDict d)).
Proof.
  intros Hd Hshape.
  apply document_shape_shaped in Hshape.
  destruct Hshape as (d0 & [= <-] & Hsh).
  destruct (shaped_users_default d Hsh) as [_ Hall].
  destruct (setdefault_user _ user_id Hall) as (u0 & _ & Hu0 & _).
  destruct (update_user_full user_id upd w d u0 Hd Hsh Hu0)
    as (d' & Hrun & Hus & Hfeed & Hother).
  exists (JDict d'). rewrite Hrun. cbn [snd disk].
  split; [reflexivity | ].
  split; [exact (same_elsewhere_of_frame _ _ _ _ Hus Hother) | ].
  rewrite Hfeed. unfold feed_after_update.
  destruct (changed_nick_of _ _) as [n|]; [ | reflexivity ].
  destruct (negb (String.eqb n "")); [apply length_map | reflexivity].
Qed.

(** X13: the fields [update_user] stores.  [last_update] is stamped with the
    current time on every call; a provided balance or period start balance
    is stored rounded to 2 decimals, provided trades and wins as given; a
    field that is not provided keeps the value of the record the call
    started from (the default record for a new user). *)
Theorem update_user_stores_fields
    (user_id : string) (upd : UserUpdate) (w : world) (d u0 : dict) :
  stored_document (disk w) = JDict d ->
  document_shape (JDict d) = true ->
  record_or_default (users_of (JDict d)) user_id = JDict u0 ->
  exists db' u',
    disk (snd (update_user user_id upd w)) = Content db'
    /\ stored_user db' user_id = Some (JDict u')
    /\ dict_get "last_update" u' = Some (JStr (dt_isoformat (now w) ++ "Z"))
    /\ dict_get "balance" u'
       = match upd_balance upd with
         | Some b => Some (JFloat (round2 b))
         | None => dict_get "balance" u0
         end
    /\ dict_get "trades" u'
       = match upd_trades upd with
         | Some t => Some (JInt t)
         | None => dict_get "trades" u0
         end
    /\ dict_get "wins" u'
       = match upd_wins upd with
         | Some t => Some (JInt t)
         | None => dict_get "wins" u0
         end
    /\ dict_get "period_start_balance" u'
       = match upd_period_start_balance upd with
         | Some b => Some (JFloat (round2 b))
         | None => dict_get "period_start_balance" u0
         end.
Proof.
  intros Hd Hshape Hu0.
  apply document_shape_shaped in Hshape.
  destruct Hshape as (d0 & [= <-] & Hsh).
  destruct (update_user_full user_id upd w d u0 Hd Hsh Hu0)
    as (d' & Hrun & Hus & _).
  eexists (JDict d'), _. rewrite Hrun. cbn [snd disk].
  split; [reflexivity | ].
  split.
  { unfold stored_user, users_of, slot. rewrite Hus. apply dict_get_set_same. }
  destruct (updated_fields upd (dt_isoformat (now w) ++ "Z")
              (renamed (changed_nick_of (upd_nickname upd) u0) u0))
    as (H1 & H2 & H3 & H4 & H5).
  assert (Hren : forall k, k <> "nickname" ->
                 dict_get k (renamed (changed_nick_of (upd_nickname upd) u0) u0)
                 = dict_get k u0).
  { intros k Hk. destruct (changed_nick_of _ _); [ | reflexivity ].
    apply dict_get_set_other. exact Hk. }
  rewrite !Hren in * by discriminate.
  repeat split; assumption.
Qed.

(** X14: the answer of [update_user] is the answer of [get_user].  On a
    Document of the expected shape, the [user] object of the response (or the
    exception, when the metrics of the stored record do not compute) is what
    [get_user] returns for that user right after the call. *)
Theorem update_user_answers_like_get_user
    (user_id : string) (upd : UserUpdate) (w : world) (d u0 : dict) :
  stored_document (disk w) = JDict d ->
  document_shape (JDict d) = true ->
  record_or_default (users_of (JDict d)) user_id = JDict u0 ->
  fst (update_user user_id upd w)
  = rbind (fst (get_user user_id (snd (update_user user_id upd w))))
          (fun view =>
             Ok (with_message (changed_nick_of (upd_nickname upd) u0)
                              [("status", JStr "ok"); ("user", view)])).
Proof.
  intros Hd Hshape Hu0.
  apply document_shape_shaped in Hshape.
  destruct Hshape as (d0 & [= <-] & Hsh).
  destruct (update_user_full user_id upd w d u0 Hd Hsh Hu0)
    as (d' & Hrun & Hus & _).
  rewrite Hrun. cbn [fst snd].
  erewrite get_user_stored.
  - apply user_response_of_view.
  - reflexivity.
  - exact Hus.
  - apply dict_get_set_same.
  - apply dict_set_not_nil.
Qed.

(** X15: an error of [update_user] comes after the write.  On a Document of
    the expected shape, when the call raises, the exception is the one the
    metrics of the updated record raise, and the record has been written
    all the same, with its new [last_update]. *)
Theorem update_user_raises_after_writing
    (user_id : string) (upd : UserUpdate) (w : world) (d : dict) (e : exn) :
  stored_document (disk w) = JDict d ->
  document_shape (JDict d) = true ->
  fst (update_user user_id upd w) = Raise e ->
  exists db' u',
    disk (snd (update_user user_id upd w)) = Content db'
    /\ stored_user db' user_id = Some (JDict u')
    /\ dict_get "last_update" u' = Some (JStr (dt_isoformat (now w) ++ "Z"))
    /\ compute_user_metrics (JDict u') = Raise e.
Proof.
  intros Hd Hshape.
  apply document_shape_shaped in Hshape.
  destruct Hshape as (d0 & [= <-] & Hsh).
  destruct (shaped_users_default d Hsh) as [_ Hall].
  destruct (setdefault_user _ user_id Hall) as (u0 & _ & Hu0 & _).
  destruct (update_user_full user_id upd w d u0 Hd Hsh Hu0)
    as (d' & Hrun & Hus & _).
  rewrite Hrun. cbn [fst snd disk]. intros Hraise.
  eexists (JDict d'), _.
  split; [reflexivity | ].
  split.
  { unfold stored_user, users_of, slot. rewrite Hus. apply dict_get_set_same. }
  split.
  { apply updated_fields. }
  unfold user_response in Hraise.
  destruct (compute_user_metrics (JDict _)) as [m|e'];
    [ | injection Hraise as ->; reflexivity ].
  cbn [rbind user_view py_get] in Hraise. discriminate Hraise.
Qed.

(** *** [record_trade] *)

Lemma capped_firstn (entry : json) (feed : list json) :
  capped entry feed = firstn MAX_RECENT_TRADES (entry :: feed).
Proof.
  unfold capped.
  destruct (MAX_RECENT_TRADES <? List.length (entry :: feed))%nat eqn:E;
    [reflexivity | ].
  apply Nat.ltb_ge in E. symmetry. apply firstn_all2. exact E.
Qed.

Lemma patched_feed_length (user_id : string) (cn : option string)
    (feed : list json) :
  List.length (patched_feed user_id cn feed) = List.length feed.
Proof. destruct cn; simpl; [apply length_map | reflexivity]. Qed.

Lemma valid_result_cases (tr : TradeRecord) :
  valid_result tr = true ->
  PyStr.lower (tr_result tr) = "win" \/ PyStr.lower (tr_result tr) = "lose".
Proof.
  unfold valid_result, is_win, is_lose. intros H.
  apply orb_true_iff in H.
  destruct H as [H | H]; apply String.eqb_eq in H; auto.
Qed.

(** X16: the feed after a trade.  A valid trade puts one entry at the head
    of the feed, with the time of the call, the user, the nickname the
    record now has, the lower-cased result and the amount rounded to 2
    decimals (0.0 when no amount was given); the entries that were there
    follow in their order, and the feed is cut to 500 entries. *)
Theorem record_trade_prepends_and_caps
    (user_id : string) (tr : TradeRecord) (w : world)
    (d u0 : dict) (t wn : Z) (b : float) :
  stored_document (disk w) = JDict d ->
  document_shape (JDict d) = true ->
  record_or_default (users_of (JDict d)) user_id = JDict u0 ->
  valid_result tr = true ->
  py_int (dict_get_default "trades" (JInt 0) u0) = Ok t ->
  (is_win tr = true -> py_int (dict_get_default "wins" (JInt 0) u0) = Ok wn) ->
  (tr_amount tr <> None ->
   py_float (dict_get_default "balance" (JFloat START_BALANCE) u0) = Ok b) ->
  exists db' u',
    disk (snd (record_trade user_id tr w)) = Content db'
    /\ stored_user db' user_id = Some (JDict u')
    /\ feed_of db'
       = firstn 500
           (JDict [("ts", JStr (dt_isoformat (now w) ++ "Z"));
                   ("user_id", JStr user_id);
                   ("nickname",
                    py_or (dict_get_default "nickname" (JStr "") u') (JStr ""));
                   ("result", JStr (PyStr.lower (tr_result tr)));
                   ("amount",
                    JFloat (round2 match tr_amount tr with
                                   | Some a => a
                                   | None => fzero
                                   end))]
            :: patched_feed user_id (changed_nick_of (tr_nickname tr) u0)
                 (feed_of (JDict d)))
    /\ List.length (feed_of db')
       = Nat.min 500 (S (List.length (feed_of (JDict d)))).
Proof.
  intros Hd Hshape Hu0 Hvalid Ht Hw Hb.
  apply document_shape_shaped in Hshape.
  destruct Hshape as (d0 & [= <-] & Hsh).
  assert (Hw' : PyStr.lower (tr_result tr) = "win" ->
                py_int (dict_get_default "wins" (JInt 0) u0) = Ok wn).
  { intros E. apply Hw. unfold is_win. rewrite E. reflexivity. }
  destruct (record_trade_full user_id tr w d u0 t wn b Hd Hsh Hu0
              (valid_result_cases tr Hvalid) Ht Hw' Hb)
    as (d' & Hrun & Hdoc).
  eexists (JDict d'), _. rewrite Hrun. cbn [snd disk].
  split; [reflexivity | ].
  split; [exact (document_with_user _ _ _ _ _ Hdoc) | ].
  destruct Hdoc as (_ & Hfeed & _).
  unfold feed_of at 1 3. unfold slot. rewrite Hfeed.
  rewrite capped_firstn. split; [reflexivity | ].
  rewrite length_firstn. cbn [List.length].
  rewrite patched_feed_length. reflexivity.
Qed.

(** X17: [record_trade] touches one user.  A valid trade writes a Document in
    which the record of every other user, [monthly_winners] and
    [last_month_closed] are what they were. *)
Theorem record_trade_touches_one_user
    (user_id : string) (tr : TradeRecord) (w : world)
    (d u0 : dict) (t wn : Z) (b : float) :
  stored_document (disk w) = JDict d ->
  document_shape (JDict d) = true ->
  record_or_default (users_of (JDict d)) user_id = JDict u0 ->
  valid_result tr = true ->
  py_int (dict_get_default "trades" (JInt 0) u0) = Ok t ->
  (is_win tr = true -> py_int (dict_get_default "wins" (JInt 0) u0) = Ok wn) ->
  (tr_amount tr <> None ->
   py_float (dict_get_default "balance" (JFloat START_BALANCE) u0) = Ok b) ->
  exists db',
    disk (snd (record_trade user_id tr w)) = Content db'
    /\ same_elsewhere user_id (JDict d) db'.
Proof.
  intros Hd Hshape Hu0 Hvalid Ht Hw Hb.
  apply document_shape_shaped in Hshape.
  destruct Hshape as (d0 & [= <-] & Hsh).
  assert (Hw' : PyStr.lower (tr_result tr) = "win" ->
                py_int (dict_get_default "wins" (JInt 0) u0) = Ok wn).
  { intros E. apply Hw. unfold is_win. rewrite E. reflexivity. }
  destruct (record_trade_full user_id tr w d u0 t wn b Hd Hsh Hu0
              (valid_result_cases tr Hvalid) Ht Hw' Hb)
    as (d' & Hrun & Hus & _ & Hother).
  exists (JDict d'). rewrite Hrun. cbn [snd disk].
  split; [reflexivity | ].
  exact (same_elsewhere_of_frame _ _ _ _ Hus Hother).
Qed.

(** X18: the answer of [record_trade] is the answer of [get_user].  After a
    valid trade, the [user] object of the response (or the exception, when
    the metrics of the stored record do not compute) is what [get_user]
    returns for that user right after the call. *)
Theorem record_trade_answers_like_get_user
    (user_id : string) (tr : TradeRecord) (w : world)
    (d u0 : dict) (t wn : Z) (b : float) :
  stored_document (disk w) = JDict d ->
  document_shape (JDict d) = true ->
  record_or_default (users_of (JDict d)) user_id = JDict u0 ->
  valid_result tr = true ->
  py_int (dict_get_default "trades" (JInt 0) u0) = Ok t ->
  (is_win tr = true -> py_int (dict_get_default "wins" (JInt 0) u0) = Ok wn) ->
  (tr_amount tr <> None ->
   py_float (dict_get_default "balance" (JFloat START_BALANCE) u0) = Ok b) ->
  fst (record_trade user_id tr w)
  = rbind (fst (get_user user_id (snd (record_trade user_id tr w))))
          (fun view =>
             Ok (with_message (changed_nick_of (tr_nickname tr) u0)
                              [("status", JStr "ok"); ("user", view)])).
Proof.
  intros Hd Hshape Hu0 Hvalid Ht Hw Hb.
  apply document_shape_shaped in Hshape.
  destruct Hshape as (d0 & [= <-] & Hsh).
  assert (Hw' : PyStr.lower (tr_result tr) = "win" ->
                py_int (dict_get_default "wins" (JInt 0) u0) = Ok wn).
  { intros E. apply Hw. unfold is_win. rewrite E. reflexivity. }
  destruct (record_trade_full user_id tr w d u0 t wn b Hd Hsh Hu0
              (valid_result_cases tr Hvalid) Ht Hw' Hb)
    as (d' & Hrun & Hus & _).
  rewrite Hrun. cbn [fst snd].
  erewrite get_user_stored.
  - apply user_response_of_view.
  - reflexivity.
  - exact Hus.
  - apply dict_get_set_same.
  - unfold traded. apply dict_set_not_nil.
Qed.

(** *** Stored nicknames *)

Lemma lstrip_head (s : string) :
  match PyStr.lstrip s with
  | EmptyString => True
  | String c _ => PyStr.isspace c = false
  end.
Proof.
  induction s as [|c r IH]; [exact I | ].
  change (PyStr.lstrip (String c r))
    with (if PyStr.isspace c then PyStr.lstrip r else String c r).
  destruct (PyStr.isspace c) eqn:E; [exact IH | exact E].
Qed.

Lemma rstrip_head (c : ascii) (r : string) :
  PyStr.isspace c = false -> exists r', PyStr.rstrip (String c r) = String c r'.
Proof.
  intros E.
  change (PyStr.rstrip (String c r))
    with (match PyStr.rstrip r with
          | EmptyString =>
              if PyStr.isspace c then EmptyString else String c EmptyString
          | String c' r' => String c (String c' r')
          end).
  rewrite E. destruct (PyStr.rstrip r); eexists; reflexivity.
Qed.

Lemma slice_to_length (n : nat) (s : string) :
  (String.length (PyStr.slice_to n s) <= n)%nat.
Proof.
  revert s. induction n as [|n IH]; intros s.
  - destruct s; apply le_n.
  - destruct s as [|c r]; [apply Nat.le_0_l | ].
    change (PyStr.slice_to (S n) (String c r)) with (String c (PyStr.slice_to n r)).
    cbn [String.length]. apply le_n_S. apply IH.
Qed.

Lemma trimmed_is_trimmed (s : string) :
  (String.length (trimmed s) <= 40)%nat
  /\ match trimmed s with
     | EmptyString => True
     | String c _ => PyStr.isspace c = false
     end.
Proof.
  split; [apply slice_to_length | ].
  unfold trimmed.
  change (PyStr.strip s) with (PyStr.rstrip (PyStr.lstrip s)).
  pose proof (lstrip_head s) as H.
  destruct (PyStr.lstrip s) as [|c r]; [exact I | ].
  destruct (rstrip_head c r H) as (r' & ->).
  change (PyStr.slice_to 40 (String c r')) with (String c (PyStr.slice_to 39 r')).
  exact H.
Qed.

(** X19: the nickname [update_user] stores is trimmed.  When a provided
    nickname changes the stored one, the record ends with a nickname of at
    most 40 characters that does not start with whitespace. *)
Theorem update_user_stores_trimmed_nickname
    (user_id : string) (upd : UserUpdate) (w : world)
    (d u0 : dict) (nickname : string) :
  stored_document (disk w) = JDict d ->
  document_shape (JDict d) = true ->
  record_or_default (users_of (JDict d)) user_id = JDict u0 ->
  upd_nickname upd = Some nickname ->
  str_eq (trimmed nickname) (dict_get_default "nickname" (JStr "") u0) = false ->
  exists db' u' n,
    disk (snd (update_user user_id upd w)) = Content db'
    /\ stored_user db' user_id = Some (JDict u')
    /\ dict_get "nickname" u' = Some (JStr n)
    /\ (String.length n <= 40)%nat
    /\ match n with
       | EmptyString => True
       | String c _ => PyStr.isspace c = false
       end.
Proof.
  intros Hd Hshape Hu0 Hnick Hdiff.
  apply document_shape_shaped in Hshape.
  destruct Hshape as (d0 & [= <-] & Hsh).
  destruct (update_user_full user_id upd w d u0 Hd Hsh Hu0)
    as (d' & Hrun & Hus & _).
  assert (Hcn : changed_nick_of (upd_nickname upd) u0 = Some (trimmed nickname)).
  { unfold changed_nick_of. rewrite Hnick, Hdiff. reflexivity. }
  rewrite Hcn in Hrun, Hus.
  eexists (JDict d'), _, (trimmed nickname). rewrite Hrun. cbn [snd disk].
  split; [reflexivity | ].
  split.
  { unfold stored_user, users_of, slot. rewrite Hus. apply dict_get_set_same. }
  split.
  { rewrite updated_nickname. apply dict_get_set_same. }
  apply trimmed_is_trimmed.
Qed.

End UserHandlers.

(** ** [get_live_wins] *)

Section LiveWinsFacts.

Context {PF : PyFloat} {PT : PyDatetime}.

Lemma get_live_wins_run (limit : Z) (minutes : option Z)
    (nickname : option string) (w : world) :
  get_live_wins limit minutes nickname w
  = if limit <=? 0
    then (Raise (HTTPException 400 "limit must be > 0"), w)
    else
      match py_get (stored_document (disk w)) "recent_trades" (JList []) with
      | Raise e => (Raise e, loaded w)
      | Ok v =>
          match py_list v with
          | Raise e => (Raise e, loaded w)
          | Ok recent =>
              match minutes with
              | Some m =>
                  match minutes_before (now w) m with
                  | Some c =>
                      live_wins_answer limit (Some c) nickname recent
                        (tick (loaded w))
                  | None =>
                      (Raise (HTTPException 400 "invalid minutes parameter"),
                       tick (loaded w))
                  end
              | None => live_wins_answer limit None nickname recent (loaded w)
              end
          end
      end.
Proof.
  unfold get_live_wins. destruct (limit <=? 0); [reflexivity | ].
  rewrite bind_read_db, bind_lift.
  destruct (py_get (stored_document (disk w)) "recent_trades" (JList []))
    as [v | e]; [ | reflexivity].
  rewrite bind_lift. destruct (py_list v) as [recent | e]; [ | reflexivity].
  unfold live_wins_answer.
  destruct minutes as [m | ].
  - unfold bind at 1. unfold bind at 1. unfold utcnow at 1.
    change (clock (loaded w) (ticks (loaded w))) with (now w).
    destruct (minutes_before (now w) m) as [c | ]; [ | reflexivity].
    unfold ret at 1. rewrite bind_lift.
    destruct (collect _ _ _ _) as [filtered | e]; [ | reflexivity].
    rewrite bind_lift.
    destruct (summarise filtered) as [sm | e]; reflexivity.
  - unfold bind at 1. unfold ret at 1. rewrite bind_lift.
    destruct (collect _ _ _ _) as [filtered | e]; [ | reflexivity].
    rewrite bind_lift.
    destruct (summarise filtered) as [sm | e]; reflexivity.
Qed.

Lemma shaped_feed_list (d : dict) :
  document_shape (JDict d) = true ->
  py_get (JDict d) "recent_trades" (JList []) = Ok (JList (feed_of (JDict d))).
Proof.
  intros Hshape. apply document_shape_shaped in Hshape.
  destruct Hshape as (d0 & [= <-] & Hsh).
  unfold py_get, feed_of, slot, dict_get_default.
  destruct (shaped_feed d Hsh) as [-> | (l & ->)]; reflexivity.
Qed.

(** X20: [get_live_wins] writes nothing, whatever its parameters and the
    state of the store: the Document the store denotes is unchanged and a
    file that exists is left as it is. *)
Theorem get_live_wins_reads_only (limit : Z) (minutes : option Z)
    (nickname : option string) (w : world) :
  stored_document (disk (snd (get_live_wins limit minutes nickname w)))
  = stored_document (disk w)
  /\ (disk w <> Absent ->
      disk (snd (get_live_wins limit minutes nickname w)) = disk w).
Proof.
  assert (H : disk (snd (get_live_wins limit minutes nickname w)) = disk w
              \/ disk (snd (get_live_wins limit minutes nickname w))
                 = disk (loaded w)).
  { rewrite get_live_wins_run. unfold live_wins_answer.
    repeat match goal with
           | |- context [if ?b then _ else _] => destruct b
           | |- context [match ?x with _ => _ end] => destruct x
           end; cbn [snd tick disk]; auto. }
  split.
  - destruct H as [-> | ->]; [reflexivity | apply loaded_document].
  - intros Hp. destruct H as [-> | ->]; [reflexivity | ].
    rewrite (loaded_present w Hp). reflexivity.
Qed.

(** *** The entries returned *)

Lemma collect_firstn (n : nat) (cutoff : option instant)
    (lf : option string) (recent l : list json) :
  (1 <= n)%nat ->
  collect n cutoff lf recent = Ok l ->
  l = firstn n (filter (kept cutoff lf) recent).
Proof.
  revert n l. induction recent as [|entry rest IH]; intros n l Hn H.
  - injection H as <-. destruct n; reflexivity.
  - cbn [collect rbind] in H. cbn [filter]. unfold kept at 1.
    destruct (keep_entry cutoff lf entry) as [[|]|e]; [ | | discriminate H].
    + destruct (n <=? 1)%nat eqn:E.
      * apply Nat.leb_le in E. assert (n = 1%nat) as -> by lia.
        injection H as <-. reflexivity.
      * apply Nat.leb_gt in E.
        destruct (collect (n - 1) cutoff lf rest) as [more|e] eqn:Em;
          [ | discriminate H].
        injection H as <-.
        rewrite (IH (n - 1)%nat more) by (lia || exact Em).
        destruct n as [|n']; [lia | ].
        cbn [firstn]. replace (S n' - 1)%nat with n' by lia. reflexivity.
    + apply IH; assumption.
Qed.

Lemma firstn_filter_subseq {A} (p : A -> bool) (l : list A) (n : nat) :
  subseq (firstn n (filter p l)) l.
Proof.
  revert n. induction l as [|x l IH]; intros n.
  - destruct n; constructor.
  - cbn [filter]. destruct (p x).
    + destruct n as [|n]; cbn [firstn].
      * apply subseq_skip. exact (IH 0%nat).
      * apply subseq_keep. apply IH.
    + apply subseq_skip. apply IH.
Qed.

Lemma firstn_incl {A} (n : nat) (l : list A) (x : A) :
  In x (firstn n l) -> In x l.
Proof.
  revert l. induction n as [|n IH]; intros [|y l]; cbn [firstn In];
    try contradiction.
  intros [H | H]; auto.
Qed.

Lemma firstn_filter_all {A} (p : A -> bool) (l : list A) (n : nat) :
  Forall (fun x => p x = true) (firstn n (filter p l)).
Proof.
  apply Forall_forall. intros x Hx.
  apply firstn_incl in Hx. apply filter_In in Hx. tauto.
Qed.

Lemma live_wins_answer_entries (limit : Z) (cutoff : option instant)
    (nickname : option string) (recent : list json) (w : world) (resp : json) :
  0 < limit ->
  fst (live_wins_answer limit cutoff nickname recent w) = Ok resp ->
  slot "recent_trades" resp
  = Some (JList (firstn (Z.to_nat (Z.min limit 500))
                   (filter (kept cutoff (lower_filter_of nickname)) recent))).
Proof.
  intros Hl. unfold live_wins_answer.
  destruct (collect _ _ _ _) as [filtered | e] eqn:Ec; [ | discriminate].
  destruct (summarise filtered) as [sm | e]; [ | discriminate].
  cbn [fst]. intros [= <-].
  apply collect_firstn in Ec; [ | lia]. subst filtered. reflexivity.
Qed.

Lemma live_wins_picked (limit : Z) (minutes : option Z)
    (nickname : option string) (w : world) (d : dict) (resp : json) :
  stored_document (disk w) = JDict d ->
  document_shape (JDict d) = true ->
  fst (get_live_wins limit minutes nickname w) = Ok resp ->
  slot "recent_trades" resp
  = Some (JList (firstn (Z.to_nat (Z.min limit 500))
                   (filter (kept (cutoff_at minutes (now w))
                                 (lower_filter_of nickname))
                           (feed_of (JDict d))))).
Proof.
  intros Hd Hshape H. rewrite get_live_wins_run in H.
  destruct (limit <=? 0) eqn:El; [discriminate H | ].
  apply Z.leb_gt in El.
  rewrite Hd, (shaped_feed_list d Hshape) in H. cbn [py_list] in H.
  destruct minutes as [m | ]; cbn [cutoff_at].
  - destruct (minutes_before (now w) m) as [c | ]; [ | discriminate H].
    exact (live_wins_answer_entries _ _ _ _ _ _ El H).
  - exact (live_wins_answer_entries _ _ _ _ _ _ El H).
Qed.

(** X21: the entries [get_live_wins] returns.  On a well-shaped Document, a
    call that returns gives the first [min(limit, 500)] feed entries that pass
    the time and nickname tests, in feed order: a subsequence of the feed of
    at most [limit] and at most 500 entries.  The cutoff is taken at the time
    of the call. *)
Theorem live_wins_entries (limit : Z) (minutes : option Z)
    (nickname : option string) (w : world) (d : dict) (resp : json) :
  stored_document (disk w) = JDict d ->
  document_shape (JDict d) = true ->
  fst (get_live_wins limit minutes nickname w) = Ok resp ->
  exists picked,
    slot "recent_trades" resp = Some (JList picked)
    /\ picked
       = firstn (Z.to_nat (Z.min limit 500))
           (filter (kept (cutoff_at minutes (now w)) (lower_filter_of nickname))
                   (feed_of (JDict d)))
    /\ subseq picked (feed_of (JDict d))
    /\ Z.of_nat (List.length picked) <= Z.min limit 500.
Proof.
  intros Hd Hshape H.
  assert (El : 0 < limit).
  { rewrite get_live_wins_run in H.
    destruct (limit <=? 0) eqn:El; [discriminate H | ].
    apply Z.leb_gt in El. exact El. }
  eexists. split; [exact (live_wins_picked _ _ _ _ _ _ Hd Hshape H) | ].
  split; [reflexivity | ].
  split; [apply firstn_filter_subseq | ].
  rewrite length_firstn. lia.
Qed.

Lemma lower_filter_of_some (n f : string) :
  lower_filter_of (Some n) = Some f -> f = PyStr.strip (PyStr.lower n).
Proof.
  unfold lower_filter_of. destruct (String.eqb n ""); [discriminate | ].
  intros [= <-]. reflexivity.
Qed.

Lemma kept_nickname (cutoff : option instant) (f : string) (e : json) :
  f <> "" ->
  kept cutoff (Some f) e = true ->
  exists fields s,
    e = JDict fields
    /\ py_or (dict_get_default "nickname" JNull fields) (JStr "") = JStr s
    /\ PyStr.lower (PyStr.strip s) = f.
Proof.
  intros Hf. unfold kept, keep_entry.
  apply String.eqb_neq in Hf. rewrite Hf. cbn [negb].
  match goal with
  | |- context [rbind ?R _] => destruct R as [[|]|x]
  end; cbn [rbind negb]; try discriminate.
  destruct e as [ | | | | | |fields]; cbn [py_get rbind]; try discriminate.
  intros H. exists fields.
  destruct (py_or (dict_get_default "nickname" JNull fields) (JStr ""))
    as [ | | | |s| | ]; try discriminate H.
  exists s. split; [reflexivity | ]. split; [reflexivity | ].
  apply String.eqb_eq.
  destruct (String.eqb (PyStr.lower (PyStr.strip s)) f);
    [reflexivity | discriminate H].
Qed.

(** X22: the nickname filter of [get_live_wins].  With a [nickname] parameter
    that is not blank, every entry of a returned feed is a record whose
    nickname is a str equal to the parameter once both are stripped and
    lower-cased. *)
Theorem live_wins_nickname_filter (limit : Z) (minutes : option Z)
    (nickname : string) (w : world) (d : dict) (resp : json) :
  stored_document (disk w) = JDict d ->
  document_shape (JDict d) = true ->
  PyStr.strip (PyStr.lower nickname) <> "" ->
  fst (get_live_wins limit minutes (Some nickname) w) = Ok resp ->
  exists picked,
    slot "recent_trades" resp = Some (JList picked)
    /\ Forall (fun e => exists fields s,
                   e = JDict fields
                   /\ py_or (dict_get_default "nickname" JNull fields) (JStr "")
                      = JStr s
                   /\ PyStr.lower (PyStr.strip s)
                      = PyStr.strip (PyStr.lower nickname))
              picked.
Proof.
  intros Hd Hshape Hf H.
  eexists. split; [exact (live_wins_picked _ _ _ _ _ _ Hd Hshape H) | ].
  assert (Hlf : lower_filter_of (Some nickname)
                = Some (PyStr.strip (PyStr.lower nickname))).
  { unfold lower_filter_of. destruct (String.eqb nickname "") eqn:E;
      [ | reflexivity].
    apply String.eqb_eq in E. subst nickname. exfalso. apply Hf. reflexivity. }
  rewrite Hlf.
  eapply Forall_impl; [ | apply firstn_filter_all].
  intros e He. exact (kept_nickname _ _ _ Hf He).
Qed.

(** *** The summary *)

Lemma summary_get_none (k : string) (sm : list (string * summary_row)) :
  summary_get k sm = None <-> ~ In k (map fst sm).
Proof.
  induction sm as [|[k' r] sm IH]; cbn [summary_get map fst In].
  - tauto.
  - destruct (String.eqb k' k) eqn:E.
    + apply String.eqb_eq in E. split; [discriminate | intros H; exfalso; auto].
    + apply String.eqb_neq in E. rewrite IH. tauto.
Qed.

Lemma summary_set_keys (k : string) (r : summary_row)
    (sm : list (string * summary_row)) :
  map fst (summary_set k r sm)
  = match summary_get k sm with
    | Some _ => map fst sm
    | None => (map fst sm ++ [k])%list
    end.
Proof.
  induction sm as [|[k' r'] sm IH]; cbn [summary_set summary_get map fst app].
  - reflexivity.
  - destruct (String.eqb k' k); cbn [map fst]; [reflexivity | ].
    rewrite IH. destruct (summary_get k sm); reflexivity.
Qed.

Lemma summary_set_nodup (k : string) (r : summary_row)
    (sm : list (string * summary_row)) :
  NoDup (map fst sm) -> NoDup (map fst (summary_set k r sm)).
Proof.
  intros H. rewrite summary_set_keys.
  destruct (summary_get k sm) eqn:E; [exact H | ].
  apply summary_get_none in E.
  apply NoDup_app; [exact H | repeat constructor; intros [] | ].
  intros x Hx [<- | []]. exact (E Hx).
Qed.

Lemma summary_set_total (f : summary_row -> Z) (k : string) (r : summary_row)
    (sm : list (string * summary_row)) :
  total f (summary_set k r sm)
  = total f sm + f r
    - match summary_get k sm with Some o => f o | None => 0 end.
Proof.
  induction sm as [|[k' r'] sm IH];
    cbn [summary_set summary_get total fold_right snd].
  - lia.
  - destruct (String.eqb k' k); cbn [total fold_right snd]; [lia | ].
    fold (total f (summary_set k r sm)). fold (total f sm). rewrite IH. lia.
Qed.

Lemma summary_set_forall (P : string * summary_row -> Prop) (k : string)
    (r : summary_row) (sm : list (string * summary_row)) :
  (forall k', P (k', r)) -> Forall P sm -> Forall P (summary_set k r sm).
Proof.
  intros Hr. induction 1 as [|[k' r'] sm Hx Hsm IH]; cbn [summary_set].
  - repeat constructor. apply Hr.
  - destruct (String.eqb k' k); constructor; auto.
Qed.

Lemma summary_get_forall (P : string * summary_row -> Prop) (k : string)
    (r : summary_row) (sm : list (string * summary_row)) :
  Forall P sm -> summary_get k sm = Some r -> exists k', P (k', r).
Proof.
  induction 1 as [|[k' r'] sm Hx Hsm IH]; cbn [summary_get]; [discriminate | ].
  destruct (String.eqb k' k); [ | exact IH].
  intros [= <-]. exists k'. exact Hx.
Qed.

(** What the summary loop maintains. *)
Lemma summarise_from_counts (filtered : list json)
    (sm sm' : list (string * summary_row)) (n : nat) (wins : Z) :
  NoDup (map fst sm) ->
  Forall (fun kr => row_adds_up (snd kr)) sm ->
  total s_trades sm = Z.of_nat n ->
  total s_wins sm = wins ->
  summarise_from sm filtered = Ok sm' ->
  NoDup (map fst sm')
  /\ Forall (fun kr => row_adds_up (snd kr)) sm'
  /\ total s_trades sm' = Z.of_nat (n + List.length filtered)
  /\ total s_wins sm'
     = wins + Z.of_nat (List.length (filter win_entry filtered)).
Proof.
  revert sm n wins.
  induction filtered as [|e rest IH]; intros sm n wins Hnd Hrows Ht Hw H.
  - injection H as <-. cbn [List.length filter]. rewrite Nat.add_0_r.
    repeat split; try assumption. lia.
  - cbn [summarise_from rbind] in H.
    destruct (summary_add sm e) as [sm1 | x] eqn:Ea; [ | discriminate H].
    unfold summary_add in Ea.
    destruct (group_key e) as [key | x]; [ | discriminate Ea].
    cbn [rbind] in Ea.
    destruct (py_get e "amount" (JFloat fzero)) as [v | x];
      [ | discriminate Ea].
    cbn [rbind] in Ea.
    destruct (py_float (py_or v (JFloat fzero))) as [amt | x];
      [ | discriminate Ea].
    cbn [rbind] in Ea.
    destruct (py_get e "result" JNull) as [res | x] eqn:Er;
      [ | discriminate Ea].
    cbn [rbind] in Ea. injection Ea as <-. cbn [rbind] in H.
    assert (Hold : match summary_get key sm with
                   | Some o => row_adds_up o
                   | None => True
                   end).
    { destruct (summary_get key sm) as [o | ] eqn:Eg; [ | exact I].
      destruct (summary_get_forall _ _ _ _ Hrows Eg) as (k' & Hk). exact Hk. }
    assert (Hwin : win_entry e = str_eq "win" res).
    { unfold win_entry. rewrite Er. reflexivity. }
    cbn [filter List.length]. rewrite Hwin.
    match type of H with
    | summarise_from (summary_set key ?row sm) rest = _ =>
        specialize (IH (summary_set key row sm) (S n)
                       (total s_wins (summary_set key row sm))
                       (summary_set_nodup key row sm Hnd))
    end.
    destruct (str_eq "win" res).
    + destruct IH as (H1 & H2 & H3 & H4); try exact H.
      * apply summary_set_forall; [ | exact Hrows].
        intros k'. cbn [snd]. unfold row_adds_up in *. cbn [s_trades s_wins s_losses].
        destruct (summary_get key sm) as [o | ];
          [ | cbn [new_row s_trades s_wins s_losses]]; lia.
      * rewrite summary_set_total. cbn [s_trades].
        destruct (summary_get key sm); cbn [new_row s_trades]; lia.
      * reflexivity.
      * repeat split; try assumption.
        -- rewrite H3. f_equal. lia.
        -- rewrite H4. rewrite summary_set_total. cbn [s_wins List.length].
           destruct (summary_get key sm); cbn [new_row s_wins]; lia.
    + destruct IH as (H1 & H2 & H3 & H4); try exact H.
      * apply summary_set_forall; [ | exact Hrows].
        intros k'. cbn [snd]. unfold row_adds_up in *. cbn [s_trades s_wins s_losses].
        destruct (summary_get key sm) as [o | ];
          [ | cbn [new_row s_trades s_wins s_losses]]; lia.
      * rewrite summary_set_total. cbn [s_trades].
        destruct (summary_get key sm); cbn [new_row s_trades]; lia.
      * reflexivity.
      * repeat split; try assumption.
        -- rewrite H3. f_equal. lia.
        -- rewrite H4. rewrite summary_set_total. cbn [s_wins].
           destruct (summary_get key sm); cbn [new_row s_wins]; lia.
Qed.

Lemma live_wins_answer_summary (limit : Z) (cutoff : option instant)
    (nickname : option string) (recent : list json) (w : world) (resp : json) :
  fst (live_wins_answer limit cutoff nickname recent w) = Ok resp ->
  exists filtered sm ts,
    resp = JDict [("recent_trades", JList filtered);
                  ("summary", summary_json sm);
                  ("timestamp", JStr ts)]
    /\ NoDup (map fst sm)
    /\ Forall (fun kr => row_adds_up (snd kr)) sm
    /\ total s_trades sm = Z.of_nat (List.length filtered)
    /\ total s_wins sm = Z.of_nat (List.length (filter win_entry filtered)).
Proof.
  unfold live_wins_answer.
  destruct (collect _ _ _ _) as [filtered | e]; [ | discriminate].
  destruct (summarise filtered) as [sm | e] eqn:Es; [ | discriminate].
  cbn [fst]. intros [= <-].
  exists filtered, sm, (dt_isoformat (now w) ++ "Z").
  split; [reflexivity | ].
  unfold summarise in Es.
  apply (summarise_from_counts filtered [] sm 0 0) in Es;
    [ | constructor | constructor | reflexivity | reflexivity].
  exact Es.
Qed.

(** X23: the summary of [get_live_wins] adds up.  Whenever the handler
    returns, its answer has the three fields [recent_trades], [summary] and
    [timestamp]; the summary has one row per group; in every row [trades] is
    [wins + losses] and at least 1; over all rows, [trades] sums to the number
    of entries returned and [wins] to the number of them whose result is
    [win]. *)
Theorem live_wins_summary_adds_up (limit : Z) (minutes : option Z)
    (nickname : option string) (w : world) (resp : json) :
  fst (get_live_wins limit minutes nickname w) = Ok resp ->
  exists filtered sm ts,
    resp = JDict [("recent_trades", JList filtered);
                  ("summary", summary_json sm);
                  ("timestamp", JStr ts)]
    /\ NoDup (map fst sm)
    /\ Forall (fun kr => row_adds_up (snd kr)) sm
    /\ total s_trades sm = Z.of_nat (List.length filtered)
    /\ total s_wins sm = Z.of_nat (List.length (filter win_entry filtered)).
Proof.
  intros H. rewrite get_live_wins_run in H.
  destruct (limit <=? 0); [discriminate H | ].
  destruct (py_get _ _ _) as [v | e]; [ | discriminate H].
  destruct (py_list v) as [recent | e]; [ | discriminate H].
  destruct minutes as [m | ].
  - destruct (minutes_before (now w) m) as [c | ]; [ | discriminate H].
    exact (live_wins_answer_summary _ _ _ _ _ _ H).
  - exact (live_wins_answer_summary _ _ _ _ _ _ H).
Qed.

(** *** When the handler answers *)

Lemma collect_unfiltered (n : nat) (recent : list json) :
  (1 <= n)%nat -> collect n None None recent = Ok (firstn n recent).
Proof.
  revert n. induction recent as [|entry rest IH]; intros n Hn.
  - destruct n; reflexivity.
  - cbn [collect keep_entry rbind negb].
    destruct (n <=? 1)%nat eqn:E.
    + apply Nat.leb_le in E. assert (n = 1%nat) as -> by lia. reflexivity.
    + apply Nat.leb_gt in E. rewrite IH by lia. cbn [rbind].
      destruct n as [|n']; [lia | ].
      replace (S n' - 1)%nat with n' by lia. reflexivity.
Qed.

Lemma summary_add_readable (sm : list (string * summary_row)) (e : json) :
  readable_entry e = true -> exists sm', summary_add sm e = Ok sm'.
Proof.
  unfold readable_entry. destruct e as [ | | | | | |fields]; try discriminate.
  intros H. apply andb_true_iff in H. destruct H as [Hn Ha].
  unfold summary_add, group_key. cbn [py_get rbind].
  assert (Hs : exists s, py_or (dict_get_default "nickname" JNull fields) (JStr "")
                         = JStr s).
  { unfold dict_get_default.
    destruct (dict_get "nickname" fields) as [[ | | | |s| | ]|];
      try discriminate Hn.
    - exists ""%string. reflexivity.
    - unfold py_or. destruct (truthy (JStr s)); eexists; reflexivity.
    - exists ""%string. reflexivity. }
  destruct Hs as (s & ->). cbn [rbind].
  destruct (py_float _) as [amt | x]; [ | discriminate Ha].
  cbn [rbind]. eexists. reflexivity.
Qed.

Lemma summarise_from_readable (l : list json)
    (sm : list (string * summary_row)) :
  forallb readable_entry l = true -> exists sm', summarise_from sm l = Ok sm'.
Proof.
  revert sm. induction l as [|e rest IH]; intros sm H.
  - eexists. reflexivity.
  - cbn [forallb] in H. apply andb_true_iff in H. destruct H as [He Hr].
    destruct (summary_add_readable sm e He) as (sm1 & E1).
    cbn [summarise_from]. rewrite E1. cbn [rbind]. apply IH. exact Hr.
Qed.

(** X24: [get_live_wins] without filters.  With a positive [limit], no
    [minutes] and no [nickname], on a well-shaped Document whose feed entries
    are readable, the handler returns the first [min(limit, 500)] entries of
    the feed with their summary and the time of the call, and reads the clock
    once. *)
Theorem live_wins_without_filters (limit : Z) (w : world) (d : dict) :
  0 < limit ->
  stored_document (disk w) = JDict d ->
  document_shape (JDict d) = true ->
  forallb readable_entry (feed_of (JDict d)) = true ->
  exists sm,
    summarise (firstn (Z.to_nat (Z.min limit 500)) (feed_of (JDict d))) = Ok sm
    /\ get_live_wins limit None None w
       = (Ok (JDict [("recent_trades",
                      JList (firstn (Z.to_nat (Z.min limit 500))
                                    (feed_of (JDict d))));
                     ("summary", summary_json sm);
                     ("timestamp", JStr (dt_isoformat (now w) ++ "Z"))]),
          tick (loaded w)).
Proof.
  intros Hl Hd Hshape Hread.
  destruct (summarise_from_readable
              (firstn (Z.to_nat (Z.min limit 500)) (feed_of (JDict d))) []
              (forallb_firstn _ _ _ Hread)) as (sm & Es).
  exists sm. split; [exact Es | ].
  rewrite get_live_wins_run.
  apply Z.leb_gt in Hl. rewrite Hl. apply Z.leb_gt in Hl.
  rewrite Hd, (shaped_feed_list d Hshape). cbn [py_list].
  unfold live_wins_answer. cbn [lower_filter_of].
  rewrite collect_unfiltered by lia.
  unfold summarise in Es |- *. rewrite Es. reflexivity.
Qed.

(** *** Bad requests *)

Lemma keep_entry_raises (cutoff : option instant) (lf : option string)
    (e : json) (x : exn) :
  keep_entry cutoff lf e = Raise x -> x = AttributeError \/ x = TypeError.
Proof.
  unfold keep_entry.
  match goal with
  | |- context [rbind ?R _] =>
      assert (HR : forall y, R = Raise y -> y = AttributeError \/ y = TypeError);
      [ | destruct R as [[|]|y]; cbn [rbind negb]; [ | discriminate | ] ]
  end.
  - intros y. destruct cutoff as [c|]; [ | discriminate].
    destruct e; cbn [py_get rbind]; try (intros [= <-]; auto).
    destruct (parse_ts _) as [ts|]; [ | discriminate].
    destruct (instant_ltb ts c); [discriminate | intros [= <-]; auto].
  - destruct lf as [f|]; [ | discriminate].
    destruct (negb (String.eqb f "")); [ | discriminate].
    destruct e; cbn [py_get rbind]; try (intros [= <-]; auto).
    destruct (py_or _ _); try discriminate; intros [= <-]; auto.
  - intros [= <-]. apply HR. reflexivity.
Qed.

Lemma collect_raises (n : nat) (cutoff : option instant) (lf : option string)
    (recent : list json) (x : exn) :
  collect n cutoff lf recent = Raise x -> x = AttributeError \/ x = TypeError.
Proof.
  revert n. induction recent as [|entry rest IH]; intros n; [discriminate | ].
  cbn [collect rbind].
  destruct (keep_entry cutoff lf entry) as [[|]|y] eqn:E.
  - destruct (n <=? 1)%nat; [discriminate | ].
    destruct (collect (n - 1) cutoff lf rest) eqn:Ec; [discriminate | ].
    intros [= <-]. exact (IH _ Ec).
  - apply IH.
  - intros [= <-]. exact (keep_entry_raises _ _ _ _ E).
Qed.

Lemma py_float_raises (v : json) (x : exn) :
  py_float v = Raise x -> forall s detail, x <> HTTPException s detail.
Proof.
  destruct v; cbn [py_float]; unfold of_option;
    repeat match goal with
           | |- context [match ?o with _ => _ end] => destruct o
           end;
    try discriminate; intros [= <-]; discriminate.
Qed.

Lemma summarise_from_raises (l : list json) (sm : list (string * summary_row))
    (x : exn) :
  summarise_from sm l = Raise x -> forall s detail, x <> HTTPException s detail.
Proof.
  revert sm. induction l as [|e rest IH]; intros sm; [discriminate | ].
  cbn [summarise_from rbind].
  destruct (summary_add sm e) as [sm1 | y] eqn:Ea; [apply IH | ].
  intros [= <-]. unfold summary_add, group_key in Ea.
  destruct e; cbn [py_get rbind] in Ea;
    try (injection Ea as <-; discriminate).
  destruct (py_or (dict_get_default "nickname" JNull _) (JStr ""));
    cbn [rbind] in Ea; try (injection Ea as <-; discriminate).
  destruct (py_float _) as [amt | z] eqn:Ef; cbn [rbind] in Ea;
    [discriminate Ea | ].
  injection Ea as <-. exact (py_float_raises _ _ Ef).
Qed.

Lemma live_wins_answer_raises (limit : Z) (cutoff : option instant)
    (nickname : option string) (recent : list json) (w : world) (x : exn) :
  fst (live_wins_answer limit cutoff nickname recent w) = Raise x ->
  forall s detail, x <> HTTPException s detail.
Proof.
  unfold live_wins_answer.
  destruct (collect _ _ _ _) as [filtered | y] eqn:Ec.
  - destruct (summarise filtered) as [sm | y] eqn:Es; [discriminate | ].
    cbn [fst]. intros [= <-]. exact (summarise_from_raises _ _ _ Es).
  - cbn [fst]. intros [= <-].
    destruct (collect_raises _ _ _ _ _ Ec) as [-> | ->]; discriminate.
Qed.

(** X25: the bad requests of [get_live_wins].  On a well-shaped Document the
    handler raises an [HTTPException] in two cases only, both with status
    400: a [limit] that is not positive, refused before the store is read (so
    that a missing file is not created), and a [minutes] whose time span
    cannot be subtracted from the time of the call.  Every other failure is
    an exception of the interpreter. *)
Theorem live_wins_bad_requests (limit : Z) (minutes : option Z)
    (nickname : option string) (w : world) (d : dict) :
  stored_document (disk w) = JDict d ->
  document_shape (JDict d) = true ->
  (limit <= 0 ->
   get_live_wins limit minutes nickname w
   = (Raise (HTTPException 400 "limit must be > 0"), w))
  /\ (0 < limit ->
      forall m, minutes = Some m -> minutes_before (now w) m = None ->
      fst (get_live_wins limit minutes nickname w)
      = Raise (HTTPException 400 "invalid minutes parameter"))
  /\ (forall s detail,
        fst (get_live_wins limit minutes nickname w)
        = Raise (HTTPException s detail) ->
        s = 400
        /\ (limit <= 0
            \/ exists m, minutes = Some m /\ minutes_before (now w) m = None)).
Proof.
  intros Hd Hshape. rewrite get_live_wins_run.
  rewrite Hd, (shaped_feed_list d Hshape). cbn [py_list].
  split; [ | split].
  - intros Hl. apply Z.leb_le in Hl. rewrite Hl. reflexivity.
  - intros Hl m -> Hm. apply Z.leb_gt in Hl. rewrite Hl, Hm. reflexivity.
  - intros s detail.
    destruct (limit <=? 0) eqn:El.
    + apply Z.leb_le in El. cbn [fst]. intros [= <- _]. auto.
    + destruct minutes as [m | ].
      * destruct (minutes_before (now w) m) as [c | ] eqn:Em.
        -- intros H. exfalso.
           exact (live_wins_answer_raises _ _ _ _ _ _ H s detail eq_refl).
        -- cbn [fst]. intros [= <- _]. split; [reflexivity | ].
           right. exists m. auto.
      * intros H. exfalso.
        exact (live_wins_answer_raises _ _ _ _ _ _ H s detail eq_refl).
Qed.

End LiveWinsFacts.

(** ** The handlers run on concrete inputs *)

Section Runs.

Import Sample.



(** C2 at a failing input.  alice has a feed entry under the nickname Al and
    updates her nickname to the empty string: the record takes the empty
    nickname, the feed entry keeps Al. *)
Theorem update_user_keeps_feed_on_empty_nickname :
  let w' := snd (update_user "alice" (rename "") after_win) in
  slot "nickname" (JDict (fields_of (record_or_default (users_of (JDict (doc_of after_win))) "alice")))
  = Some (JStr "Al")
  /\ (exists u', stored_user (JDict (doc_of w')) "alice" = Some u'
                 /\ slot "nickname" u' = Some (JStr ""))
  /\ feed_of (JDict (doc_of w')) = feed_of (JDict (doc_of after_win))
  /\ (exists ent, In ent (feed_of (JDict (doc_of w')))
                  /\ entry_of "alice" ent = true
                  /\ entry_nickname ent = Some (JStr "Al")).
Proof.
  cbv zeta. split; [reflexivity | ].
  split.
  { eexists. split; reflexivity. }
  split; [reflexivity | ].
  eexists. split; [ | split ].
  - left. reflexivity.
  - reflexivity.
  - reflexivity.
Qed.

(** C3 at the same input.  The same empty nickname reaches the same
    Document through the two handlers: both store it in the record, but
    [update_user] leaves the nickname of the existing feed entry and
    [record_trade] rewrites it. *)
Theorem nickname_paths_differ_on_empty_nickname :
  let wu := snd (update_user "alice" (rename "") after_win) in
  let wt := snd (record_trade "alice" (trade "lose" None (Some "")) after_win) in
  option_map (slot "nickname") (stored_user (JDict (doc_of wu)) "alice")
  = Some (Some (JStr ""))
  /\ option_map (slot "nickname") (stored_user (JDict (doc_of wt)) "alice")
     = Some (Some (JStr ""))
  /\ map entry_nickname (feed_of (JDict (doc_of after_win))) = [Some (JStr "Al")]
  /\ map entry_nickname (feed_of (JDict (doc_of wu))) = [Some (JStr "Al")]
  /\ map entry_nickname (feed_of (JDict (doc_of wt)))
     = [Some (JStr ""); Some (JStr "")].
Proof.
  cbv zeta. repeat split; reflexivity.
Qed.

Lemma get_user_reads_only_witness :
  disk after_win <> Absent
  /\ snd (get_user "zed" after_win) = after_win
  /\ fst (get_user "zed" after_win) = Ok (absent_user_response "zed").
Proof.
  assert (Hpresent : disk after_win <> Absent) by discriminate.
  destruct (get_user_reads_only (PF := F) "zed" after_win) as (_ & Hw & Habs).
  split; [exact Hpresent | split].
  - exact (Hw Hpresent).
  - apply (Habs (doc_of after_win)).
    + reflexivity.
    + exact I.
    + reflexivity.
Defined.

Lemma record_trade_rejects_bad_result_witness :
  PyStr.lower "draw" <> "win"
  /\ PyStr.lower "draw" <> "lose"
  /\ fst (record_trade "alice" (trade "draw" (Some (10 # 1)) (Some "Ally")) after_win)
     = Raise (HTTPException 400 bad_result_detail)
  /\ snd (record_trade "alice" (trade "draw" (Some (10 # 1)) (Some "Ally")) after_win)
     = after_win.
Proof.
  assert (H1 : PyStr.lower "draw" <> "win") by discriminate.
  assert (H2 : PyStr.lower "draw" <> "lose") by discriminate.
  destruct (record_trade_rejects_bad_result (PF := F) "alice"
              (trade "draw" (Some (10 # 1)) (Some "Ally")) after_win H1 H2)
    as (_ & _ & Hw & H400).
  split; [exact H1 | split; [exact H2 | split]].
  - apply H400. reflexivity.
  - apply Hw. discriminate.
Defined.

Lemma close_month_twice_is_noop_witness :
  prev_last (now closed) = Ok (2024, 2)
  /\ fst (post_close_month closed)
     = Ok (JDict [("status", JStr "already_closed"); ("month", JStr "2024-02")])
  /\ disk (snd (post_close_month closed)) = disk closed.
Proof.
  assert (Hprev : prev_last (now closed) = Ok (2024, 2))
    by reflexivity.
  split; [exact Hprev | ].
  refine (close_month_twice_is_noop (PF := F) closed (doc_of closed)
            (fields_of (dict_get_default "monthly_winners" JNull (doc_of closed)))
            2024 2
            (dict_get_default "2024-02" JNull
               (fields_of (dict_get_default "monthly_winners" JNull (doc_of closed))))
            _ _ Hprev _);
    reflexivity.
Defined.


Lemma performance_is_guarded_witness :
  exists m,
    compute_user_metrics
      (JDict [("balance", @JFloat F (10 # 1));
              ("period_start_balance", @JFloat F (0 # 1))]) = Ok m
    /\ m_performance m = fzero.
Proof.
  destruct (performance_is_guarded (PF := F)
              (JDict [("balance", @JFloat F (10 # 1));
                      ("period_start_balance", @JFloat F (0 # 1))]))
    as (_ & _ & Hzero & Htotal).
  destruct (Htotal _ 0 0 eq_refl eq_refl eq_refl) as (m & Hm).
  - intros H. inversion H.
  - exists m. split; [exact Hm | ].
    apply (Hzero m Hm); reflexivity.
Defined.


Lemma record_trade_counts_and_balance_witness :
  valid_result (trade "lose" (Some (50 # 1)) None) = true
  /\ exists db' u',
       disk (snd (record_trade "alice" (trade "lose" (Some (50 # 1)) None) after_win))
       = Content db'
       /\ stored_user db' "alice" = Some (JDict u')
       /\ dict_get "trades" u' = Some (JInt 2)
       /\ dict_get "wins" u' = Some (JInt 1)
       /\ dict_get "balance" u' = Some (@JFloat F (5050 # 1)).
Proof.
  split; [reflexivity | ].
  destruct (record_trade_counts_and_balance (PF := F) "alice"
              (trade "lose" (Some (50 # 1)) None) after_win
              (doc_of after_win)
              (fields_of (record_or_default (users_of (JDict (doc_of after_win))) "alice"))
              1 1 (5100 # 1)
              eq_refl eq_refl
              eq_refl eq_refl
              eq_refl
              (fun _ => eq_refl)
              (fun _ => eq_refl))
    as (db' & u' & Hdisk & Hu & Ht & Hw & Hb).
  exists db', u'.
  split; [exact Hdisk | split; [exact Hu | split; [exact Ht | split]]].
  - exact Hw.
  - exact Hb.
Defined.

Lemma trades_are_wins_plus_losses_witness :
  forallb valid_result three_trades = true
  /\ exists db' u',
       disk (run_trades "carol" three_trades fresh) = Content db'
       /\ stored_user db' "carol" = Some (JDict u')
       /\ dict_get "trades" u' = Some (JInt 3)
       /\ dict_get "wins" u' = Some (JInt 2).
Proof.
  assert (Hvalid : forallb valid_result three_trades = true)
    by reflexivity.
  split; [exact Hvalid | ].
  destruct (trades_are_wins_plus_losses (PF := F) "carol" three_trades fresh
              (doc_of fresh)
              eq_refl eq_refl
              eq_refl Hvalid 3%nat
              (conj (le_S _ _ (le_S _ _ (le_n 1))) (le_n 3)))
    as (db' & u' & t & wn & Hdisk & Hu & Ht & Hw & Hwn & Htw & _).
  exists db', u'.
  split; [exact Hdisk | split; [exact Hu | split]].
  - rewrite Ht, Htw, Hwn. reflexivity.
  - rewrite Hw, Hwn. reflexivity.
Defined.

(** *** The further properties at concrete inputs *)

Lemma metrics_report_witness :
  compute_user_metrics one_in_four = Ok (metrics_of one_in_four)
  /\ m_balance (metrics_of one_in_four)
     = round2 (field_float "balance" one_in_four)
  /\ exists q,
       int_truediv 1 4 = Some q
       /\ m_win_rate (metrics_of one_in_four) = round2 (fmul q fhundred).
Proof.
  assert (H : compute_user_metrics one_in_four = Ok (metrics_of one_in_four))
    by reflexivity.
  split; [exact H | ].
  destruct (metrics_report (PF := F) one_in_four (metrics_of one_in_four) H)
    as (Hb & _ & _ & Hw & _).
  split; [exact Hb | exact (Hw eq_refl)].
Defined.



Lemma get_winners_lookup_witness :
  disk closed <> Absent
  /\ fst (get_winners "2024-01" closed)
     = Raise (HTTPException 404 "No winners for that month")
  /\ snd (get_winners "2024-01" closed) = closed.
Proof.
  assert (Hpresent : disk closed <> Absent) by discriminate.
  split; [exact Hpresent | ].
  destruct (get_winners_lookup (PF := F) "2024-01" closed (doc_of closed)
              eq_refl eq_refl)
    as (Hrun & _ & Hw).
  split; [exact Hrun | exact (Hw Hpresent)].
Defined.

Lemma latest_winners_is_greatest_key_witness :
  exists latest winners,
    fst (get_latest_winners closed)
    = Ok (JDict [("latest", JStr latest);
                 ("winners", winners);
                 ("monthly_winners",
                  JDict (fields_of (dict_get_default "monthly_winners" JNull
                                      (doc_of closed))))])
    /\ snapshot_of (JDict (doc_of closed)) latest = Some winners
    /\ forall k,
         In k (map fst (fields_of (dict_get_default "monthly_winners" JNull
                                     (doc_of closed)))) ->
         String.leb k latest = true.
Proof.
  exact (latest_winners_is_greatest_key (PF := F) closed (doc_of closed)
           eq_refl eq_refl).
Defined.

Lemma winners_after_close_witness :
  prev_last (now two_users) = Ok (2024, 2)
  /\ exists podium,
       fst (post_close_month two_users)
       = Ok (JDict [("status", JStr "closed");
                    ("month", JStr "2024-02");
                    ("podium", JList podium)])
       /\ fst (get_winners "2024-02" (snd (post_close_month two_users)))
          = Ok (JDict [("month", JStr "2024-02");
                       ("winners",
                        JDict [("podium", JList podium);
                               ("closed_at", JStr "2024-03-01T12:00:03Z")])]).
Proof.
  split; [reflexivity | ].
  exact (winners_after_close (PF := F) two_users (doc_of two_users) 2024 2
           eq_refl eq_refl eq_refl eq_refl).
Defined.

Lemma close_then_close_again_witness :
  prev_last (now two_users) = Ok (2024, 2)
  /\ prev_last (now (snd (post_close_month two_users))) = Ok (2024, 2)
  /\ fst (post_close_month (snd (post_close_month two_users)))
     = Ok (JDict [("status", JStr "already_closed");
                  ("month", JStr "2024-02")])
  /\ disk (snd (post_close_month (snd (post_close_month two_users))))
     = disk (snd (post_close_month two_users)).
Proof.
  split; [reflexivity | ]. split; [reflexivity | ].
  exact (close_then_close_again (PF := F) two_users (doc_of two_users) 2024 2
           eq_refl eq_refl eq_refl eq_refl eq_refl).
Defined.

Lemma close_month_raises_before_writing_witness :
  fst (post_close_month year_one) = Raise OverflowError
  /\ disk (snd (post_close_month year_one)) = disk year_one.
Proof.
  assert (H : fst (post_close_month year_one) = Raise OverflowError)
    by reflexivity.
  split; [exact H | ].
  destruct (close_month_raises_before_writing (PF := F) year_one
              OverflowError H) as (_ & Hdisk).
  apply Hdisk. discriminate.
Defined.

Lemma close_month_keeps_the_rest_witness :
  snapshot_of (JDict (doc_of two_users)) "2024-02" = None
  /\ exists db',
       disk (snd (post_close_month two_users)) = Content db'
       /\ feed_of db' = feed_of (JDict (doc_of two_users))
       /\ exists r',
            stored_user db' "alice" = Some (JDict r')
            /\ dict_get "nickname" r' = Some (JStr "Al").
Proof.
  split; [reflexivity | ].
  destruct (close_month_keeps_the_rest (PF := F) two_users (doc_of two_users)
              2024 2 eq_refl eq_refl eq_refl eq_refl)
    as (db' & Hdisk & Hfeed & _ & Hus).
  exists db'. split; [exact Hdisk | ]. split; [exact Hfeed | ].
  destruct (Hus "alice"
              (fields_of (record_or_default
                            (users_of (JDict (doc_of two_users))) "alice"))
              eq_refl)
    as (r' & Hr & Hn & _).
  exists r'. split; [exact Hr | exact Hn].
Defined.

Lemma update_user_touches_one_user_witness :
  exists db',
    disk (snd (update_user "alice" (rename "Ally") two_users)) = Content db'
    /\ stored_user db' "bob" = stored_user (JDict (doc_of two_users)) "bob"
    /\ slot "monthly_winners" db' = Some (JDict [])
    /\ List.length (feed_of db') = 2%nat.
Proof.
  destruct (update_user_touches_one_user (PF := F) "alice" (rename "Ally")
              two_users (doc_of two_users) eq_refl eq_refl)
    as (db' & Hdisk & (Hothers & Hwinners & _) & Hlen).
  exists db'. split; [exact Hdisk | ].
  split; [apply Hothers; discriminate | ].
  split; [exact Hwinners | exact Hlen].
Defined.

Lemma update_user_stores_fields_witness :
  exists db' u',
    disk (snd (update_user "alice" topup two_users)) = Content db'
    /\ stored_user db' "alice" = Some (JDict u')
    /\ dict_get "last_update" u' = Some (JStr "2024-03-01T12:00:02Z")
    /\ dict_get "balance" u' = Some (@JFloat F (123457 # 100))
    /\ dict_get "trades" u' = Some (JInt 7)
    /\ dict_get "wins" u' = Some (JInt 1).
Proof.
  destruct (update_user_stores_fields (PF := F) "alice" topup two_users
              (doc_of two_users)
              (fields_of (record_or_default
                            (users_of (JDict (doc_of two_users))) "alice"))
              eq_refl eq_refl eq_refl)
    as (db' & u' & Hdisk & Hu & Hl & Hb & Ht & Hw & _).
  exists db', u'.
  split; [exact Hdisk | ]. split; [exact Hu | ]. split; [exact Hl | ].
  split; [exact Hb | ]. split; [exact Ht | exact Hw].
Defined.

Lemma update_user_answers_like_get_user_witness :
  stored_document (disk two_users) = JDict (doc_of two_users)
  /\ fst (update_user "alice" (rename "Ally") two_users)
     = rbind (fst (get_user "alice"
                     (snd (update_user "alice" (rename "Ally") two_users))))
             (fun view =>
                Ok (with_message (Some "Ally")
                                 [("status", JStr "ok"); ("user", view)])).
Proof.
  split; [reflexivity | ].
  exact (update_user_answers_like_get_user (PF := F) "alice" (rename "Ally")
           two_users (doc_of two_users)
           (fields_of (record_or_default
                         (users_of (JDict (doc_of two_users))) "alice"))
           eq_refl eq_refl eq_refl).
Defined.

Lemma update_user_raises_after_writing_witness :
  fst (update_user "dave" (rename "Dave") broken) = Raise ValueError
  /\ exists db' u',
       disk (snd (update_user "dave" (rename "Dave") broken)) = Content db'
       /\ stored_user db' "dave" = Some (JDict u')
       /\ dict_get "last_update" u' = Some (JStr "2024-03-01T12:00:00Z")
       /\ compute_user_metrics (JDict u') = Raise ValueError.
Proof.
  assert (H : fst (update_user "dave" (rename "Dave") broken)
              = Raise ValueError) by reflexivity.
  split; [exact H | ].
  exact (update_user_raises_after_writing (PF := F) "dave" (rename "Dave")
           broken (doc_of broken) ValueError eq_refl eq_refl H).
Defined.

Lemma record_trade_prepends_and_caps_witness :
  valid_result (trade "LOSE" (Some (50 # 1)) None) = true
  /\ exists db' u',
       disk (snd (record_trade "bob" (trade "LOSE" (Some (50 # 1)) None)
                    after_win))
       = Content db'
       /\ stored_user db' "bob" = Some (JDict u')
       /\ feed_of db'
          = firstn 500
              (JDict [("ts", JStr "2024-03-01T12:00:01Z");
                      ("user_id", JStr "bob");
                      ("nickname",
                       py_or (dict_get_default "nickname" (JStr "") u')
                             (JStr ""));
                      ("result", JStr "lose");
                      ("amount", @JFloat F (50 # 1))]
               :: feed_of (JDict (doc_of after_win)))
       /\ List.length (feed_of db') = 2%nat.
Proof.
  split; [reflexivity | ].
  exact (record_trade_prepends_and_caps (PF := F) "bob"
           (trade "LOSE" (Some (50 # 1)) None) after_win
           (doc_of after_win)
           (fields_of (record_or_default
                         (users_of (JDict (doc_of after_win))) "bob"))
           0 0 (5000 # 1)
           eq_refl eq_refl eq_refl eq_refl eq_refl
           (fun _ => eq_refl) (fun _ => eq_refl)).
Defined.

Lemma record_trade_touches_one_user_witness :
  valid_result (trade "LOSE" (Some (50 # 1)) None) = true
  /\ exists db',
       disk (snd (record_trade "bob" (trade "LOSE" (Some (50 # 1)) None)
                    after_win))
       = Content db'
       /\ stored_user db' "alice"
          = stored_user (JDict (doc_of after_win)) "alice"
       /\ slot "last_month_closed" db' = Some JNull.
Proof.
  split; [reflexivity | ].
  destruct (record_trade_touches_one_user (PF := F) "bob"
              (trade "LOSE" (Some (50 # 1)) None) after_win
              (doc_of after_win)
              (fields_of (record_or_default
                            (users_of (JDict (doc_of after_win))) "bob"))
              0 0 (5000 # 1)
              eq_refl eq_refl eq_refl eq_refl eq_refl
              (fun _ => eq_refl) (fun _ => eq_refl))
    as (db' & Hdisk & Hothers & _ & Hlast).
  exists db'. split; [exact Hdisk | ].
  split; [apply Hothers; discriminate | exact Hlast].
Defined.

Lemma record_trade_answers_like_get_user_witness :
  valid_result (trade "win" (Some (10 # 1)) (Some "Ally")) = true
  /\ fst (record_trade "alice" (trade "win" (Some (10 # 1)) (Some "Ally"))
            after_win)
     = rbind (fst (get_user "alice"
                     (snd (record_trade "alice"
                             (trade "win" (Some (10 # 1)) (Some "Ally"))
                             after_win))))
             (fun view =>
                Ok (with_message (Some "Ally")
                                 [("status", JStr "ok"); ("user", view)])).
Proof.
  split; [reflexivity | ].
  exact (record_trade_answers_like_get_user (PF := F) "alice"
           (trade "win" (Some (10 # 1)) (Some "Ally")) after_win
           (doc_of after_win)
           (fields_of (record_or_default
                         (users_of (JDict (doc_of after_win))) "alice"))
           1 1 (5100 # 1)
           eq_refl eq_refl eq_refl eq_refl eq_refl
           (fun _ => eq_refl) (fun _ => eq_refl)).
Defined.

Lemma update_user_stores_trimmed_nickname_witness :
  (40 < String.length (PyStr.strip long_name))%nat
  /\ exists db' u' n,
       disk (snd (update_user "bob" (rename long_name) two_users))
       = Content db'
       /\ stored_user db' "bob" = Some (JDict u')
       /\ dict_get "nickname" u' = Some (JStr n)
       /\ (String.length n <= 40)%nat
       /\ match n with
          | EmptyString => True
          | String c _ => PyStr.isspace c = false
          end.
Proof.
  split; [cbv; lia | ].
  exact (update_user_stores_trimmed_nickname (PF := F) "bob"
           (rename long_name) two_users (doc_of two_users)
           (fields_of (record_or_default
                         (users_of (JDict (doc_of two_users))) "bob"))
           long_name
           eq_refl eq_refl eq_refl eq_refl eq_refl).
Defined.

Lemma live_wins_entries_witness :
  fst (get_live_wins (PT := T) 10 (Some 1) None two_users)
  = Ok (answer_of (get_live_wins (PT := T) 10 (Some 1) None two_users))
  /\ exists picked,
       slot "recent_trades"
            (answer_of (get_live_wins (PT := T) 10 (Some 1) None two_users))
       = Some (JList picked)
       /\ picked
          = firstn 10
              (filter (kept (PT := T) (Some (-58)) None)
                      (feed_of (JDict (doc_of two_users))))
       /\ subseq picked (feed_of (JDict (doc_of two_users)))
       /\ Z.of_nat (List.length picked) <= 10.
Proof.
  assert (H : fst (get_live_wins (PT := T) 10 (Some 1) None two_users)
              = Ok (answer_of
                      (get_live_wins (PT := T) 10 (Some 1) None two_users)))
    by reflexivity.
  split; [exact H | ].
  exact (live_wins_entries (PF := F) (PT := T) 10 (Some 1) None two_users
           (doc_of two_users) _ eq_refl eq_refl H).
Defined.

Lemma live_wins_nickname_filter_witness :
  PyStr.strip (PyStr.lower " AL") = "al"
  /\ exists picked,
       slot "recent_trades"
            (answer_of (get_live_wins (PT := T) 10 None (Some " AL") two_users))
       = Some (JList picked)
       /\ Forall (fun e => exists fields s,
                      e = JDict fields
                      /\ py_or (dict_get_default "nickname" JNull fields)
                               (JStr "")
                         = JStr s
                      /\ PyStr.lower (PyStr.strip s) = "al")
                 picked.
Proof.
  split; [reflexivity | ].
  assert (Hf : PyStr.strip (PyStr.lower " AL") <> "") by discriminate.
  exact (live_wins_nickname_filter (PF := F) (PT := T) 10 None " AL"
           two_users (doc_of two_users) _ eq_refl eq_refl Hf eq_refl).
Defined.

Lemma live_wins_summary_adds_up_witness :
  exists filtered sm ts,
    answer_of (get_live_wins (PT := T) 10 (Some 1) None two_users)
    = JDict [("recent_trades", JList filtered);
             ("summary", summary_json sm);
             ("timestamp", JStr ts)]
    /\ NoDup (map fst sm)
    /\ Forall (fun kr => row_adds_up (snd kr)) sm
    /\ total s_trades sm = Z.of_nat (List.length filtered)
    /\ total s_wins sm = Z.of_nat (List.length (filter win_entry filtered)).
Proof.
  exact (live_wins_summary_adds_up (PF := F) (PT := T) 10 (Some 1) None
           two_users _ eq_refl).
Defined.

Lemma live_wins_without_filters_witness :
  forallb readable_entry (feed_of (JDict (doc_of two_users))) = true
  /\ exists sm,
       summarise (firstn 1 (feed_of (JDict (doc_of two_users)))) = Ok sm
       /\ get_live_wins (PT := T) 1 None None two_users
          = (Ok (JDict [("recent_trades",
                         JList (firstn 1 (feed_of (JDict (doc_of two_users)))));
                        ("summary", summary_json sm);
                        ("timestamp", JStr "2024-03-01T12:00:02Z")]),
             tick (loaded two_users)).
Proof.
  split; [reflexivity | ].
  exact (live_wins_without_filters (PF := F) (PT := T) 1 two_users
           (doc_of two_users) eq_refl eq_refl eq_refl eq_refl).
Defined.

Lemma live_wins_bad_requests_witness :
  get_live_wins (PT := T) 0 (Some 1) None two_users
  = (Raise (HTTPException 400 "limit must be > 0"), two_users)
  /\ minutes_before (PyDatetime := T) (now two_users) 2000000 = None
  /\ fst (get_live_wins (PT := T) 5 (Some 2000000) None two_users)
     = Raise (HTTPException 400 "invalid minutes parameter").
Proof.
  destruct (live_wins_bad_requests (PF := F) (PT := T) 0 (Some 1) None
              two_users (doc_of two_users) eq_refl eq_refl)
    as (Hlimit & _ & _).
  destruct (live_wins_bad_requests (PF := F) (PT := T) 5 (Some 2000000) None
              two_users (doc_of two_users) eq_refl eq_refl)
    as (_ & Hminutes & _).
  split; [apply Hlimit; discriminate | ].
  split; [reflexivity | ].
  exact (Hminutes eq_refl 2000000 eq_refl eq_refl).
Defined.

Lemma update_user_renames_witness :
  str_eq (trimmed " Ally ") (@JStr F "Al") = false
  /\ exists db' u',
       disk (snd (update_user "alice" (rename " Ally ") after_win))
       = Content db'
       /\ stored_user db' "alice" = Some (JDict u')
       /\ dict_get "nickname" u' = Some (JStr "Ally")
       /\ feed_of db'
          = map (patch_entry "alice" "Ally")
                (feed_of (JDict (doc_of after_win))).
Proof.
  split; [reflexivity | ].
  exact (update_user_renames (PF := F) "alice" (rename " Ally ") after_win
           (doc_of after_win)
           (fields_of (record_or_default
                         (users_of (JDict (doc_of after_win))) "alice"))
           " Ally "
           eq_refl eq_refl eq_refl eq_refl eq_refl).
Defined.

Lemma nickname_paths_agree_witness :
  valid_result (trade "win" (Some (10 # 1)) (Some "Ally")) = true
  /\ exists dt ut du uu entry,
       disk (snd (record_trade "alice"
                    (trade "win" (Some (10 # 1)) (Some "Ally")) after_win))
       = Content (JDict dt)
       /\ disk (snd (update_user "alice" (rename "Ally") after_win))
          = Content (JDict du)
       /\ stored_user (JDict dt) "alice" = Some (JDict ut)
       /\ stored_user (JDict du) "alice" = Some (JDict uu)
       /\ dict_get "nickname" ut = dict_get "nickname" uu
       /\ feed_of (JDict dt) = capped entry (feed_of (JDict du)).
Proof.
  split; [reflexivity | ].
  assert (Hne : changed_nick_of (Some "Ally")
                  (fields_of (record_or_default
                                (users_of (JDict (doc_of after_win))) "alice"))
                <> Some "").
  { change (Some "Ally" <> Some ""). discriminate. }
  exact (nickname_paths_agree (PF := F) "alice"
           (trade "win" (Some (10 # 1)) (Some "Ally")) (rename "Ally")
           after_win (doc_of after_win)
           (fields_of (record_or_default
                         (users_of (JDict (doc_of after_win))) "alice"))
           1 1 (5100 # 1)
           eq_refl eq_refl eq_refl eq_refl eq_refl eq_refl eq_refl eq_refl
           Hne).
Defined.

End Runs.
